(** * munkipkg: build-info resolution and Bom.txt reconciliation

    A shallow embedding of the build-info resolver ([validate_build_info_keys],
    [read_build_info], [default_build_info], [get_build_info]) and of the
    reconciler ([sync_from_bom_info]) of [munkipkg.py], with the properties
    the specification states about them.

    Conventions of the model.
    - A Python [str] is a [string]; its characters are the code points
      below 256.
    - A parsed build-info document (what [json.load], [yaml.load] or
      [plistlib.load] returns) is a [pyval].
    - The file system is a finite map from resolved paths to inodes. To
      resolve a path is to drop its empty and [.] components; [..] and
      symbolic links inside a path are outside the model.
    - Python exceptions are values of [exn]; a computation is a function
      from the state (file system and the two output streams) to a result
      and a state, so effects that happened before an exception remain. *)

From Stdlib Require Import ZArith Lia Bool Ascii String List DecimalString.
From stdpp Require Import base option strings gmap.

Local Open Scope string_scope.
Local Open Scope Z_scope.

(** ** Python string operations *)

Module PyStr.

Definition TAB : ascii := "009"%char.
Definition NL : ascii := "010"%char.
Definition SLASH : ascii := "/"%char.

Definition ascii_eqb (a b : ascii) : bool := Ascii.eqb a b.

(** [s.startswith(p)] *)
Definition startswith (s p : string) : bool := String.prefix p s.

(** [s[n:]] for [n >= 0] *)
Fixpoint drop (n : nat) (s : string) : string :=
  match n, s with
  | O, _ => s
  | S _, EmptyString => EmptyString
  | S m, String _ r => drop m r
  end.

(** [s[-4:]] and the like: the last [n] characters, or all of [s] *)
Definition last_n (n : nat) (s : string) : string :=
  drop (String.length s - n)%nat s.

(** [s.rstrip('\n')] *)
Fixpoint rstrip_nl (s : string) : string :=
  match s with
  | EmptyString => EmptyString
  | String c r =>
      match rstrip_nl r with
      | EmptyString => if ascii_eqb c NL then EmptyString else String c EmptyString
      | r' => String c r'
      end
  end.

(** [s.split(sep)] for a one-character separator: never the empty list *)
Fixpoint split (sep : ascii) (s : string) : list string :=
  match s with
  | EmptyString => [EmptyString]
  | String c r =>
      if ascii_eqb c sep then EmptyString :: split sep r
      else match split sep r with
           | h :: t => String c h :: t
           | [] => [String c EmptyString]
           end
  end.

(** [s.partition(sep)]: the text before the first separator, whether the
    separator was found, the text after it *)
Fixpoint partition (sep : ascii) (s : string) : string * bool * string :=
  match s with
  | EmptyString => (EmptyString, false, EmptyString)
  | String c r =>
      if ascii_eqb c sep then (EmptyString, true, r)
      else let '(a, f, b) := partition sep r in (String c a, f, b)
  end.

(** [needle in s] for strings *)
Fixpoint contains (needle s : string) : bool :=
  String.prefix needle s ||
  match s with
  | EmptyString => false
  | String _ r => contains needle r
  end.

(** [s.replace(old, new)] for a non-empty [old]: every occurrence, scanning
    from the left, the text put in is not scanned again. [skip] counts the
    characters of a match still to be dropped. *)
Fixpoint replace_go (old new : string) (skip : nat) (s : string) : string :=
  match s with
  | EmptyString => EmptyString
  | String c r =>
      match skip with
      | S k => replace_go old new k r
      | O =>
          if String.prefix old s
          then new +:+ replace_go old new (String.length old - 1) r
          else String c (replace_go old new O r)
      end
  end.

Definition replace (s old new : string) : string := replace_go old new O s.

(** [s.endswith(suffix)] *)
Definition endswith (s suffix : string) : bool :=
  String.eqb (last_n (String.length suffix) s) suffix.

(** The head (up to and including the last slash) and the tail of a path *)
Fixpoint split_last_slash (s : string) : string * string :=
  match s with
  | EmptyString => (EmptyString, EmptyString)
  | String c r =>
      match split_last_slash r with
      | (EmptyString, t) =>
          if ascii_eqb c SLASH then (String c EmptyString, r)
          else (EmptyString, String c t)
      | (h, t) => (String c h, t)
      end
  end.

Fixpoint all_slashes (s : string) : bool :=
  match s with
  | EmptyString => true
  | String c r => ascii_eqb c SLASH && all_slashes r
  end.

(** [s.rstrip('/')] *)
Fixpoint rstrip_slash (s : string) : string :=
  match s with
  | EmptyString => EmptyString
  | String c r =>
      match rstrip_slash r with
      | EmptyString => if ascii_eqb c SLASH then EmptyString else String c EmptyString
      | r' => String c r'
      end
  end.

Fixpoint endswith_char (s : string) (c : ascii) : bool :=
  match s with
  | EmptyString => false
  | String d EmptyString => ascii_eqb d c
  | String _ r => endswith_char r c
  end.

(** [os.path.basename], [os.path.dirname] and [os.path.join] of posixpath *)
Definition basename (p : string) : string := snd (split_last_slash p).

Definition dirname (p : string) : string :=
  let head := fst (split_last_slash p) in
  if all_slashes head then head else rstrip_slash head.

Definition path_join (a b : string) : string :=
  if startswith b "/" then b
  else if (String.length a =? 0)%nat || endswith_char a SLASH then a +:+ b
  else a +:+ "/" +:+ b.

End PyStr.

(** ** Python numbers: [int(s)], [int(s, 8)], [str(n)], [oct(n)] *)

Module PyNum.

(** The characters [str.strip] and [int] take for white space, among the
    code points below 256 *)
Definition is_space (c : ascii) : bool :=
  let n := nat_of_ascii c in
  ((9 <=? n) && (n <=? 13) || (28 <=? n) && (n <=? 32)
   || (n =? 133) || (n =? 160))%nat.

Fixpoint lstrip (s : string) : string :=
  match s with
  | String c r => if is_space c then lstrip r else s
  | EmptyString => EmptyString
  end.

Fixpoint rstrip (s : string) : string :=
  match s with
  | EmptyString => EmptyString
  | String c r =>
      match rstrip r with
      | EmptyString => if is_space c then EmptyString else String c EmptyString
      | r' => String c r'
      end
  end.

Definition strip (s : string) : string := rstrip (lstrip s).

Definition digit_val (base : Z) (c : ascii) : option Z :=
  let n := Z.of_nat (nat_of_ascii c) in
  if (48 <=? n) && (n <? 48 + base) then Some (n - 48) else None.

(** Where the scan of the digits stands: an underscore may follow a digit
    (or the base prefix), and a digit must follow an underscore. *)
Inductive scan := AfterPrefix | AfterDigit | AfterUnderscore | AtStart.

Fixpoint digits (base : Z) (st : scan) (acc : Z) (s : string) : option Z :=
  match s with
  | EmptyString => match st with AfterDigit => Some acc | _ => None end
  | String c r =>
      if Ascii.eqb c "_"%char then
        match st with
        | AfterDigit | AfterPrefix => digits base AfterUnderscore acc r
        | _ => None
        end
      else
        match digit_val base c with
        | Some d => digits base AfterDigit (acc * base + d) r
        | None => None
        end
  end.

Definition unsigned (octal : bool) (s : string) : option Z :=
  if octal then
    match s with
    | String "0" (String "o" r) | String "0" (String "O" r) =>
        digits 8 AfterPrefix 0 r
    | _ => digits 8 AtStart 0 s
    end
  else digits 10 AtStart 0 s.

(** [int(s)] when [octal] is false and [int(s, 8)] when it is true;
    [None] stands for the [ValueError] *)
Definition parse (octal : bool) (s : string) : option Z :=
  match strip s with
  | String "-" r => Z.opp <$> unsigned octal r
  | String "+" r => unsigned octal r
  | r => unsigned octal r
  end.

(** [str(n)] for an integer *)
Definition to_str (n : Z) : string := NilZero.string_of_int (Z.to_int n).

Definition digit_char (d : Z) : ascii := ascii_of_nat (48 + Z.to_nat d).

Fixpoint oct_digits (fuel : nat) (n : Z) (acc : string) : string :=
  match fuel with
  | O => acc
  | S f =>
      let acc' := String (digit_char (n mod 8)) acc in
      if n / 8 =? 0 then acc' else oct_digits f (n / 8) acc'
  end.

(** [oct(n)] of Python 3 *)
Definition oct (n : Z) : string :=
  let m := Z.abs n in
  (if n <? 0 then "-0o" else "0o")
  +:+ oct_digits (S (Z.to_nat (Z.log2 m))) m EmptyString.

Definition hex_char (d : nat) : ascii :=
  if (d <? 10)%nat then ascii_of_nat (48 + d) else ascii_of_nat (87 + d).

End PyNum.

(** ** Python values *)

#[warnings="-register-all"]
Inductive pyval :=
| PNone
| PBool (b : bool)
| PInt (z : Z)
| PStr (s : string)
| PList (l : list pyval)
| PDict (d : list (string * pyval)).

Module PyVal.

(** [key in d] and [d[key]] for a loaded mapping: the keys are strings *)
Fixpoint lookup (key : string) (d : list (string * pyval)) : option pyval :=
  match d with
  | [] => None
  | (k, v) :: r => if String.eqb k key then Some v else lookup key r
  end.

(** [v == c] where [c] is a string or a boolean; Python's [True == 1] and
    [False == 0] hold, a container or [None] equals neither *)
Definition eq_scalar (v c : pyval) : bool :=
  match v, c with
  | PStr a, PStr b => String.eqb a b
  | PBool a, PBool b => Bool.eqb a b
  | PInt z, PBool b => z =? (if b then 1 else 0)
  | _, _ => false
  end.

(** [v in cs] for a list [cs] of strings or booleans *)
Definition in_list (v : pyval) (cs : list pyval) : bool :=
  existsb (eq_scalar v) cs.

Definition escape_char (quote c : ascii) : string :=
  let n := nat_of_ascii c in
  if Ascii.eqb c "\"%char then "\\"
  else if Ascii.eqb c quote then String "\"%char (String c EmptyString)
  else if (n =? 9)%nat then "\t"
  else if (n =? 10)%nat then "\n"
  else if (n =? 13)%nat then "\r"
  else if ((n <? 32) || (n =? 127) || (128 <=? n) && (n <=? 160) || (n =? 173))%nat
  then String "\"%char (String "x"%char
         (String (PyNum.hex_char (n / 16)) (String (PyNum.hex_char (n mod 16)) EmptyString)))
  else String c EmptyString.

Fixpoint escape (quote : ascii) (s : string) : string :=
  match s with
  | EmptyString => EmptyString
  | String c r => escape_char quote c +:+ escape quote r
  end.

Definition SQ : ascii := "'"%char.
Definition DQ : ascii := ascii_of_nat 34.

Fixpoint has_char (c : ascii) (s : string) : bool :=
  match s with
  | EmptyString => false
  | String d r => Ascii.eqb c d || has_char c r
  end.

(** [repr(s)] for a string: single quotes, unless [s] has a single quote
    and no double quote *)
Definition repr_str (s : string) : string :=
  let q := if has_char SQ s && negb (has_char DQ s) then DQ else SQ in
  String q (escape q s) +:+ String q EmptyString.

Definition comma_join (l : list string) : string :=
  match l with
  | [] => EmptyString
  | h :: t => fold_left (fun acc x => acc +:+ ", " +:+ x) t h
  end.

Fixpoint repr (v : pyval) : string :=
  match v with
  | PNone => "None"
  | PBool true => "True"
  | PBool false => "False"
  | PInt z => PyNum.to_str z
  | PStr s => repr_str s
  | PList l => "[" +:+ comma_join (map repr l) +:+ "]"
  | PDict d =>
      "{" +:+ comma_join (map (fun kv => repr_str (fst kv) +:+ ": " +:+ repr (snd kv)) d)
      +:+ "}"
  end.

(** [str(v)] *)
Definition str (v : pyval) : string :=
  match v with
  | PStr s => s
  | _ => repr v
  end.

(** Python truth value *)
Definition truthy (v : pyval) : bool :=
  match v with
  | PNone => false
  | PBool b => b
  | PInt z => negb (z =? 0)
  | PStr s => negb (String.length s =? 0)%nat
  | PList l => negb (length l =? 0)%nat
  | PDict d => negb (length d =? 0)%nat
  end.

End PyVal.

(** ** Exceptions, output and the file system *)

Inductive exn :=
| OSError (errno : Z) (strerror filename : string)
| ValueError (msg : string)
| IndexError
| KeyError (key : string)
| TypeError
| AttributeError
| OverflowError
| NameError
| MunkiPkgError (msg : string)
| BuildError (msg : string).

(** [str(err)] *)
Definition exn_str (e : exn) : string :=
  match e with
  | OSError n msg f =>
      "[Errno " +:+ PyNum.to_str n +:+ "] " +:+ msg +:+ ": " +:+ PyVal.repr_str f
  | ValueError m | MunkiPkgError m | BuildError m => m
  | KeyError k => PyVal.repr_str k
  | IndexError => "list index out of range"
  | TypeError | AttributeError | OverflowError | NameError => EmptyString
  end.

(** [BuildError] is a subclass of [MunkiPkgError] *)
Definition is_MunkiPkgError (e : exn) : bool :=
  match e with MunkiPkgError _ | BuildError _ => true | _ => false end.

Definition is_OSError_or_ValueError (e : exn) : bool :=
  match e with OSError _ _ _ | ValueError _ => true | _ => false end.

Inductive stream := Stdout | Stderr.

(** What [lstat] reports of a node, and the text of a regular file (with
    newlines already translated, as a file opened in text mode gives it) *)
Record inode := mk_inode {
  st_mode : Z;
  st_uid : Z;
  st_gid : Z;
  st_data : string
}.

Record state := mk_state {
  fs : gmap string inode;
  out : list (stream * string)
}.

(** What a parser of build-info files returns: the document, or one of the
    errors [read_build_info] catches ([ExpatError], [ValueError],
    [ScannerError]) with its message *)
Inductive load_result :=
| Loaded (v : pyval)
| Invalid (msg : string).

(** The process and its libraries: effective user id, umask, the name the
    tool was started under, whether PyYAML is installed, and the three
    parsers as functions of the file's text *)
Record env := mk_env {
  euid : Z;
  umask : Z;
  toolname : string;
  yaml_installed : bool;
  json_load : string -> load_result;
  yaml_load : string -> load_result;
  plist_load : string -> load_result
}.

(** The command-line options the modelled functions read *)
Record options := mk_options {
  opt_yaml : bool;
  opt_json : bool;
  opt_quiet : bool
}.

Inductive result (A : Type) :=
| Ok (a : A)
| Raise (e : exn).
Arguments Ok {A} a.
Arguments Raise {A} e.

Definition M (A : Type) : Type := state -> result A * state.

Definition ret {A} (a : A) : M A := fun s => (Ok a, s).

Definition raise {A} (e : exn) : M A := fun s => (Raise e, s).

Definition bind {A B} (c : M A) (k : A -> M B) : M B :=
  fun s =>
    match c s with
    | (Ok a, s') => k a s'
    | (Raise e, s') => (Raise e, s')
    end.

Notation "'do' x <- c ; k" := (bind c (fun x => k))
  (at level 10, x pattern, c at level 100, k at level 200).

(** [try: c except <the exceptions h accepts>: ...] *)
Definition try_except {A} (c : M A) (h : exn -> option (M A)) : M A :=
  fun s =>
    match c s with
    | (Ok a, s') => (Ok a, s')
    | (Raise e, s') =>
        match h e with
        | Some handler => handler s'
        | None => (Raise e, s')
        end
    end.

(** [print(text)] and [print(text, file=sys.stderr)] *)
Definition print (to : stream) (text : string) : M unit :=
  fun s => (Ok tt, mk_state (fs s) (out s ++ [(to, text)])).

Module Os.

Definition S_IFDIR : Z := 16384.   (* 0o040000 *)
Definition S_IFMT : Z := 61440.    (* 0o170000 *)
Definition S_IFREG : Z := 32768.   (* 0o100000 *)
Definition ALLPERMS : Z := 4095.   (* 0o7777 *)
Definition ACCESSPERMS : Z := 511. (* 0o777 *)

(** [stat.S_IMODE] and [stat.S_ISDIR] *)
Definition S_IMODE (mode : Z) : Z := Z.land mode ALLPERMS.
Definition S_ISDIR (mode : Z) : bool := Z.land mode S_IFMT =? S_IFDIR.

Definition ENOENT (p : string) : exn := OSError 2 "No such file or directory" p.
Definition EPERM (p : string) : exn := OSError 1 "Operation not permitted" p.
Definition EEXIST (p : string) : exn := OSError 17 "File exists" p.
Definition ENOTDIR (p : string) : exn := OSError 20 "Not a directory" p.
Definition EISDIR (p : string) : exn := OSError 21 "Is a directory" p.

(** The names between the slashes of a path that select something: the
    kernel skips empty names and [.] *)
Definition components (p : string) : list string :=
  filter (fun c => negb (String.eqb c EmptyString) && negb (String.eqb c "."))
         (PyStr.split PyStr.SLASH p).

Definition slash_join (names : list string) : string :=
  match names with
  | [] => EmptyString
  | h :: t => fold_left (fun acc x => acc +:+ "/" +:+ x) t h
  end.

Definition of_components (absolute : bool) (names : list string) : string :=
  match names with
  | [] => if absolute then "/" else "."
  | _ => (if absolute then "/" else EmptyString) +:+ slash_join names
  end.

(** The key of the node a path names, and the key of its parent directory *)
Definition resolve (p : string) : string :=
  of_components (PyStr.startswith p "/") (components p).

Definition parent (p : string) : string :=
  of_components (PyStr.startswith p "/") (removelast (components p)).

(** [os.path.lexists]; [os.path.exists] is the same map lookup, the model
    having no dangling links *)
Definition lexists (p : string) : M bool :=
  fun s => (Ok (bool_decide (is_Some (fs s !! resolve p))), s).

Definition lstat (p : string) : M inode :=
  fun s =>
    match fs s !! resolve p with
    | Some i => (Ok i, s)
    | None => (Raise (ENOENT p), s)
    end.

(** The permission bits [mkdir(2)] gives a new directory *)
Definition mkdir_bits (mask mode : Z) : Z :=
  Z.ldiff (Z.land mode ACCESSPERMS) mask.

(** [os.mkdir(p, mode)]: the parent must be a directory of the tree; the
    new directory belongs to the effective user and to the group of its
    parent *)
Definition mkdir (e : env) (p : string) (mode : Z) : M unit :=
  fun s =>
    match fs s !! resolve p with
    | Some _ => (Raise (EEXIST p), s)
    | None =>
        match fs s !! parent p with
        | None => (Raise (ENOENT p), s)
        | Some dir =>
            if S_ISDIR (st_mode dir) then
              let node := mk_inode (Z.lor S_IFDIR (mkdir_bits (umask e) mode))
                            (euid e) (st_gid dir) EmptyString in
              (Ok tt, mk_state (<[resolve p := node]> (fs s)) (out s))
            else (Raise (ENOTDIR p), s)
        end
    end.

(** [os.lchmod(p, mode)]: only the owner and the superuser may *)
Definition lchmod (e : env) (p : string) (mode : Z) : M unit :=
  fun s =>
    match fs s !! resolve p with
    | None => (Raise (ENOENT p), s)
    | Some i =>
        if (euid e =? 0) || (euid e =? st_uid i) then
          let node := mk_inode (Z.lor (Z.ldiff (st_mode i) ALLPERMS) (Z.land mode ALLPERMS))
                        (st_uid i) (st_gid i) (st_data i) in
          (Ok tt, mk_state (<[resolve p := node]> (fs s)) (out s))
        else (Raise (EPERM p), s)
    end.

Definition ID_MAX : Z := 4294967295.

Definition id_in_range (n : Z) : bool := (-1 <=? n) && (n <=? ID_MAX).

(** An id of -1 (or its unsigned image) leaves the field as it is *)
Definition new_id (old n : Z) : Z :=
  if (n =? -1) || (n =? ID_MAX) then old else n.

(** [os.lchown(p, uid, gid)]: the arguments are converted first, then the
    call is made; only the superuser may give a node away *)
Definition lchown (e : env) (p : string) (uid gid : Z) : M unit :=
  fun s =>
    if negb (id_in_range uid && id_in_range gid) then (Raise OverflowError, s)
    else
      match fs s !! resolve p with
      | None => (Raise (ENOENT p), s)
      | Some i =>
          if euid e =? 0 then
            let node := mk_inode (st_mode i) (new_id (st_uid i) uid)
                          (new_id (st_gid i) gid) (st_data i) in
            (Ok tt, mk_state (<[resolve p := node]> (fs s)) (out s))
          else (Raise (EPERM p), s)
      end.

(** The lines [readline] returns one after the other, each with its
    newline, until the empty string at the end of the file *)
Fixpoint lines (text : string) : list string :=
  match text with
  | EmptyString => []
  | String c r =>
      if PyStr.ascii_eqb c PyStr.NL then String c EmptyString :: lines r
      else match lines r with
           | [] => [String c EmptyString]
           | l :: t => String c l :: t
           end
  end.

(** [open(p)] for reading, as the lines of the file *)
Definition open_lines (p : string) : M (list string) :=
  fun s =>
    match fs s !! resolve p with
    | None => (Raise (ENOENT p), s)
    | Some i =>
        if S_ISDIR (st_mode i) then (Raise (EISDIR p), s)
        else (Ok (lines (st_data i)), s)
    end.

(** [open(p)] for reading, as the whole text *)
Definition open_text (p : string) : M string :=
  fun s =>
    match fs s !! resolve p with
    | None => (Raise (ENOENT p), s)
    | Some i =>
        if S_ISDIR (st_mode i) then (Raise (EISDIR p), s)
        else (Ok (st_data i), s)
    end.

End Os.

(** ** munkipkg *)

Definition BUILD_INFO_FILE : string := "build-info".
Definition BOM_TEXT_FILE : string := "Bom.txt".

(** [display]: the message goes to stdout behind the tool's name, unless
    [quiet] *)
Definition display (e : env) (message : string) (quiet : bool) : M unit :=
  if negb quiet then print Stdout (toolname e +:+ ": " +:+ message)
  else ret tt.

(** *** Reading and validating build-info *)

(** [key in v] for a string [key], by the type of [v] *)
Definition py_contains (v : pyval) (key : string) : M bool :=
  match v with
  | PDict d => ret (bool_decide (is_Some (PyVal.lookup key d)))
  | PList l => ret (existsb (fun x => PyVal.eq_scalar x (PStr key)) l)
  | PStr s => ret (PyStr.contains key s)
  | PNone | PBool _ | PInt _ => raise TypeError
  end.

(** [v[key]] for a string [key] *)
Definition py_getitem (v : pyval) (key : string) : M pyval :=
  match v with
  | PDict d =>
      match PyVal.lookup key d with
      | Some x => ret x
      | None => raise (KeyError key)
      end
  | _ => raise TypeError
  end.

(** [d[key] = x] on a loaded mapping *)
Fixpoint dict_set (key : string) (x : pyval) (d : list (string * pyval))
  : list (string * pyval) :=
  match d with
  | [] => [(key, x)]
  | (k, v) :: r =>
      if String.eqb k key then (k, x) :: r else (k, v) :: dict_set key x r
  end.

Definition valid_values : list (string * list pyval) :=
  [ ("ownership", [PStr "recommended"; PStr "preserve"; PStr "preserve-other"]);
    ("postinstall_action", [PStr "none"; PStr "logout"; PStr "restart"]);
    ("suppress_bundle_relocation", [PBool true; PBool false]);
    ("distribution_style", [PBool true; PBool false]);
    ("preserve_xattr", [PBool true; PBool false]) ].

(** The loop of [validate_build_info_keys] over the keys still to check *)
Fixpoint validate_keys (todo : list (string * list pyval))
    (build_info : pyval) (file_path : string) : M bool :=
  match todo with
  | [] => ret true
  | (key, legal) :: rest =>
      do present <- py_contains build_info key;
      if present then
        do value <- py_getitem build_info key;
        if negb (PyVal.in_list value legal) then
          do _ <- print Stderr ("ERROR: " +:+ file_path +:+ " key '" +:+ key
                                +:+ "' has illegal value: " +:+ PyVal.repr value);
          do _ <- print Stderr ("ERROR: Legal values are: "
                                +:+ PyVal.str (PList legal));
          ret false
        else validate_keys rest build_info file_path
      else validate_keys rest build_info file_path
  end.

Definition validate_build_info_keys (build_info : pyval) (file_path : string)
  : M bool :=
  validate_keys valid_values build_info file_path.

Inductive file_kind := Json | Yaml | Plist | Unknown.

Definition kind_of_path (path : string) : file_kind :=
  if PyStr.endswith path ".json" then Json
  else if PyStr.endswith path ".yaml" || PyStr.endswith path ".yml" then Yaml
  else if PyStr.endswith path ".plist" then Plist
  else Unknown.

(** [path.split('.')[-1]] *)
Definition extension (path : string) : string :=
  List.last (PyStr.split "."%char path) EmptyString.

Definition PLACEHOLDER : string := "${version}".

(** The [try] block of [read_build_info]: open the file and parse it by
    its extension; with an unknown extension [build_info] stays [None] *)
Definition load_build_info (e : env) (path : string) : M pyval :=
  let parsed (load : string -> load_result) :=
    do text <- Os.open_text path;
    match load text with
    | Loaded v => ret v
    | Invalid msg =>
        raise (BuildError (path +:+ " is not a valid " +:+ extension path
                           +:+ " file: " +:+ msg))
    end in
  match kind_of_path path with
  | Json => parsed (json_load e)
  | Yaml =>
      do text <- Os.open_text path;
      if yaml_installed e then
        match yaml_load e text with
        | Loaded v => ret v
        | Invalid msg =>
            raise (BuildError (path +:+ " is not a valid " +:+ extension path
                               +:+ " file: " +:+ msg))
        end
      else raise NameError
  | Plist => parsed (plist_load e)
  | Unknown => ret PNone
  end.

Definition read_build_info (e : env) (path : string) : M pyval :=
  do build_info <- load_build_info e path;
  do _ <- validate_build_info_keys build_info path;
  do name <- py_getitem build_info "name";
  do templated <- py_contains name PLACEHOLDER;
  if templated then
    match name, build_info with
    | PStr n, PDict d =>
        do version <- py_getitem build_info "version";
        ret (PDict (dict_set "name"
                      (PStr (PyStr.replace n PLACEHOLDER (PyVal.str version))) d))
    | _, _ => raise AttributeError
    end
  else ret build_info.

(** *** Defaults and resolution *)

Definition default_build_info (project_dir : string) : gmap string pyval :=
  let basename :=
    PyStr.replace (PyStr.basename (PyStr.rstrip_slash project_dir)) " " EmptyString in
  <["distribution_style" := PBool false]>
  (<["version" := PStr "1.0"]>
  (<["install_location" := PStr "/"]>
  (<["identifier" := PStr ("com.github.munki.pkg." +:+ basename)]>
  (<["name" := PStr (basename +:+ "-${version}.pkg")]>
  (<["preserve_xattr" := PBool false]>
  (<["postinstall_action" := PStr "none"]>
  (<["suppress_bundle_relocation" := PBool true]>
  (<["ownership" := PStr "recommended"]> ∅)))))))).

Definition supported_keys : list string :=
  [ "name"; "identifier"; "version"; "ownership"; "install_location";
    "postinstall_action"; "preserve_xattr"; "suppress_bundle_relocation";
    "distribution_style"; "signing_info"; "notarization_info" ].

(** The probe of [get_build_info] over the extensions still to try *)
Fixpoint probe (build_file : string) (exts : list string)
    (file_type : option string) : M (option string) :=
  match exts with
  | [] => ret file_type
  | ext :: rest =>
      do found <- Os.lexists (build_file +:+ "." +:+ ext);
      if found then
        match file_type with
        | None => probe build_file rest (Some ext)
        | Some _ => raise (MunkiPkgError "ERROR: Multiple build-info files found!")
        end
      else probe build_file rest file_type
  end.

(** The loop that copies the supported keys of the file over the defaults *)
Fixpoint override (keys : list string) (file_info : pyval)
    (info : gmap string pyval) : M (gmap string pyval) :=
  match keys with
  | [] => ret info
  | key :: rest =>
      do present <- py_contains file_info key;
      if present then
        do value <- py_getitem file_info key;
        override rest file_info (<[key := value]> info)
      else override rest file_info info
  end.

Definition get_build_info (e : env) (project_dir : string) (opts : options)
  : M (gmap string pyval) :=
  let info := <["project_dir" := PStr project_dir]> (default_build_info project_dir) in
  let build_file := PyStr.path_join project_dir BUILD_INFO_FILE in
  do file_type <-
    (if negb (opt_yaml opts) && negb (opt_json opts)
     then probe build_file ["plist"; "json"; "yaml"; "yml"] None
     else ret (Some (if opt_yaml opts then "yaml"
                     else if opt_json opts then "json" else "plist")));
  do file_info <-
    match file_type with
    | Some ext =>
        if negb (String.length ext =? 0)%nat then
          do found <- Os.lexists (build_file +:+ "." +:+ ext);
          if found then read_build_info e (build_file +:+ "." +:+ ext)
          else ret PNone
        else ret PNone
    | None => ret PNone
    end;
  if PyVal.truthy file_info then override supported_keys file_info info
  else raise (MunkiPkgError "ERROR: No build-info file found!").

(** *** Reconciling the payload with Bom.txt *)

(** What the body of the loop does next: go on with the following line
    ([continue], or the end of the body), or leave the loop ([break]) *)
Inductive flow := Next | Break.

Definition nl (s : string) : string := String PyStr.NL s.

(** [int(s)], raising [ValueError] as Python words it *)
Definition py_int (s : string) : M Z :=
  match PyNum.parse false s with
  | Some n => ret n
  | None =>
      raise (ValueError ("invalid literal for int() with base 10: "
                         +:+ PyVal.repr_str s))
  end.

(** [int(s, 8)] *)
Definition py_int8 (s : string) : M Z :=
  match PyNum.parse true s with
  | Some n => ret n
  | None =>
      raise (ValueError ("invalid literal for int() with base 8: "
                         +:+ PyVal.repr_str s))
  end.

(** [parts[i]] *)
Definition index (parts : list string) (i : nat) : M string :=
  match parts !! i with
  | Some x => ret x
  | None => raise IndexError
  end.

(** One pass of the body of the [while] loop of [sync_from_bom_info], on
    the line [item]; the result is what the loop does next and the new
    value of [changes_made] *)
Definition sync_item (e : env) (opts : options) (payload_dir : string)
    (running_as_root : bool) (item : string) (changes_made : Z)
  : M (flow * Z) :=
  if String.eqb item (nl EmptyString) then ret (Next, changes_made)
  else
    let parts := PyStr.split PyStr.TAB (PyStr.rstrip_nl item) in
    do path <- index parts 0;
    let path := if PyStr.startswith path "./" then PyStr.drop 2 path else path in
    do full_mode <- index parts 1;
    do field <- index parts 2;
    let user_group := PyStr.partition "/"%char field in
    do desired_user <- py_int (fst (fst user_group));
    do desired_group <- py_int (snd user_group);
    do desired_mode <- py_int8 (PyStr.last_n 4 full_mode);
    let payload_path := PyStr.path_join payload_dir path in
    let basename := PyStr.basename path in
    if PyStr.startswith basename "._" then
      let otherfile := PyStr.path_join (PyStr.dirname path) (PyStr.drop 2 basename) in
      do _ <- print Stderr
                ("WARNING: file " +:+ path +:+ " contains extended attributes or a "
                 +:+ "resource fork for " +:+ otherfile +:+ ". git and pkgbuild may not "
                 +:+ "properly preserve extended attributes.");
      ret (Next, changes_made)
    else
      do present <- Os.lexists payload_path;
      do step <-
        (if present then
           do st <- Os.lstat payload_path;
           let current_mode := Os.S_IMODE (st_mode st) in
           if negb (current_mode =? desired_mode) then
             do _ <- display e ("Changing mode of " +:+ payload_path +:+ " to "
                                +:+ PyNum.oct desired_mode) (opt_quiet opts);
             do _ <- Os.lchmod e payload_path desired_mode;
             ret (None, changes_made + 1)
           else ret (None, changes_made)
         else if PyStr.startswith full_mode "4" then
           do _ <- display e ("Creating " +:+ payload_path +:+ " with mode "
                              +:+ PyNum.oct desired_mode) (opt_quiet opts);
           do _ <- Os.mkdir e payload_path desired_mode;
           ret (Some Next, changes_made + 1)
         else
           do _ <- print Stderr ("ERROR: File " +:+ payload_path
                                 +:+ " is missing in payload");
           ret (Some Break, changes_made));
      match step with
      | (Some f, changes_made) => ret (f, changes_made)
      | (None, changes_made) =>
          if running_as_root then
            do st1 <- Os.lstat payload_path;
            let current_user := st_uid st1 in
            do st2 <- Os.lstat payload_path;
            let current_group := st_gid st2 in
            if negb (current_user =? desired_user)
               || negb (current_group =? desired_group) then
              do _ <- display e ("Changing user/group of " +:+ payload_path +:+ " to "
                                 +:+ PyNum.to_str desired_user +:+ "/"
                                 +:+ PyNum.to_str desired_group) (opt_quiet opts);
              do _ <- Os.lchown e payload_path desired_user desired_group;
              ret (Next, changes_made + 1)
            else ret (Next, changes_made)
          else ret (Next, changes_made)
      end.

(** The [while] loop over the lines still to read; the result is
    [returncode] and [changes_made] when the loop is left *)
Fixpoint sync_loop (e : env) (opts : options) (payload_dir : string)
    (running_as_root : bool) (items : list string) (changes_made : Z)
  : M (Z * Z) :=
  match items with
  | [] => ret (0, changes_made)
  | item :: rest =>
      do r <- sync_item e opts payload_dir running_as_root item changes_made;
      match r with
      | (Next, changes_made) =>
          sync_loop e opts payload_dir running_as_root rest changes_made
      | (Break, changes_made) => ret (-1, changes_made)
      end
  end.

(** [build_info[key] != 'recommended'] on the resolved dictionary *)
Definition info_get (info : gmap string pyval) (key : string) : M pyval :=
  match info !! key with
  | Some v => ret v
  | None => raise (KeyError key)
  end.

(** The statement that warns when ownership other than [recommended] is
    asked for and the caller is not the superuser *)
Definition ownership_warning (build_info : gmap string pyval)
    (running_as_root : bool) : M unit :=
  do ownership <- info_get build_info "ownership";
  if negb (PyVal.eq_scalar ownership (PStr "recommended"))
     && negb running_as_root then
    print Stderr (nl ("WARNING: build-info ownership: " +:+ PyVal.str ownership
                      +:+ " might require using "
                      +:+ "sudo to properly sync owner and group for payload files."
                      +:+ nl EmptyString))
  else ret tt.

(** From [returncode = 0] to the end of [sync_from_bom_info]: the [try]
    around the loop and the report. Next to the return value stands the
    value of the local [changes_made] when the loop was left, if it was. *)
Definition reconcile (e : env) (project_dir : string) (opts : options)
  : M (Z * option Z) :=
  let bom_list_file := PyStr.path_join project_dir BOM_TEXT_FILE in
  let payload_dir := PyStr.path_join project_dir "payload" in
  let running_as_root := euid e =? 0 in
  do looped <-
    try_except
      (do items <- Os.open_lines bom_list_file;
       do r <- sync_loop e opts payload_dir running_as_root items 0;
       ret (Some r))
      (fun err => if is_OSError_or_ValueError err
                  then Some (do _ <- print Stderr ("ERROR: " +:+ exn_str err);
                             ret None)
                  else None);
  match looped with
  | None => ret (-1, None)
  | Some (returncode, changes_made) =>
      do _ <-
        (if (returncode =? 0) && negb (opt_quiet opts) then
           if negb (changes_made =? 0) then display e "Sync successful." false
           else display e "Sync successful: no changes needed." false
         else ret tt);
      ret (returncode, Some changes_made)
  end.

(** [sync_from_bom_info] from the test for Bom.txt on, with the build-info
    it goes by *)
Definition sync_with (e : env) (project_dir : string) (opts : options)
    (build_info : gmap string pyval) : M (Z * option Z) :=
  let bom_list_file := PyStr.path_join project_dir BOM_TEXT_FILE in
  let running_as_root := euid e =? 0 in
  do bom_found <- Os.lexists bom_list_file;
  if negb bom_found then
    do _ <- print Stderr ("ERROR: Can't sync with bom info: no " +:+ BOM_TEXT_FILE
                          +:+ " found in project directory.");
    ret (-1, None)
  else
    do _ <- ownership_warning build_info running_as_root;
    reconcile e project_dir opts.

(** [sync_from_bom_info], returning next to its return value the value of
    the local [changes_made] when the function gets past the loop *)
Definition sync_from_bom_info_traced (e : env) (project_dir : string)
    (opts : options) : M (Z * option Z) :=
  do build_info <-
    try_except (get_build_info e project_dir opts)
      (fun err => if is_MunkiPkgError err
                  then Some (ret (default_build_info project_dir)) else None);
  sync_with e project_dir opts build_info.

Definition sync_from_bom_info (e : env) (project_dir : string)
    (opts : options) : M Z :=
  do r <- sync_from_bom_info_traced e project_dir opts;
  ret (fst r).

(** ** The entries of Bom.txt

    The first half of the loop body decodes a line without touching the
    state; the second half applies the decoded entry. Both are stated on
    their own here and shown below to make up [sync_item]. *)

Record bom_entry := mk_entry {
  e_path : string;       (* the path, a leading ./ removed *)
  e_full_mode : string;  (* the mode field as written *)
  e_user : Z;
  e_group : Z;
  e_mode : Z             (* the last four digits of the mode field, octal *)
}.

Inductive decoded :=
| Blank
| Entry (en : bom_entry)
| Malformed (ex : exn).

Definition int_or_error (octal : bool) (s : string) : Z + exn :=
  match PyNum.parse octal s with
  | Some n => inl n
  | None =>
      inr (ValueError ("invalid literal for int() with base "
                       +:+ (if octal then "8" else "10") +:+ ": "
                       +:+ PyVal.repr_str s))
  end.

Definition decode_line (item : string) : decoded :=
  if String.eqb item (nl EmptyString) then Blank
  else
    let parts := PyStr.split PyStr.TAB (PyStr.rstrip_nl item) in
    match parts !! 0%nat, parts !! 1%nat, parts !! 2%nat with
    | Some path, Some full_mode, Some field =>
        let user_group := PyStr.partition "/"%char field in
        match int_or_error false (fst (fst user_group)) with
        | inr ex => Malformed ex
        | inl user =>
            match int_or_error false (snd user_group) with
            | inr ex => Malformed ex
            | inl group =>
                match int_or_error true (PyStr.last_n 4 full_mode) with
                | inr ex => Malformed ex
                | inl mode =>
                    Entry (mk_entry
                             (if PyStr.startswith path "./" then PyStr.drop 2 path
                              else path)
                             full_mode user group mode)
                end
            end
        end
    | _, _, _ => Malformed IndexError
    end.

Definition is_sidecar (en : bom_entry) : bool :=
  PyStr.startswith (PyStr.basename (e_path en)) "._".

Definition marks_directory (en : bom_entry) : bool :=
  PyStr.startswith (e_full_mode en) "4".

(** The path the entry is applied to, and the node it names *)
Definition payload_path (payload_dir : string) (en : bom_entry) : string :=
  PyStr.path_join payload_dir (e_path en).

Definition target (payload_dir : string) (en : bom_entry) : string :=
  Os.resolve (payload_path payload_dir en).

(** The sibling a sidecar entry stands for *)
Definition otherfile (en : bom_entry) : string :=
  PyStr.path_join (PyStr.dirname (e_path en))
                  (PyStr.drop 2 (PyStr.basename (e_path en))).

Definition sidecar_warning (en : bom_entry) : string :=
  "WARNING: file " +:+ e_path en +:+ " contains extended attributes or a "
  +:+ "resource fork for " +:+ otherfile en +:+ ". git and pkgbuild may not "
  +:+ "properly preserve extended attributes.".

Definition missing_file_error (payload_dir : string) (en : bom_entry) : string :=
  "ERROR: File " +:+ payload_path payload_dir en +:+ " is missing in payload".


(** The entries the lines of a Bom.txt decode to, in order *)
Fixpoint entries (items : list string) : list bom_entry :=
  match items with
  | [] => []
  | item :: rest =>
      match decode_line item with
      | Entry en => en :: entries rest
      | _ => entries rest
      end
  end.

(** The second half of the loop body, on a decoded entry *)
Definition apply_entry (e : env) (opts : options) (payload_dir : string)
    (running_as_root : bool) (en : bom_entry) (changes_made : Z)
  : M (flow * Z) :=
  let payload_path := payload_path payload_dir en in
  if is_sidecar en then
    do _ <- print Stderr (sidecar_warning en);
    ret (Next, changes_made)
  else
    do present <- Os.lexists payload_path;
    do step <-
      (if present then
         do st <- Os.lstat payload_path;
         let current_mode := Os.S_IMODE (st_mode st) in
         if negb (current_mode =? e_mode en) then
           do _ <- display e ("Changing mode of " +:+ payload_path +:+ " to "
                              +:+ PyNum.oct (e_mode en)) (opt_quiet opts);
           do _ <- Os.lchmod e payload_path (e_mode en);
           ret (None, changes_made + 1)
         else ret (None, changes_made)
       else if marks_directory en then
         do _ <- display e ("Creating " +:+ payload_path +:+ " with mode "
                            +:+ PyNum.oct (e_mode en)) (opt_quiet opts);
         do _ <- Os.mkdir e payload_path (e_mode en);
         ret (Some Next, changes_made + 1)
       else
         do _ <- print Stderr (missing_file_error payload_dir en);
         ret (Some Break, changes_made));
    match step with
    | (Some f, changes_made) => ret (f, changes_made)
    | (None, changes_made) =>
        if running_as_root then
          do st1 <- Os.lstat payload_path;
          let current_user := st_uid st1 in
          do st2 <- Os.lstat payload_path;
          let current_group := st_gid st2 in
          if negb (current_user =? e_user en)
             || negb (current_group =? e_group en) then
            do _ <- display e ("Changing user/group of " +:+ payload_path +:+ " to "
                               +:+ PyNum.to_str (e_user en) +:+ "/"
                               +:+ PyNum.to_str (e_group en)) (opt_quiet opts);
            do _ <- Os.lchown e payload_path (e_user en) (e_group en);
            ret (Next, changes_made + 1)
          else ret (Next, changes_made)
        else ret (Next, changes_made)
    end.

(** ** Names used by the statements *)

Definition candidates : list string := ["plist"; "json"; "yaml"; "yml"].

(** The path of the build-info file with extension [ext] *)
Definition build_info_path (project_dir ext : string) : string :=
  PyStr.path_join project_dir BUILD_INFO_FILE +:+ "." +:+ ext.

Definition present (s : state) (path : string) : Prop :=
  is_Some (fs s !! Os.resolve path).

Definition MULTIPLE : exn := MunkiPkgError "ERROR: Multiple build-info files found!".
Definition NOT_FOUND : exn := MunkiPkgError "ERROR: No build-info file found!".

(** The first key of [todo] that the mapping [d] gives an illegal value,
    with that value and the legal ones *)
Fixpoint first_illegal (todo : list (string * list pyval))
    (d : list (string * pyval)) : option (string * pyval * list pyval) :=
  match todo with
  | [] => None
  | (key, legal) :: rest =>
      match PyVal.lookup key d with
      | Some value =>
          if PyVal.in_list value legal then first_illegal rest d
          else Some (key, value, legal)
      | None => first_illegal rest d
      end
  end.

(** The two lines [validate_build_info_keys] prints for an illegal value *)
Definition illegal_report (file_path key : string) (value : pyval)
    (legal : list pyval) : list (stream * string) :=
  [ (Stderr, "ERROR: " +:+ file_path +:+ " key '" +:+ key
             +:+ "' has illegal value: " +:+ PyVal.repr value);
    (Stderr, "ERROR: Legal values are: " +:+ PyVal.str (PList legal)) ].

(** The state after the mapping [d] read from [file_path] was validated *)
Definition validated (file_path : string) (d : list (string * pyval))
    (s : state) : state :=
  match first_illegal valid_values d with
  | None => s
  | Some (key, value, legal) =>
      mk_state (fs s) (out s ++ illegal_report file_path key value legal)
  end.

(** The first half of [get_build_info]: the extension to read *)
Definition choose_file_type (project_dir : string) (opts : options)
  : M (option string) :=
  let build_file := PyStr.path_join project_dir BUILD_INFO_FILE in
  if negb (opt_yaml opts) && negb (opt_json opts)
  then probe build_file ["plist"; "json"; "yaml"; "yml"] None
  else ret (Some (if opt_yaml opts then "yaml"
                  else if opt_json opts then "json" else "plist")).

(** [get_build_info] reads the build-info file with extension [ext] *)
Definition selects (project_dir : string) (opts : options) (s : state)
    (ext : string) : Prop :=
  choose_file_type project_dir opts s = (Ok (Some ext), s)
  /\ ext <> EmptyString
  /\ present s (build_info_path project_dir ext).

(** The key [read_build_info] looks up and does not find in [d] *)
Definition missing_key (d : list (string * pyval)) : option string :=
  match PyVal.lookup "name" d with
  | None => Some "name"
  | Some (PStr n) =>
      if PyStr.contains PLACEHOLDER n then
        match PyVal.lookup "version" d with
        | None => Some "version"
        | Some _ => None
        end
      else None
  | Some _ => None
  end.

(** The defaults [info] with the values the mapping [d] has for [keys] *)
Fixpoint overridden (keys : list string) (d : list (string * pyval))
    (info : gmap string pyval) : gmap string pyval :=
  match keys with
  | [] => info
  | key :: rest =>
      overridden rest d
        (match PyVal.lookup key d with
         | Some value => <[key := value]> info
         | None => info
         end)
  end.

(** What [get_build_info] returns when the file gave the mapping [d] *)
Definition resolved (project_dir : string) (d : list (string * pyval))
  : gmap string pyval :=
  overridden supported_keys d
    (<["project_dir" := PStr project_dir]> (default_build_info project_dir)).

(** What [display] adds to stdout *)
Definition shown (e : env) (quiet : bool) (message : string)
  : list (stream * string) :=
  if quiet then [] else [(Stdout, toolname e +:+ ": " +:+ message)].

(** The mode of a node after [lchmod] to [desired] *)
Definition set_perm (mode desired : Z) : Z :=
  Z.lor (Z.ldiff mode Os.ALLPERMS) (Z.land desired Os.ALLPERMS).

(** An id that [lchown] sets as it is given *)
Definition valid_id (n : Z) : bool := (0 <=? n) && (n <? Os.ID_MAX).

(** The node of an entry that was found in the tree, once the entry is
    applied by the superuser *)
Definition fixed_node (node : inode) (en : bom_entry) : inode :=
  mk_inode (set_perm (st_mode node) (e_mode en)) (e_user en) (e_group en)
           (st_data node).

(** The lines of the project's Bom.txt as the tree has it *)
Definition bom_items (project_dir : string) (tree : gmap string inode)
  : list string :=
  match tree !! Os.resolve (PyStr.path_join project_dir BOM_TEXT_FILE) with
  | Some node => if Os.S_ISDIR (st_mode node) then [] else Os.lines (st_data node)
  | None => []
  end.

(** The line [sync_from_bom_info] ends a run with *)
Definition report (e : env) (opts : options) (returncode changes_made : Z)
  : list (stream * string) :=
  if (returncode =? 0) && negb (opt_quiet opts) then
    [(Stdout, toolname e +:+ ": "
              +:+ (if changes_made =? 0
                   then "Sync successful: no changes needed."
                   else "Sync successful."))]
  else [].

(** A computation that only adds to the output, and whose result and
    effect on the tree do not depend on what was printed before *)
Definition framed {A} (c : M A) : Prop :=
  forall tree o,
    c (mk_state tree o)
    = (fst (c (mk_state tree [])),
       mk_state (fs (snd (c (mk_state tree []))))
                (o ++ out (snd (c (mk_state tree []))))).

(** A computation that leaves the tree as it is *)
Definition reads_only {A} (c : M A) : Prop :=
  forall s, fs (snd (c s)) = fs s.

(** Build-info resolution ends in a result or in a [MunkiPkgError] *)
Definition resolves (e : env) (project_dir : string) (opts : options)
    (s : state) : Prop :=
  forall ex s', get_build_info e project_dir opts s = (Raise ex, s') ->
                is_MunkiPkgError ex = true.

(** ** Sample projects *)

Module Sample.

Definition dir_node (perm uid gid : Z) : inode :=
  mk_inode (Z.lor Os.S_IFDIR perm) uid gid EmptyString.

Definition file_node (perm uid gid : Z) (text : string) : inode :=
  mk_inode (Z.lor Os.S_IFREG perm) uid gid text.

Definition tab : string := String PyStr.TAB EmptyString.

(** A line of Bom.txt *)
Definition bom_line (path mode owner : string) : string :=
  path +:+ tab +:+ mode +:+ tab +:+ owner +:+ nl EmptyString.

(** A parser that knows the documents of [table] by their text *)
Fixpoint table_parser (table : list (string * pyval)) (text : string)
  : load_result :=
  match table with
  | [] => Invalid "mapping values are not allowed here"
  | (t, v) :: rest => if String.eqb t text then Loaded v else table_parser rest text
  end.

Definition documents : list (string * pyval) :=
  [ ("{name: Foo-${version}.pkg, version: '2.3'}",
     PDict [("name", PStr "Foo-${version}.pkg"); ("version", PStr "2.3")]);
    ("{version: '1.0'}", PDict [("version", PStr "1.0")]);
    ("{name: Foo.pkg, ownership: bogus}",
     PDict [("name", PStr "Foo.pkg"); ("ownership", PStr "bogus")]);
    ("{name: '${version}-${version}.pkg', version: '2.3'}",
     PDict [("name", PStr "${version}-${version}.pkg"); ("version", PStr "2.3")]) ].

Definition parser : string -> load_result := table_parser documents.

(** An unprivileged user with umask 022, the superuser with umask 0 *)
Definition user_env : env := mk_env 501 18 "munkipkg" true parser parser parser.
Definition root_env : env := mk_env 0 0 "munkipkg" true parser parser parser.

Definition plain : options := mk_options false false false.

(** The project /p with an empty payload and the given files next to it *)
Definition project (files : list (string * string)) : state :=
  mk_state
    (foldr (fun f tree => <["/p/" +:+ fst f := file_node 420 501 20 (snd f)]> tree)
           (<["/p/payload" := dir_node 493 501 20]>
            (<["/p" := dir_node 493 501 20]> ∅))
           files)
    [].

Definition two_build_infos : state :=
  project [("build-info.plist", "<plist/>"); ("build-info.json", "{}")].

End Sample.

(** * More of munkipkg *)

(** The extensions [get_build_info] probes: all four without a format
    option, the one of the option otherwise *)
Definition looked_at (opts : options) : list string :=
  if opt_yaml opts then ["yaml"]
  else if opt_json opts then ["json"]
  else candidates.

Module Cases.

(** A user whose Python has no PyYAML *)
Definition bare_env : env :=
  mk_env 501 18 "munkipkg" false Sample.parser Sample.parser Sample.parser.

Definition json_only : options := mk_options false true false.

End Cases.


(** The keys of [valid_values] whose legal values are the booleans *)
Definition boolean_keys : list string :=
  ["suppress_bundle_relocation"; "distribution_style"; "preserve_xattr"].

(** A computation whose effect on the tree stays within the relation [R] *)
Definition preserving (R : gmap string inode -> gmap string inode -> Prop)
    {A} (c : M A) : Prop :=
  forall s, R (fs s) (fs (snd (c s))).

(** Every node of [before] is still there in [after], with the same
    content and of the same type *)
Definition keeps_nodes (before after : gmap string inode) : Prop :=
  forall key a,
    before !! key = Some a ->
    exists b,
      after !! key = Some b
      /\ st_data b = st_data a
      /\ Z.land (st_mode b) Os.S_IFMT = Z.land (st_mode a) Os.S_IFMT.

(** Every node of [before] is still there in [after], with the same owner
    and group *)
Definition keeps_owners (before after : gmap string inode) : Prop :=
  forall key a,
    before !! key = Some a ->
    exists b,
      after !! key = Some b /\ st_uid b = st_uid a /\ st_gid b = st_gid a.


(** The text of an exception that the loop's [except] clause prints *)
Definition caught_message (ex : exn) : string := "ERROR: " +:+ exn_str ex.


(** The project's Bom.txt is a file of the tree *)
Definition bom_file (project_dir : string) (tree : gmap string inode) : Prop :=
  exists node,
    tree !! Os.resolve (PyStr.path_join project_dir BOM_TEXT_FILE) = Some node
    /\ Os.S_ISDIR (st_mode node) = false.

Definition NO_BOM : string :=
  "ERROR: Can't sync with bom info: no Bom.txt found in project directory.".

(** ** Ownership other than root/wheel in Bom.txt *)

(** The [while] loop of [non_recommended_permissions_in_bom] over the
    lines still to read *)
Fixpoint other_owner_loop (items : list string) : M bool :=
  match items with
  | [] => ret false
  | item :: rest =>
      if String.eqb item (nl EmptyString) then other_owner_loop rest
      else
        let parts := PyStr.split PyStr.TAB (PyStr.rstrip_nl item) in
        do user_group <- index parts 2;
        if negb (String.eqb user_group "0/0") then ret true
        else other_owner_loop rest
  end.

Definition non_recommended_permissions_in_bom (project_dir : string) : M bool :=
  let bom_list_file := PyStr.path_join project_dir BOM_TEXT_FILE in
  do found <- Os.lexists bom_list_file;
  if negb found then ret false
  else
    try_except
      (do items <- Os.open_lines bom_list_file;
       other_owner_loop items)
      (fun err => if is_OSError_or_ValueError err
                  then Some (do _ <- print Stderr ("ERROR: " +:+ exn_str err);
                             ret false)
                  else None).

(** The third field of a line of Bom.txt, when the line has one *)
Definition owner_field (item : string) : option string :=
  PyStr.split PyStr.TAB (PyStr.rstrip_nl item) !! 2%nat.

(** A line that [non_recommended_permissions_in_bom] passes over: blank,
    or owned by 0/0 as written *)
Definition recommended_line (item : string) : bool :=
  String.eqb item (nl EmptyString)
  || match owner_field item with
     | Some user_group => String.eqb user_group "0/0"
     | None => false
     end.

(** ** Assembling command lines

    The builders are handed a list [cmd] and extend it in place; what they
    have added is there also when they end in an exception. A builder is
    a function of the list and the state to a result, the list and the
    state. *)

Definition CM (A : Type) : Type :=
  list pyval -> state -> result A * list pyval * state.

Definition cret {A} (a : A) : CM A := fun cmd s => (Ok a, cmd, s).

Definition craise {A} (ex : exn) : CM A := fun cmd s => (Raise ex, cmd, s).

Definition cbind {A B} (c : CM A) (k : A -> CM B) : CM B :=
  fun cmd s =>
    match c cmd s with
    | (Ok a, cmd', s') => k a cmd' s'
    | (Raise ex, cmd', s') => (Raise ex, cmd', s')
    end.

Notation "'cdo' x <- c ; k" := (cbind c (fun x => k))
  (at level 10, x pattern, c at level 100, k at level 200).

(** A computation that does not look at the list *)
Definition lift {A} (c : M A) : CM A :=
  fun cmd s => let (r, s') := c s in (r, cmd, s').

(** [cmd.extend(items)] *)
Definition extend (items : list pyval) : CM unit :=
  fun cmd s => (Ok tt, (cmd ++ items)%list, s).

(** [for x in v]: the elements of a list, the keys of a mapping, the
    characters of a string; nothing else can be iterated *)
Definition py_iter (v : pyval) : M (list pyval) :=
  match v with
  | PList l => ret l
  | PDict d => ret (map (fun kv => PStr (fst kv)) d)
  | PStr s => ret (map (fun c => PStr (String c EmptyString)) (list_ascii_of_string s))
  | PNone | PBool _ | PInt _ => raise TypeError
  end.

(** The loop [for cert_name in additional_cert_names] *)
Fixpoint add_cert_names (names : list pyval) : CM unit :=
  match names with
  | [] => cret tt
  | cert_name :: rest =>
      cdo _ <- extend [PStr "--cert"; cert_name];
      add_cert_names rest
  end.

Definition add_signing_options_to_cmd (e : env) (build_info : gmap string pyval)
    (opts : options) : CM unit :=
  match build_info !! "signing_info" with
  | None => cret tt
  | Some signing_info =>
      cdo _ <- lift (display e "Adding package signing info to command" (opt_quiet opts));
      cdo has_identity <- lift (py_contains signing_info "identity");
      cdo _ <-
        (if has_identity then
           cdo identity <- lift (py_getitem signing_info "identity");
           extend [PStr "--sign"; identity]
         else craise (BuildError "Missing identity in signing info!"));
      cdo has_keychain <- lift (py_contains signing_info "keychain");
      cdo _ <-
        (if has_keychain then
           cdo keychain <- lift (py_getitem signing_info "keychain");
           extend [PStr "--keychain"; keychain]
         else cret tt);
      cdo has_names <- lift (py_contains signing_info "additional_cert_names");
      cdo _ <-
        (if has_names then
           cdo additional_cert_names <-
             lift (py_getitem signing_info "additional_cert_names");
           cdo names <-
             lift (match additional_cert_names with
                   | PStr _ => ret [additional_cert_names]
                   | _ => py_iter additional_cert_names
                   end);
           add_cert_names names
         else cret tt);
      cdo has_timestamp <- lift (py_contains signing_info "timestamp");
      if has_timestamp then
        cdo timestamp <- lift (py_getitem signing_info "timestamp");
        if PyVal.truthy timestamp then extend [PStr "--timestamp"]
        else extend [PStr "--timestamp=none"]
      else cret tt
  end.

Definition NO_CREDENTIALS : exn :=
  MunkiPkgError
    "password or api_key + api_issuer keys must be specified in notarization_info.".

Definition add_authentication_options (build_info : gmap string pyval) : CM unit :=
  cdo info <- lift (info_get build_info "notarization_info");
  cdo has_password <- lift (py_contains info "password");
  if has_password then
    cdo password <- lift (py_getitem info "password");
    extend [PStr "--password"; password]
  else
    cdo has_key <- lift (py_contains info "api_key");
    cdo has_issuer <- lift (if has_key then py_contains info "api_issuer" else ret false);
    if has_key && has_issuer then
      cdo api_key <- lift (py_getitem info "api_key");
      cdo api_issuer <- lift (py_getitem info "api_issuer");
      extend [PStr "--apiKey"; api_key; PStr "--apiIssuer"; api_issuer]
    else craise NO_CREDENTIALS.

(** [d.get(key, default)], a method of mappings only *)
Definition py_get (v : pyval) (key : string) (default : pyval) : M pyval :=
  match v with
  | PDict d =>
      match PyVal.lookup key d with
      | Some x => ret x
      | None => ret default
      end
  | _ => raise AttributeError
  end.

(** [get_primary_bundle_id]: the method [get] is looked up before its
    arguments are evaluated, and [replace] is a method of strings *)
Definition get_primary_bundle_id (build_info : gmap string pyval) : M string :=
  do info <- info_get build_info "notarization_info";
  do _ <- (match info with PDict _ => ret tt | _ => raise AttributeError end);
  do identifier <- info_get build_info "identifier";
  do primary_bundle_id <- py_get info "primary_bundle_id" identifier;
  match primary_bundle_id with
  | PStr s => ret (PyStr.replace s "_" "-")
  | _ => raise AttributeError
  end.

(** A builder only ever appends to the list *)
Definition appends {A} (c : CM A) : Prop :=
  forall cmd s, exists added, snd (fst (c cmd s)) = (cmd ++ added)%list.

(** [add_signing_options_to_cmd] for a [signing_info] that is a mapping,
    by what the mapping has for the four keys: the statement of the
    builder's steps that the proofs compare it with *)
Definition signing_plan (e : env) (opts : options)
    (identity keychain names timestamp : option pyval) : CM unit :=
  cdo _ <- lift (display e "Adding package signing info to command" (opt_quiet opts));
  cdo _ <-
    (match identity with
     | Some v => extend [PStr "--sign"; v]
     | None => craise (BuildError "Missing identity in signing info!")
     end);
  cdo _ <-
    (match keychain with
     | Some v => extend [PStr "--keychain"; v]
     | None => cret tt
     end);
  cdo _ <-
    (match names with
     | Some v =>
         cdo l <- lift (match v with
                        | PStr _ => ret [v]
                        | _ => py_iter v
                        end);
         add_cert_names l
     | None => cret tt
     end);
  match timestamp with
  | Some v =>
      if PyVal.truthy v then extend [PStr "--timestamp"]
      else extend [PStr "--timestamp=none"]
  | None => cret tt
  end.

(** ** Waiting for the notary service *)

Definition STAPLE_TIMEOUT : Z := 300.
Definition STAPLE_SLEEP : Z := 5.

(** ["{}".format(v)] *)
Definition fmt (v : pyval) : string := PyVal.str v.

Definition NOTARIZATION_FAILED : exn := MunkiPkgError "Notarization failed".

(** [notarization_done], on the state dictionary that
    [get_notarization_state] returned *)
Definition notarization_done (e : env) (st : list (string * pyval))
    (sleep_time : Z) (opts : options) : M bool :=
  do status <- py_getitem (PDict st) "status";
  if PyVal.eq_scalar status (PStr "success") then
    do message <- py_getitem (PDict st) "message";
    do _ <- display e ("Notarization successful. " +:+ fmt message) (opt_quiet opts);
    ret true
  else if PyVal.in_list status [PStr "in progress"; PStr "Unknown"] then
    do _ <- display e ("Notarization state: " +:+ fmt status
                       +:+ ". Trying again in " +:+ PyNum.to_str sleep_time
                       +:+ " seconds") (opt_quiet opts);
    ret false
  else
    do status' <- py_getitem (PDict st) "status";
    do code <- py_getitem (PDict st) "code";
    do message <- py_getitem (PDict st) "message";
    do log_url <- py_getitem (PDict st) "log_url";
    do _ <- display e ("Notarization unsuccessful:"
                       +:+ nl (Sample.tab +:+ "Status: " +:+ fmt status'
                       +:+ nl (Sample.tab +:+ "Status Code: " +:+ fmt code
                       +:+ nl (Sample.tab +:+ "Status Message: " +:+ fmt message
                       +:+ nl (Sample.tab +:+ "LogFileURL: " +:+ fmt log_url)))))
              (opt_quiet opts);
    raise NOTARIZATION_FAILED.

(** The integer a value stands for in [counter < timeout] *)
Definition as_int (v : pyval) : M Z :=
  match v with
  | PInt z => ret z
  | PBool b => ret (if b then 1 else 0)
  | _ => raise TypeError
  end.

Definition TIMEOUT_EXCEEDED : string :=
  "munkipkg: Timeout EXCEEDED when waiting for the notarization to complete. "
  +:+ "You can manually staple the package later if notarization is successful.".

(** The [while] loop of [wait_for_notarization]. [poll n] stands for the
    call of [get_notarization_state] that follows [n] earlier ones; the
    result carries, next to the value returned, the seconds slept and the
    number of calls made. Of [fuel] iterations are allowed: [None] says
    that they were used up. *)
Fixpoint wait_loop (fuel : nat) (e : env) (opts : options)
    (poll : nat -> M (list (string * pyval)))
    (timeout counter sleep_time : Z) (polls : nat)
  : M (option bool * Z * nat) :=
  if counter <? timeout then
    match fuel with
    | O => ret (None, counter, polls)
    | S fuel' =>
        (* time.sleep(sleep_time) *)
        let counter := counter + sleep_time in
        let sleep_time := sleep_time + STAPLE_SLEEP in
        do st <- poll polls;
        do done <- notarization_done e st sleep_time opts;
        if done then ret (Some true, counter, S polls)
        else wait_loop fuel' e opts poll timeout counter sleep_time (S polls)
    end
  else
    do _ <- print Stderr TIMEOUT_EXCEEDED;
    ret (Some false, counter, polls).

(** [wait_for_notarization] with the seconds slept and the calls made; the
    iterations allowed are as many as the timeout has seconds *)
Definition wait_for_notarization_traced (e : env)
    (poll : nat -> M (list (string * pyval)))
    (build_info : gmap string pyval) (opts : options)
  : M (option bool * Z * nat) :=
  do _ <- display e "Getting notarization state" (opt_quiet opts);
  do info <- info_get build_info "notarization_info";
  do timeout <- py_get info "staple_timeout" (PInt STAPLE_TIMEOUT);
  do limit <- as_int timeout;
  wait_loop (Z.to_nat limit) e opts poll limit 0 STAPLE_SLEEP 0.

Definition wait_for_notarization (e : env)
    (poll : nat -> M (list (string * pyval)))
    (build_info : gmap string pyval) (opts : options) : M (option bool) :=
  do r <- wait_for_notarization_traced e poll build_info opts;
  ret (fst (fst r)).

(** The timeout [wait_for_notarization] goes by, in seconds, when the
    build-info gives one it can compare with *)
Definition staple_limit (build_info : gmap string pyval) : option Z :=
  match build_info !! "notarization_info" with
  | Some (PDict d) =>
      match PyVal.lookup "staple_timeout" d with
      | Some (PInt z) => Some z
      | Some (PBool b) => Some (if b then 1 else 0)
      | Some _ => None
      | None => Some STAPLE_TIMEOUT
      end
  | _ => None
  end.

Module Notary.

(** A service that answers "in progress" twice and "success" then *)
Definition poll (n : nat) : M (list (string * pyval)) :=
  ret [("status", PStr (if (n <? 2)%nat then "in progress" else "success"));
       ("message", PStr "Package Approved")].

Definition build_info : gmap string pyval :=
  <["notarization_info" := PDict [("username", PStr "dev@example.com")]]>
    (default_build_info "/p").

End Notary.

(** ** Creating a project *)

(** The serializers of build-info ([json.dump], [yaml.dump],
    [plistlib.dump]), as functions from the dictionary to the text *)
Record dumpers := mk_dumpers {
  json_dump : gmap string pyval -> string;
  yaml_dump : gmap string pyval -> string;
  plist_dump : gmap string pyval -> string
}.

Module Fs.


(** The permission bits [open] gives a new file *)
Definition creat_bits (mask : Z) : Z := Z.ldiff 438 mask.   (* 0o666 *)

(** [open(p, 'w')], writing [text], and closing: an existing file is
    truncated and keeps its mode and owner, a new one is made in a parent
    that must be a directory of the tree *)
Definition write_file (e : env) (p : string) (text : string) : M unit :=
  fun s =>
    match fs s !! Os.resolve p with
    | Some i =>
        if Os.S_ISDIR (st_mode i) then (Raise (Os.EISDIR p), s)
        else
          (Ok tt,
           mk_state (<[Os.resolve p := mk_inode (st_mode i) (st_uid i) (st_gid i) text]>
                       (fs s)) (out s))
    | None =>
        match fs s !! Os.parent p with
        | None => (Raise (Os.ENOENT p), s)
        | Some dir =>
            if Os.S_ISDIR (st_mode dir) then
              let node := mk_inode (Z.lor Os.S_IFREG (creat_bits (umask e)))
                            (euid e) (st_gid dir) text in
              (Ok tt, mk_state (<[Os.resolve p := node]> (fs s)) (out s))
            else (Raise (Os.ENOTDIR p), s)
        end
    end.

End Fs.

Definition is_OSError (ex : exn) : bool :=
  match ex with OSError _ _ _ => true | _ => false end.

Definition GITIGNORE_DEFAULT : string :=
  "# .DS_Store files!" +:+ nl (".DS_Store" +:+ nl (nl ("# our build directory"
  +:+ nl ("build/" +:+ nl EmptyString)))).

(** [write_build_info]: the file is opened before the dictionary is
    serialized, so without PyYAML [--yaml] leaves an empty file behind the
    [NameError] *)
Definition write_build_info (e : env) (dump : dumpers)
    (build_info : gmap string pyval) (project_dir : string) (opts : options)
  : M unit :=
  try_except
    (if opt_json opts then
       Fs.write_file e (PyStr.path_join project_dir (BUILD_INFO_FILE +:+ ".json"))
                     (json_dump dump build_info)
     else if opt_yaml opts then
       if yaml_installed e then
         Fs.write_file e (PyStr.path_join project_dir (BUILD_INFO_FILE +:+ ".yaml"))
                       (yaml_dump dump build_info)
       else
         do _ <- Fs.write_file e
                   (PyStr.path_join project_dir (BUILD_INFO_FILE +:+ ".yaml"))
                   EmptyString;
         raise NameError
     else
       Fs.write_file e (PyStr.path_join project_dir (BUILD_INFO_FILE +:+ ".plist"))
                     (plist_dump dump build_info))
    (fun err => if is_OSError err
                then Some (raise (MunkiPkgError (exn_str err))) else None).

Definition create_default_gitignore (e : env) (project_dir : string) : M unit :=
  Fs.write_file e (PyStr.path_join project_dir ".gitignore") GITIGNORE_DEFAULT.

(** [create_template_project]; [force] is the option [--force] *)
Definition create_template_project (e : env) (dump : dumpers)
    (project_dir : string) (opts : options) (force : bool) : M Z :=
  do found <- Os.lexists project_dir;
  if found && negb force then
    do _ <- print Stderr ("ERROR: " +:+ project_dir +:+ " already exists! "
                          +:+ "Use --force to convert it to a project directory.");
    ret (-1)
  else
    let payload_dir := PyStr.path_join project_dir "payload" in
    let scripts_dir := PyStr.path_join project_dir "scripts" in
    let build_dir := PyStr.path_join project_dir "build" in
    try_except
      (do found <- Os.lexists project_dir;
       do _ <- (if negb found then Os.mkdir e project_dir 511 else ret tt);
       do _ <- Os.mkdir e payload_dir 511;
       do _ <- Os.mkdir e scripts_dir 511;
       do _ <- Os.mkdir e build_dir 511;
       let build_info := default_build_info project_dir in
       do _ <- write_build_info e dump build_info project_dir opts;
       do _ <- create_default_gitignore e project_dir;
       do _ <- display e ("Created new package project at " +:+ project_dir)
                 (opt_quiet opts);
       ret 0)
      (fun err => if is_OSError err || is_MunkiPkgError err
                  then Some (do _ <- print Stderr ("ERROR: " +:+ exn_str err);
                             ret (-1))
                  else None).















Definition ALREADY_EXISTS (project_dir : string) : string :=
  "ERROR: " +:+ project_dir +:+ " already exists! "
  +:+ "Use --force to convert it to a project directory.".




Module NewProject.

(** A serializer and a parser that know the defaults of /w/My Pkg *)
Definition text : string :=
  "{distribution_style: false, identifier: com.github.munki.pkg.MyPkg, "
  +:+ "install_location: /, name: 'MyPkg-${version}.pkg', ownership: recommended, "
  +:+ "postinstall_action: none, preserve_xattr: false, "
  +:+ "suppress_bundle_relocation: true, version: '1.0'}".

Definition document : list (string * pyval) :=
  [ ("distribution_style", PBool false);
    ("identifier", PStr "com.github.munki.pkg.MyPkg");
    ("install_location", PStr "/");
    ("name", PStr "MyPkg-${version}.pkg");
    ("ownership", PStr "recommended");
    ("postinstall_action", PStr "none");
    ("preserve_xattr", PBool false);
    ("suppress_bundle_relocation", PBool true);
    ("version", PStr "1.0") ].

Definition parser : string -> load_result :=
  Sample.table_parser [(text, PDict document)].

Definition dump : dumpers :=
  mk_dumpers (fun _ => text) (fun _ => text) (fun _ => text).

Definition user_env : env := mk_env 501 18 "munkipkg" true parser parser parser.

(** The directory /w of user 501, and nothing in it *)
Definition site : state :=
  mk_state (<["/w" := Sample.dir_node 493 501 20]> ∅) [].

(** /w with a directory that already has a payload *)
Definition occupied : state :=
  mk_state (<["/w/My Pkg/payload" := Sample.dir_node 493 501 20]>
            (<["/w/My Pkg" := Sample.dir_node 493 501 20]>
             (<["/w" := Sample.dir_node 493 501 20]> ∅))) [].

End NewProject.

(** * Properties *)

(** ** The loop body is decoding followed by applying *)

Lemma sync_item_decode e opts payload_dir root item c s :
  sync_item e opts payload_dir root item c s =
  match decode_line item with
  | Blank => (Ok (Next, c), s)
  | Malformed ex => (Raise ex, s)
  | Entry en => apply_entry e opts payload_dir root en c s
  end.
Proof.
  unfold sync_item, decode_line.
  destruct (String.eqb item (nl EmptyString)); [reflexivity|].
  set (parts := PyStr.split PyStr.TAB (PyStr.rstrip_nl item)).
  unfold index, bind.
  destruct (parts !! 0%nat) as [path|]; simpl; [|reflexivity].
  destruct (parts !! 1%nat) as [full_mode|]; simpl; [|reflexivity].
  destruct (parts !! 2%nat) as [field|]; simpl; [|reflexivity].
  unfold py_int, py_int8, int_or_error.
  destruct (PyNum.parse false (PyStr.partition "/" field).1.1); simpl; [|reflexivity].
  destruct (PyNum.parse false (PyStr.partition "/" field).2); simpl; [|reflexivity].
  destruct (PyNum.parse true (PyStr.last_n 4 full_mode)); simpl; [|reflexivity].
  reflexivity.
Qed.

(** ** Build-info discovery *)

Lemma lexists_present s path :
  present s path -> Os.lexists path s = (Ok true, s).
Proof.
  intros H. unfold Os.lexists. rewrite bool_decide_eq_true_2; done.
Qed.

Lemma lexists_absent s path :
  fs s !! Os.resolve path = None -> Os.lexists path s = (Ok false, s).
Proof.
  intros H. unfold Os.lexists. rewrite H.
  rewrite bool_decide_eq_false_2; [done|]. by intros [? ?].
Qed.

Lemma lexists_cases s path :
  (present s path /\ Os.lexists path s = (Ok true, s))
  \/ (fs s !! Os.resolve path = None /\ Os.lexists path s = (Ok false, s)).
Proof.
  destruct (fs s !! Os.resolve path) as [n|] eqn:E.
  - left. split; [by exists n | apply lexists_present; by exists n].
  - right. split; [done | by apply lexists_absent].
Qed.

(** C6. With no format asked for, a project directory that holds two of
    build-info.plist, build-info.json, build-info.yaml and build-info.yml
    makes [get_build_info] raise "Multiple build-info files found!": no
    build-info is returned, and nothing is changed or printed. *)
Theorem multiple_build_info_files_rejected e project_dir opts s ext1 ext2 :
  opt_yaml opts = false -> opt_json opts = false ->
  In ext1 candidates -> In ext2 candidates -> ext1 <> ext2 ->
  present s (build_info_path project_dir ext1) ->
  present s (build_info_path project_dir ext2) ->
  get_build_info e project_dir opts s = (Raise MULTIPLE, s).
Proof.
  intros Hy Hj In1 In2 Hne P1 P2.
  unfold get_build_info. rewrite Hy, Hj. cbn [negb andb].
  unfold bind at 1.
  change ["plist"; "json"; "yaml"; "yml"] with candidates.
  assert (probe (PyStr.path_join project_dir BUILD_INFO_FILE) candidates None s
          = (Raise MULTIPLE, s)) as ->; [|reflexivity].
  unfold candidates in *. cbn [probe].
  unfold build_info_path in P1, P2.
  set (bf := PyStr.path_join project_dir BUILD_INFO_FILE) in *.
  unfold bind.
  destruct (lexists_cases s (bf +:+ "." +:+ "plist")) as [[Q1 ->]|[Q1 ->]];
  destruct (lexists_cases s (bf +:+ "." +:+ "json")) as [[Q2 ->]|[Q2 ->]];
  try reflexivity;
  destruct (lexists_cases s (bf +:+ "." +:+ "yaml")) as [[Q3 ->]|[Q3 ->]];
  try reflexivity;
  destruct (lexists_cases s (bf +:+ "." +:+ "yml")) as [[Q4 ->]|[Q4 ->]];
  try reflexivity;
  exfalso; unfold present in *;
  simpl in In1, In2;
  destruct In1 as [<-|[<-|[<-|[<-|[]]]]]; destruct In2 as [<-|[<-|[<-|[<-|[]]]]];
  try congruence;
  repeat match goal with
         | H : is_Some ?x, H' : ?x = None |- _ =>
             rewrite H' in H; destruct H as [? H]; discriminate H
         end.
Qed.

Lemma multiple_build_info_files_rejected_witness :
  get_build_info Sample.user_env "/p" Sample.plain Sample.two_build_infos
  = (Raise MULTIPLE, Sample.two_build_infos).
Proof.
  apply (multiple_build_info_files_rejected Sample.user_env "/p" Sample.plain
           Sample.two_build_infos "plist" "json").
  - reflexivity.
  - reflexivity.
  - simpl; auto.
  - simpl; auto.
  - discriminate.
  - vm_compute. eexists. reflexivity.
  - vm_compute. eexists. reflexivity.
Defined.

(** ** Validation and templating in [read_build_info] *)

Lemma validate_keys_dict todo d file_path s :
  validate_keys todo (PDict d) file_path s =
  match first_illegal todo d with
  | None => (Ok true, s)
  | Some (key, value, legal) =>
      (Ok false, mk_state (fs s) (out s ++ illegal_report file_path key value legal))
  end.
Proof.
  induction todo as [|[key legal] rest IH]; [reflexivity|].
  cbn [validate_keys first_illegal]. unfold bind, py_contains, py_getitem, ret.
  destruct (PyVal.lookup key d) as [value|] eqn:E.
  - rewrite bool_decide_eq_true_2 by (by eexists).
    destruct (PyVal.in_list value legal); cbn [negb].
    + apply IH.
    + unfold print, illegal_report. cbn. by rewrite <- app_assoc.
  - rewrite bool_decide_eq_false_2 by (by intros [? ?]). apply IH.
Qed.

Lemma validate_dict d file_path s :
  validate_build_info_keys (PDict d) file_path s
  = (Ok (bool_decide (first_illegal valid_values d = None)), validated file_path d s).
Proof.
  unfold validate_build_info_keys, validated. rewrite validate_keys_dict.
  destruct (first_illegal valid_values d) as [[[key value] legal]|]; reflexivity.
Qed.

(** What [read_build_info] does once the file is loaded as a mapping *)
Lemma read_build_info_dict e path s d :
  load_build_info e path s = (Ok (PDict d), s) ->
  read_build_info e path s =
  match PyVal.lookup "name" d with
  | None => (Raise (KeyError "name"), validated path d s)
  | Some (PStr n) =>
      if PyStr.contains PLACEHOLDER n then
        match PyVal.lookup "version" d with
        | None => (Raise (KeyError "version"), validated path d s)
        | Some version =>
            (Ok (PDict (dict_set "name"
                          (PStr (PyStr.replace n PLACEHOLDER (PyVal.str version))) d)),
             validated path d s)
        end
      else (Ok (PDict d), validated path d s)
  | Some (PList l) =>
      if existsb (fun x => PyVal.eq_scalar x (PStr PLACEHOLDER)) l
      then (Raise AttributeError, validated path d s)
      else (Ok (PDict d), validated path d s)
  | Some (PDict m) =>
      if bool_decide (is_Some (PyVal.lookup PLACEHOLDER m))
      then (Raise AttributeError, validated path d s)
      else (Ok (PDict d), validated path d s)
  | Some _ => (Raise TypeError, validated path d s)
  end.
Proof.
  intros Hload. unfold read_build_info. unfold bind at 1. rewrite Hload.
  unfold bind at 1. rewrite validate_dict.
  unfold bind, py_getitem, py_contains, ret, raise.
  destruct (PyVal.lookup "name" d) as [[| | |n|l|m]|]; try reflexivity.
  - destruct (PyStr.contains PLACEHOLDER n); [|reflexivity].
    destruct (PyVal.lookup "version" d); reflexivity.
  - destruct (existsb _ l); reflexivity.
  - destruct (bool_decide _); reflexivity.
Qed.

Lemma load_build_info_state e path s r s' :
  load_build_info e path s = (r, s') -> s' = s.
Proof.
  unfold load_build_info, bind, Os.open_text, ret, raise.
  destruct (kind_of_path path);
    repeat (case_match; simplify_eq; try done); congruence.
Qed.

(** [get_build_info] is discovery, reading and overriding the defaults *)
Lemma get_build_info_selected e project_dir opts s ext :
  selects project_dir opts s ext ->
  get_build_info e project_dir opts s =
  match read_build_info e (build_info_path project_dir ext) s with
  | (Ok file_info, s') =>
      if PyVal.truthy file_info
      then override supported_keys file_info
             (<["project_dir" := PStr project_dir]> (default_build_info project_dir)) s'
      else (Raise NOT_FOUND, s')
  | (Raise ex, s') => (Raise ex, s')
  end.
Proof.
  intros (Hchoose & Hne & Hpresent).
  unfold get_build_info. unfold choose_file_type in Hchoose.
  unfold bind at 1. rewrite Hchoose.
  destruct ext as [|c ext]; [done|]. cbn [String.length Nat.eqb negb].
  unfold bind at 1. unfold bind at 1.
  fold (build_info_path project_dir (String c ext)).
  rewrite (lexists_present _ _ Hpresent).
  destruct (read_build_info e (build_info_path project_dir (String c ext)) s)
    as [[file_info|ex] s']; [|reflexivity].
  destruct (PyVal.truthy file_info); reflexivity.
Qed.

(** ** What [sync_from_bom_info] does with the outcome of resolution *)

Lemma sync_traced_propagates e project_dir opts s ex s' :
  get_build_info e project_dir opts s = (Raise ex, s') ->
  is_MunkiPkgError ex = false ->
  sync_from_bom_info_traced e project_dir opts s = (Raise ex, s').
Proof.
  intros Hget Hex. unfold sync_from_bom_info_traced, bind, try_except.
  rewrite Hget, Hex. reflexivity.
Qed.

Lemma sync_propagates e project_dir opts s ex s' :
  get_build_info e project_dir opts s = (Raise ex, s') ->
  is_MunkiPkgError ex = false ->
  sync_from_bom_info e project_dir opts s = (Raise ex, s').
Proof.
  intros Hget Hex. unfold sync_from_bom_info, bind.
  by rewrite (sync_traced_propagates _ _ _ _ _ _ Hget Hex).
Qed.

Ltac default_lookup :=
  unfold default_build_info;
  repeat (rewrite lookup_insert_ne by discriminate);
  rewrite lookup_insert_eq.

Lemma default_has_name project_dir :
  is_Some (default_build_info project_dir !! "name").
Proof. default_lookup. by eexists. Qed.

Lemma default_has_version project_dir :
  default_build_info project_dir !! "version" = Some (PStr "1.0").
Proof. by default_lookup. Qed.

Lemma default_ownership project_dir :
  default_build_info project_dir !! "ownership" = Some (PStr "recommended").
Proof. by default_lookup. Qed.

Lemma missing_key_name d :
  PyVal.lookup "name" d = None -> missing_key d = Some "name".
Proof. unfold missing_key. by intros ->. Qed.

(** C9. A build-info file that loads as a mapping without the key [name]
    (or without [version] while its name holds the placeholder) makes
    [read_build_info] raise a [KeyError] for that key. Nothing catches it:
    [get_build_info] and [sync_from_bom_info] end with the same exception,
    although the defaults hold a value for both keys. *)
Theorem missing_name_raises_KeyError e project_dir opts s ext d key :
  selects project_dir opts s ext ->
  load_build_info e (build_info_path project_dir ext) s = (Ok (PDict d), s) ->
  missing_key d = Some key ->
  let s' := validated (build_info_path project_dir ext) d s in
  read_build_info e (build_info_path project_dir ext) s = (Raise (KeyError key), s')
  /\ get_build_info e project_dir opts s = (Raise (KeyError key), s')
  /\ sync_from_bom_info e project_dir opts s = (Raise (KeyError key), s')
  /\ is_Some (default_build_info project_dir !! "name")
  /\ is_Some (default_build_info project_dir !! "version").
Proof.
  intros Hsel Hload Hmiss s'.
  assert (read_build_info e (build_info_path project_dir ext) s
          = (Raise (KeyError key), s')) as Hread.
  { rewrite (read_build_info_dict _ _ _ _ Hload). unfold missing_key in Hmiss.
    destruct (PyVal.lookup "name" d) as [[| | |n|l|m]|]; try discriminate.
    - destruct (PyStr.contains PLACEHOLDER n); [|discriminate].
      destruct (PyVal.lookup "version" d); [discriminate|].
      injection Hmiss as <-. reflexivity.
    - injection Hmiss as <-. reflexivity. }
  assert (get_build_info e project_dir opts s = (Raise (KeyError key), s')) as Hget.
  { rewrite (get_build_info_selected _ _ _ _ _ Hsel), Hread. reflexivity. }
  repeat split; try assumption.
  - by apply sync_propagates.
  - apply default_has_name.
  - rewrite default_has_version. by eexists.
Qed.

Lemma missing_name_raises_KeyError_witness :
  let s := Sample.project [("build-info.yaml", "{version: '1.0'}")] in
  sync_from_bom_info Sample.user_env "/p" Sample.plain s = (Raise (KeyError "name"), s).
Proof.
  intros s.
  refine (proj1 (proj2 (proj2
    (missing_name_raises_KeyError Sample.user_env "/p" Sample.plain s "yaml"
       [("version", PStr "1.0")] "name" _ _ _)))).
  - split; [reflexivity | split; [discriminate | vm_compute; eexists; reflexivity]].
  - reflexivity.
  - reflexivity.
Defined.

(** ** Overriding the defaults *)

Lemma override_dict keys d info s :
  override keys (PDict d) info s = (Ok (overridden keys d info), s).
Proof.
  revert info. induction keys as [|key rest IH]; intros info; [reflexivity|].
  cbn [override overridden]. unfold bind, py_contains, py_getitem, ret.
  destruct (PyVal.lookup key d) as [value|].
  - rewrite bool_decide_eq_true_2 by (by eexists). apply IH.
  - rewrite bool_decide_eq_false_2 by (by intros [? ?]). apply IH.
Qed.

Lemma overridden_other keys d info key :
  ~ In key keys -> overridden keys d info !! key = info !! key.
Proof.
  revert info. induction keys as [|k rest IH]; intros info Hnot; [reflexivity|].
  cbn [overridden]. rewrite IH by (intros ?; apply Hnot; by right).
  destruct (PyVal.lookup k d); [|reflexivity].
  apply lookup_insert_ne. intros ->. apply Hnot. by left.
Qed.

Lemma overridden_absent keys d info key :
  PyVal.lookup key d = None -> overridden keys d info !! key = info !! key.
Proof.
  intros Hnone. revert info. induction keys as [|k rest IH]; intros info; [reflexivity|].
  cbn [overridden]. rewrite IH.
  destruct (PyVal.lookup k d) eqn:E; [|reflexivity].
  apply lookup_insert_ne. intros ->. congruence.
Qed.

Lemma overridden_found keys d info key value :
  In key keys -> PyVal.lookup key d = Some value ->
  overridden keys d info !! key = Some value.
Proof.
  intros Hin Hsome. revert info Hin.
  induction keys as [|k rest IH]; intros info Hin; [destruct Hin|].
  cbn [overridden].
  destruct (in_dec string_dec key rest) as [Hrest|Hrest]; [by apply IH|].
  destruct Hin as [->|Hin]; [|done].
  rewrite overridden_other by done. rewrite Hsome. apply lookup_insert_eq.
Qed.

Lemma lookup_dict_set_eq key x d :
  PyVal.lookup key (dict_set key x d) = Some x.
Proof.
  induction d as [|[k v] r IH]; cbn.
  - by rewrite String.eqb_refl.
  - destruct (String.eqb k key) eqn:E; cbn; rewrite E; [reflexivity|apply IH].
Qed.

Lemma lookup_dict_set_ne key key' x d :
  key <> key' -> PyVal.lookup key' (dict_set key x d) = PyVal.lookup key' d.
Proof.
  intros Hne. induction d as [|[k v] r IH]; cbn.
  - destruct (String.eqb key key') eqn:E; [|reflexivity].
    apply String.eqb_eq in E. done.
  - destruct (String.eqb k key) eqn:E; cbn.
    + apply String.eqb_eq in E as ->.
      destruct (String.eqb key key') eqn:E'; [|reflexivity].
      apply String.eqb_eq in E'. done.
    + destruct (String.eqb k key'); [reflexivity|apply IH].
Qed.

(** What [get_build_info] returns for a mapping that [read_build_info]
    accepts *)
Lemma get_build_info_dict e project_dir opts s ext d s' :
  selects project_dir opts s ext ->
  read_build_info e (build_info_path project_dir ext) s = (Ok (PDict d), s') ->
  d <> [] ->
  get_build_info e project_dir opts s = (Ok (resolved project_dir d), s').
Proof.
  intros Hsel Hread Hne.
  rewrite (get_build_info_selected _ _ _ _ _ Hsel), Hread.
  destruct d; [done|]. cbn [PyVal.truthy length Nat.eqb negb].
  apply override_dict.
Qed.

(** ** Illegal values *)

(** C4 (the code departs from the claim). A build-info file whose
    [ownership] is the illegal value [bogus]: validation reports it and
    answers [False], and [get_build_info] nevertheless returns a build-info
    that carries the illegal value. *)
Theorem illegal_ownership_is_accepted :
  let s := Sample.project [("build-info.yaml", "{name: Foo.pkg, ownership: bogus}")] in
  let doc := PDict [("name", PStr "Foo.pkg"); ("ownership", PStr "bogus")] in
  let reported :=
    mk_state (fs s)
      [ (Stderr, "ERROR: /p/build-info.yaml key 'ownership' has illegal value: 'bogus'");
        (Stderr, "ERROR: Legal values are: ['recommended', 'preserve', 'preserve-other']") ] in
  validate_build_info_keys doc "/p/build-info.yaml" s = (Ok false, reported)
  /\ exists info,
       get_build_info Sample.user_env "/p" Sample.plain s = (Ok info, reported)
       /\ info !! "ownership" = Some (PStr "bogus").
Proof.
  intros s doc reported. split; [reflexivity|].
  exists (resolved "/p" [("name", PStr "Foo.pkg"); ("ownership", PStr "bogus")]).
  split.
  - apply (get_build_info_dict _ _ _ _ "yaml"); [|reflexivity|discriminate].
    split; [reflexivity | split; [discriminate | vm_compute; eexists; reflexivity]].
  - apply overridden_found; [simpl; auto 10 | reflexivity].
Qed.

(** ** Name templating *)

Lemma length_app (a b : string) :
  String.length (a +:+ b) = (String.length a + String.length b)%nat.
Proof. induction a as [|c a IH]; simpl; [reflexivity | f_equal; apply IH]. Qed.

Lemma prefix_app (a b : string) : String.prefix a (a +:+ b) = true.
Proof.
  induction a as [|c a IH]; simpl; [by destruct b|].
  destruct (ascii_dec c c); [apply IH | done].
Qed.

Lemma replace_go_skip old new (a rest : string) :
  PyStr.replace_go old new (String.length a) (a +:+ rest)
  = PyStr.replace_go old new 0 rest.
Proof. induction a as [|c a IH]; simpl; [by destruct rest | apply IH]. Qed.

(** A text without the pattern is left as it is *)
Lemma replace_absent old new s :
  PyStr.contains old s = false -> PyStr.replace s old new = s.
Proof.
  unfold PyStr.replace. induction s as [|c r IH]; [reflexivity|].
  cbn [PyStr.contains PyStr.replace_go]. intros H.
  apply orb_false_iff in H as [Hp Hc]. rewrite Hp. f_equal. by apply IH.
Qed.

(** Where the pattern first occurs, the new text stands in its place, and
    the replacement goes on behind it: the new text is not looked at
    again *)
Lemma replace_go_hit old new c r :
  String.prefix old (String c r) = true ->
  PyStr.replace_go old new 0 (String c r)
  = new +:+ PyStr.replace_go old new (String.length old - 1) r.
Proof.
  intros H.
  change (PyStr.replace_go old new 0 (String c r))
    with (if String.prefix old (String c r)
          then new +:+ PyStr.replace_go old new (String.length old - 1) r
          else String c (PyStr.replace_go old new 0 r)).
  by rewrite H.
Qed.

Lemma replace_go_miss old new c r :
  String.prefix old (String c r) = false ->
  PyStr.replace_go old new 0 (String c r)
  = String c (PyStr.replace_go old new 0 r).
Proof.
  intros H.
  change (PyStr.replace_go old new 0 (String c r))
    with (if String.prefix old (String c r)
          then new +:+ PyStr.replace_go old new (String.length old - 1) r
          else String c (PyStr.replace_go old new 0 r)).
  by rewrite H.
Qed.

Lemma replace_first_occurrence old new pre post :
  old <> EmptyString ->
  (forall k, (k < String.length pre)%nat ->
             String.prefix old (PyStr.drop k (pre +:+ old +:+ post)) = false) ->
  PyStr.replace (pre +:+ old +:+ post) old new
  = pre +:+ new +:+ PyStr.replace post old new.
Proof.
  intros Hne. unfold PyStr.replace.
  induction pre as [|c pre IH]; intros Hfirst.
  - destruct old as [|c old]; [done|].
    change (EmptyString +:+ String c old +:+ post) with (String c (old +:+ post)).
    rewrite replace_go_hit by apply (prefix_app (String c old) post).
    change (String.length (String c old) - 1)%nat with (String.length old - 0)%nat.
    rewrite Nat.sub_0_r. by rewrite replace_go_skip.
  - change (String c pre +:+ old +:+ post) with (String c (pre +:+ old +:+ post)).
    rewrite replace_go_miss by (apply (Hfirst 0%nat); simpl; lia).
    change (String c pre +:+ new +:+ PyStr.replace_go old new 0 post)
      with (String c (pre +:+ new +:+ PyStr.replace_go old new 0 post)).
    f_equal. apply IH.
    intros k Hk. apply (Hfirst (S k)). simpl. lia.
Qed.

Lemma name_of_resolved project_dir d value :
  PyVal.lookup "name" d = Some value ->
  resolved project_dir d !! "name" = Some value.
Proof. intros H. apply overridden_found; [simpl; auto | done]. Qed.

Lemma version_of_resolved project_dir d value :
  PyVal.lookup "version" d = Some value ->
  resolved project_dir d !! "version" = Some value.
Proof. intros H. apply overridden_found; [simpl; auto | done]. Qed.

(** C5 (as amended). When the name in the build-info file holds the
    placeholder, the resolved name is the file's name with the resolved
    version, as a string, put in place of every occurrence of the
    placeholder, in one pass from the left; a name without the placeholder
    is resolved to itself whatever the version is. *)
Theorem name_templating e project_dir opts s ext d n :
  selects project_dir opts s ext ->
  load_build_info e (build_info_path project_dir ext) s = (Ok (PDict d), s) ->
  PyVal.lookup "name" d = Some (PStr n) ->
  let s' := validated (build_info_path project_dir ext) d s in
  (PyStr.contains PLACEHOLDER n = false ->
   get_build_info e project_dir opts s = (Ok (resolved project_dir d), s')
   /\ resolved project_dir d !! "name" = Some (PStr n))
  /\ (forall version,
        PyStr.contains PLACEHOLDER n = true ->
        PyVal.lookup "version" d = Some version ->
        let name := PyStr.replace n PLACEHOLDER (PyVal.str version) in
        let d' := dict_set "name" (PStr name) d in
        get_build_info e project_dir opts s = (Ok (resolved project_dir d'), s')
        /\ resolved project_dir d' !! "name" = Some (PStr name)
        /\ resolved project_dir d' !! "version" = Some version)
  /\ (forall pre post v,
        (forall k, (k < String.length pre)%nat ->
           String.prefix PLACEHOLDER (PyStr.drop k (pre +:+ PLACEHOLDER +:+ post)) = false) ->
        PyStr.replace (pre +:+ PLACEHOLDER +:+ post) PLACEHOLDER v
        = pre +:+ v +:+ PyStr.replace post PLACEHOLDER v).
Proof.
  intros Hsel Hload Hname s'.
  pose proof (read_build_info_dict _ _ _ _ Hload) as Hread.
  rewrite Hname in Hread. split; [|split].
  - intros Hno. rewrite Hno in Hread. split.
    + apply (get_build_info_dict _ _ _ _ ext _ _ Hsel Hread).
      intros ->. discriminate Hname.
    + by apply name_of_resolved.
  - intros version Hyes Hversion name d'. rewrite Hyes, Hversion in Hread.
    split; [|split].
    + apply (get_build_info_dict _ _ _ _ ext _ _ Hsel Hread).
      subst d'. destruct d as [|[k v] r]; [discriminate Hname|].
      cbn. by destruct (String.eqb k "name").
    + apply name_of_resolved. apply lookup_dict_set_eq.
    + apply version_of_resolved. subst d'.
      by rewrite lookup_dict_set_ne.
  - intros pre post v Hfirst. by apply replace_first_occurrence.
Qed.

Lemma name_templating_witness :
  let s := Sample.project [("build-info.yaml", "{name: Foo-${version}.pkg, version: '2.3'}")] in
  let d' := [("name", PStr "Foo-2.3.pkg"); ("version", PStr "2.3")] in
  get_build_info Sample.user_env "/p" Sample.plain s = (Ok (resolved "/p" d'), s)
  /\ resolved "/p" d' !! "name" = Some (PStr "Foo-2.3.pkg")
  /\ resolved "/p" d' !! "version" = Some (PStr "2.3").
Proof.
  intros s d'.
  refine (proj1 (proj2
    (name_templating Sample.user_env "/p" Sample.plain s "yaml"
       [("name", PStr "Foo-${version}.pkg"); ("version", PStr "2.3")]
       "Foo-${version}.pkg" _ _ _)) (PStr "2.3") _ _).
  - split; [reflexivity | split; [discriminate | vm_compute; eexists; reflexivity]].
  - reflexivity.
  - reflexivity.
  - reflexivity.
  - reflexivity.
Defined.

(** C5 (as stated) fails: a name that holds the placeholder twice has both
    occurrences replaced, so the result is not the name with the version
    put in once. *)
Lemma name_templating_counterexample :
  let s := Sample.project
             [("build-info.yaml", "{name: '${version}-${version}.pkg', version: '2.3'}")] in
  exists info,
    get_build_info Sample.user_env "/p" Sample.plain s = (Ok info, s)
    /\ info !! "name" = Some (PStr "2.3-2.3.pkg")
    /\ forall pre post,
         "${version}-${version}.pkg" = pre +:+ PLACEHOLDER +:+ post ->
         "2.3-2.3.pkg" <> pre +:+ "2.3" +:+ post.
Proof.
  intros s.
  exists (resolved "/p" [("name", PStr "2.3-2.3.pkg"); ("version", PStr "2.3")]).
  split; [|split].
  - apply (get_build_info_dict _ _ _ _ "yaml"); [|reflexivity|discriminate].
    split; [reflexivity | split; [discriminate | vm_compute; eexists; reflexivity]].
  - by apply name_of_resolved.
  - intros pre post Hname Hres.
    apply (f_equal String.length) in Hname, Hres.
    rewrite !length_app in Hname, Hres. cbn in Hname, Hres. lia.
Qed.

(** ** Falling back to the defaults *)

(** C10 (as amended). When [get_build_info] fails with a [MunkiPkgError]
    (no build-info file, several of them, or a file that is not valid for
    its format, which is a [BuildError]), [sync_from_bom_info] goes on with
    the default build-info: its ownership is [recommended], so the warning
    about privileges is not printed, and when Bom.txt is there the payload
    is reconciled with it. *)
Theorem resolution_failure_falls_back_to_defaults e project_dir opts s ex s' :
  get_build_info e project_dir opts s = (Raise ex, s') ->
  is_MunkiPkgError ex = true ->
  sync_from_bom_info_traced e project_dir opts s
  = sync_with e project_dir opts (default_build_info project_dir) s'
  /\ default_build_info project_dir !! "ownership" = Some (PStr "recommended")
  /\ ownership_warning (default_build_info project_dir) (euid e =? 0) s' = (Ok tt, s')
  /\ (present s' (PyStr.path_join project_dir BOM_TEXT_FILE) ->
      sync_with e project_dir opts (default_build_info project_dir) s'
      = reconcile e project_dir opts s').
Proof.
  intros Hget Hex.
  assert (ownership_warning (default_build_info project_dir) (euid e =? 0) s'
          = (Ok tt, s')) as Hwarn.
  { unfold ownership_warning, bind, info_get. by rewrite default_ownership. }
  split; [|split; [|split]].
  - unfold sync_from_bom_info_traced, bind at 1, try_except.
    by rewrite Hget, Hex.
  - apply default_ownership.
  - exact Hwarn.
  - intros Hbom. unfold sync_with, bind at 1.
    rewrite (lexists_present _ _ Hbom). cbn [negb].
    unfold bind at 1. by rewrite Hwarn.
Qed.

Lemma resolution_failure_falls_back_to_defaults_witness :
  let s := Sample.project [("Bom.txt", Sample.bom_line "./d" "40755" "501/20")] in
  sync_from_bom_info_traced Sample.user_env "/p" Sample.plain s
  = sync_with Sample.user_env "/p" Sample.plain (default_build_info "/p") s.
Proof.
  intros s.
  refine (proj1 (resolution_failure_falls_back_to_defaults
                   Sample.user_env "/p" Sample.plain s NOT_FOUND s _ _)).
  - reflexivity.
  - reflexivity.
Defined.

(** C10 (as stated) fails: a resolution that ends with another exception
    than [MunkiPkgError], here the [KeyError] for a file without [name],
    ends [sync_from_bom_info] too; the directory that Bom.txt asks for is
    not created. *)
Lemma resolution_failure_counterexample :
  let s := Sample.project [("build-info.yaml", "{version: '1.0'}");
                           ("Bom.txt", Sample.bom_line "./d" "40755" "501/20")] in
  get_build_info Sample.user_env "/p" Sample.plain s = (Raise (KeyError "name"), s)
  /\ sync_from_bom_info Sample.user_env "/p" Sample.plain s = (Raise (KeyError "name"), s)
  /\ fs s !! "/p/payload/d" = None
  /\ exists s', sync_with Sample.user_env "/p" Sample.plain (default_build_info "/p") s
                = (Ok (0, Some 1), s')
                /\ is_Some (fs s' !! "/p/payload/d").
Proof.
  intros s. split; [reflexivity|]. split; [reflexivity|]. split; [reflexivity|].
  eexists. split; [vm_compute; reflexivity|]. vm_compute. eexists. reflexivity.
Qed.

(** ** The cases of applying an entry *)

Lemma display_shown e message quiet s :
  display e message quiet s = (Ok tt, mk_state (fs s) (out s ++ shown e quiet message)).
Proof.
  unfold display, shown, print, ret. destruct quiet; cbn [negb]; [|reflexivity].
  rewrite app_nil_r. by destruct s.
Qed.

Lemma startswith_drop s p :
  PyStr.startswith s p = true -> s = p +:+ PyStr.drop (String.length p) s.
Proof.
  unfold PyStr.startswith. revert s.
  induction p as [|c p IH]; intros s H; [reflexivity|].
  destruct s as [|d s]; [discriminate|]. simpl in H.
  destruct (ascii_dec c d) as [->|]; [|discriminate].
  change (String d s = String d (p +:+ PyStr.drop (String.length p) s)).
  f_equal. by apply IH.
Qed.

Lemma apply_sidecar e opts payload_dir root en c s :
  is_sidecar en = true ->
  apply_entry e opts payload_dir root en c s
  = (Ok (Next, c), mk_state (fs s) (out s ++ [(Stderr, sidecar_warning en)])).
Proof. intros H. unfold apply_entry. rewrite H. reflexivity. Qed.

Lemma apply_missing_file e opts payload_dir root en c s :
  is_sidecar en = false ->
  fs s !! target payload_dir en = None ->
  marks_directory en = false ->
  apply_entry e opts payload_dir root en c s
  = (Ok (Break, c),
     mk_state (fs s) (out s ++ [(Stderr, missing_file_error payload_dir en)])).
Proof.
  intros Hside Habsent Hdir. unfold apply_entry. rewrite Hside.
  unfold bind at 1. unfold target in Habsent.
  rewrite (lexists_absent _ _ Habsent). rewrite Hdir. reflexivity.
Qed.

(** An absent directory entry: [mkdir] decides *)
Lemma apply_missing_dir e opts payload_dir root en c s :
  is_sidecar en = false ->
  fs s !! target payload_dir en = None ->
  marks_directory en = true ->
  let shown_s :=
    mk_state (fs s)
      (out s ++ shown e (opt_quiet opts)
                  ("Creating " +:+ payload_path payload_dir en +:+ " with mode "
                   +:+ PyNum.oct (e_mode en))) in
  apply_entry e opts payload_dir root en c s =
  match fs s !! Os.parent (payload_path payload_dir en) with
  | None => (Raise (Os.ENOENT (payload_path payload_dir en)), shown_s)
  | Some dir =>
      if Os.S_ISDIR (st_mode dir) then
        (Ok (Next, c + 1),
         mk_state
           (<[target payload_dir en :=
                mk_inode (Z.lor Os.S_IFDIR (Os.mkdir_bits (umask e) (e_mode en)))
                         (euid e) (st_gid dir) EmptyString]> (fs s))
           (out shown_s))
      else (Raise (Os.ENOTDIR (payload_path payload_dir en)), shown_s)
  end.
Proof.
  intros Hside Habsent Hdir shown_s. unfold apply_entry. rewrite Hside.
  unfold bind at 1. unfold target in *.
  rewrite (lexists_absent _ _ Habsent). rewrite Hdir.
  unfold bind. rewrite display_shown. subst shown_s.
  unfold Os.mkdir. cbn [fs out]. rewrite Habsent.
  destruct (fs s !! Os.parent (payload_path payload_dir en)) as [dir|]; [|reflexivity].
  destruct (Os.S_ISDIR (st_mode dir)); reflexivity.
Qed.

(** An entry found in the tree, applied by an unprivileged user *)
Lemma apply_present_user e opts payload_dir en c s node :
  is_sidecar en = false ->
  fs s !! target payload_dir en = Some node ->
  apply_entry e opts payload_dir false en c s =
  if Os.S_IMODE (st_mode node) =? e_mode en then (Ok (Next, c), s)
  else
    let shown_s :=
      mk_state (fs s)
        (out s ++ shown e (opt_quiet opts)
                    ("Changing mode of " +:+ payload_path payload_dir en +:+ " to "
                     +:+ PyNum.oct (e_mode en))) in
    if (euid e =? 0) || (euid e =? st_uid node) then
      (Ok (Next, c + 1),
       mk_state
         (<[target payload_dir en :=
              mk_inode (set_perm (st_mode node) (e_mode en))
                       (st_uid node) (st_gid node) (st_data node)]> (fs s))
         (out shown_s))
    else (Raise (Os.EPERM (payload_path payload_dir en)), shown_s).
Proof.
  intros Hside Hnode. unfold apply_entry. rewrite Hside.
  unfold bind at 1. unfold target in *.
  rewrite lexists_present by (by eexists).
  unfold bind at 1. unfold bind at 1. unfold Os.lstat. rewrite Hnode.
  destruct (Os.S_IMODE (st_mode node) =? e_mode en); cbn [negb]; [reflexivity|].
  unfold bind. rewrite display_shown. unfold Os.lchmod. cbn [fs]. rewrite Hnode.
  destruct ((euid e =? 0) || (euid e =? st_uid node)); reflexivity.
Qed.

Lemma land_land_same a b : Z.land (Z.land a b) b = Z.land a b.
Proof. by rewrite <- Z.land_assoc, Z.land_diag. Qed.

Lemma set_perm_same mode : set_perm mode (Os.S_IMODE mode) = mode.
Proof.
  unfold set_perm, Os.S_IMODE. rewrite land_land_same. apply Z.lor_ldiff_and.
Qed.

Lemma S_IMODE_set_perm mode desired :
  Os.S_IMODE (set_perm mode desired) = Os.S_IMODE desired.
Proof.
  unfold set_perm, Os.S_IMODE.
  rewrite Z.land_lor_distr_l, land_land_same.
  rewrite Z.ldiff_land, <- Z.land_assoc.
  rewrite (Z.land_comm (Z.lnot Os.ALLPERMS)), Z.land_lnot_diag.
  by rewrite Z.land_0_r, Z.lor_0_l.
Qed.

Lemma set_perm_twice mode d1 d2 :
  set_perm (set_perm mode d1) d2 = set_perm mode d2.
Proof.
  unfold set_perm at 1 3. f_equal.
  unfold set_perm. rewrite Z.ldiff_land, Z.ldiff_land.
  rewrite Z.land_lor_distr_l, <- !Z.land_assoc, Z.land_diag.
  rewrite Z.land_lnot_diag, Z.land_0_r. apply Z.lor_0_r.
Qed.

Lemma new_id_valid old n : valid_id n = true -> Os.new_id old n = n.
Proof.
  unfold valid_id, Os.new_id, Os.ID_MAX. intros H.
  apply andb_true_iff in H as [H1 H2].
  apply Z.leb_le in H1. apply Z.ltb_lt in H2.
  destruct (n =? -1) eqn:E1; [apply Z.eqb_eq in E1; lia|].
  destruct (n =? 4294967295) eqn:E2; [apply Z.eqb_eq in E2; lia|]. reflexivity.
Qed.

Lemma valid_id_in_range n : valid_id n = true -> Os.id_in_range n = true.
Proof.
  unfold valid_id, Os.id_in_range, Os.ID_MAX. intros H.
  apply andb_true_iff in H as [H1 H2].
  apply Z.leb_le in H1. apply Z.ltb_lt in H2.
  apply andb_true_iff. split; [apply Z.leb_le | apply Z.leb_le]; lia.
Qed.


(** ** Running a computation step by step *)

Lemma bind_ok {A B} (c : M A) (k : A -> M B) s a s1 :
  c s = (Ok a, s1) -> bind c k s = k a s1.
Proof. intros H. unfold bind. by rewrite H. Qed.

Lemma bind_raise {A B} (c : M A) (k : A -> M B) s ex s1 :
  c s = (Raise ex, s1) -> bind c k s = (Raise ex, s1).
Proof. intros H. unfold bind. by rewrite H. Qed.

Lemma bind_assoc {A B C} (c : M A) (f : A -> M B) (g : B -> M C) s :
  bind (bind c f) g s = bind c (fun x => bind (f x) g) s.
Proof. unfold bind. destruct (c s) as [[a|ex] s1]; reflexivity. Qed.

Lemma lstat_found p s node :
  fs s !! Os.resolve p = Some node -> Os.lstat p s = (Ok node, s).
Proof. intros H. unfold Os.lstat. by rewrite H. Qed.

Lemma lchmod_ok e p mode s node :
  fs s !! Os.resolve p = Some node ->
  (euid e =? 0) || (euid e =? st_uid node) = true ->
  Os.lchmod e p mode s
  = (Ok tt, mk_state (<[Os.resolve p :=
                         mk_inode (set_perm (st_mode node) mode)
                                  (st_uid node) (st_gid node) (st_data node)]> (fs s))
                     (out s)).
Proof. intros H1 H2. unfold Os.lchmod. by rewrite H1, H2. Qed.

Lemma lchown_ok e p uid gid s node :
  euid e = 0 ->
  fs s !! Os.resolve p = Some node ->
  valid_id uid = true -> valid_id gid = true ->
  Os.lchown e p uid gid s
  = (Ok tt, mk_state (<[Os.resolve p :=
                         mk_inode (st_mode node) uid gid (st_data node)]> (fs s))
                     (out s)).
Proof.
  intros Hroot H Hu Hg. unfold Os.lchown.
  rewrite (valid_id_in_range _ Hu), (valid_id_in_range _ Hg), H, Hroot.
  cbn [andb negb Z.eqb]. by rewrite !new_id_valid.
Qed.

Ltac run H := rewrite (bind_ok _ _ _ _ _ H); cbv beta iota.

(** An entry found in the tree, applied by the superuser *)
Lemma apply_present_root e opts payload_dir en c s node :
  euid e = 0 ->
  is_sidecar en = false ->
  fs s !! target payload_dir en = Some node ->
  valid_id (e_user en) = true -> valid_id (e_group en) = true ->
  exists s',
    apply_entry e opts payload_dir true en c s
    = (Ok (Next, c + (if Os.S_IMODE (st_mode node) =? e_mode en then 0 else 1)
                   + (if (st_uid node =? e_user en) && (st_gid node =? e_group en)
                      then 0 else 1)), s')
    /\ fs s' = <[target payload_dir en := fixed_node node en]> (fs s).
Proof.
  intros Hroot Hside Hnode Hu Hg.
  unfold apply_entry, target in *. rewrite Hside. cbv zeta.
  set (p := payload_path payload_dir en) in *.
  run (lexists_present s p (ltac:(by eexists))).
  rewrite bind_assoc. run (lstat_found p s node Hnode).
  (* the owner step, from any state that holds a node with the owner of [node] *)
  assert (forall s1 node1 c1,
    fs s1 !! Os.resolve p = Some node1 ->
    st_uid node1 = st_uid node -> st_gid node1 = st_gid node ->
    exists s',
      (do st1 <- Os.lstat p;
       do st2 <- Os.lstat p;
       if negb (st_uid st1 =? e_user en) || negb (st_gid st2 =? e_group en)
       then
         do _ <- display e ("Changing user/group of " +:+ p
                            +:+ " to " +:+ PyNum.to_str (e_user en) +:+ "/"
                            +:+ PyNum.to_str (e_group en)) (opt_quiet opts);
         do _ <- Os.lchown e p (e_user en) (e_group en);
         ret (Next, c1 + 1)
       else ret (Next, c1)) s1
      = (Ok (Next, c1 + (if (st_uid node =? e_user en) && (st_gid node =? e_group en)
                         then 0 else 1)), s')
      /\ fs s' = <[Os.resolve p := mk_inode (st_mode node1) (e_user en) (e_group en)
                                           (st_data node1)]> (fs s1)) as Hown.
  { intros s1 node1 c1 Hn1 Huid Hgid.
    run (lstat_found p s1 node1 Hn1). run (lstat_found p s1 node1 Hn1).
    rewrite Huid, Hgid.
    destruct ((st_uid node =? e_user en) && (st_gid node =? e_group en)) eqn:E.
    - apply andb_true_iff in E as [Eu Eg]. rewrite Eu, Eg. cbn [negb orb].
      exists s1. split; [unfold ret; by rewrite Z.add_0_r|].
      apply Z.eqb_eq in Eu, Eg. rewrite insert_id; [done|].
      rewrite Hn1. f_equal. destruct node1; cbn in *. congruence.
    - assert (negb (st_uid node =? e_user en) || negb (st_gid node =? e_group en) = true)
        as ->.
      { apply andb_false_iff in E as [->| ->]; [done|]. apply orb_true_r. }
      run (display_shown e ("Changing user/group of " +:+ p
                            +:+ " to " +:+ PyNum.to_str (e_user en) +:+ "/"
                            +:+ PyNum.to_str (e_group en)) (opt_quiet opts) s1).
      eexists. split.
      + erewrite bind_ok; [reflexivity|].
        apply (lchown_ok e p _ _ _ node1); done.
      + reflexivity. }
  destruct (Os.S_IMODE (st_mode node) =? e_mode en) eqn:Emode; cbn [negb].
  - apply Z.eqb_eq in Emode.
    rewrite (bind_ok _ _ s (None, c) s) by reflexivity. cbv beta iota.
    destruct (Hown s node c Hnode eq_refl eq_refl) as (s' & -> & Hfs).
    exists s'. split; [by rewrite Z.add_0_r|].
    rewrite Hfs. unfold fixed_node. rewrite <- Emode, set_perm_same. done.
  - rewrite bind_assoc.
    run (display_shown e ("Changing mode of " +:+ p +:+ " to "
                          +:+ PyNum.oct (e_mode en)) (opt_quiet opts) s).
    rewrite bind_assoc.
    erewrite bind_ok;
      [|apply (lchmod_ok e p _ _ node); [exact Hnode | by rewrite Hroot]].
    cbv beta iota.
    match goal with
    | |- context [bind (ret (None, ?c')) ?k ?s1] =>
        rewrite (bind_ok (ret (None, c')) k s1 (None, c') s1) by reflexivity
    end.
    cbv beta iota.
    match goal with
    | |- context [_ ?s1 = _] =>
        destruct (Hown s1 (mk_inode (set_perm (st_mode node) (e_mode en))
                             (st_uid node) (st_gid node) (st_data node)) (c + 1))
          as (s' & -> & Hfs); [apply lookup_insert_eq | reflexivity | reflexivity |]
    end.
    exists s'. split; [reflexivity|].
    rewrite Hfs. cbn [fs st_mode st_data]. by rewrite insert_insert_eq.
Qed.

(** ** Owner and group *)

(** C7 (as amended). Running as the superuser, an entry whose path is in
    the tree has its permission bits compared and set, then its owner and
    group compared with the declared ones and set by one [lchown] when
    either differs; each of the two fixes counts as one change. *)
Theorem privileged_sync_fixes_owner e opts payload_dir item en c s node :
  euid e = 0 ->
  decode_line item = Entry en ->
  is_sidecar en = false ->
  fs s !! target payload_dir en = Some node ->
  valid_id (e_user en) = true -> valid_id (e_group en) = true ->
  exists s',
    sync_item e opts payload_dir (euid e =? 0) item c s
    = (Ok (Next, c + (if Os.S_IMODE (st_mode node) =? e_mode en then 0 else 1)
                   + (if (st_uid node =? e_user en) && (st_gid node =? e_group en)
                      then 0 else 1)), s')
    /\ fs s' = <[target payload_dir en := fixed_node node en]> (fs s).
Proof.
  intros Hroot Hdec Hside Hnode Hu Hg.
  rewrite sync_item_decode, Hdec, Hroot. cbn [Z.eqb].
  by apply apply_present_root.
Qed.

Lemma privileged_sync_fixes_owner_witness :
  let s := Sample.project [("payload/a", "hello")] in
  exists s',
    sync_item Sample.root_env Sample.plain "/p/payload" true
      (Sample.bom_line "./a" "100755" "0/0") 0 s
    = (Ok (Next, 2), s')
    /\ fs s' = <["/p/payload/a" := Sample.file_node 493 0 0 "hello"]> (fs s).
Proof.
  intros s.
  exact (privileged_sync_fixes_owner Sample.root_env Sample.plain "/p/payload"
           (Sample.bom_line "./a" "100755" "0/0")
           (mk_entry "a" "100755" 0 0 493) 0 s (Sample.file_node 420 501 20 "hello")
           eq_refl eq_refl eq_refl eq_refl eq_refl eq_refl).
Defined.

(** C7 (as stated) fails for the branch that creates a directory: the new
    directory belongs to the superuser, the declared owner 501 is neither
    compared nor set, and the only change counted is the creation. *)
Lemma created_directory_owner_counterexample :
  let s := Sample.project [] in
  let item := Sample.bom_line "./d" "40755" "501/20" in
  exists en s',
    decode_line item = Entry en
    /\ marks_directory en = true
    /\ e_user en = 501
    /\ fs s !! target "/p/payload" en = None
    /\ sync_item Sample.root_env Sample.plain "/p/payload" true item 0 s
       = (Ok (Next, 1), s')
    /\ fs s' !! target "/p/payload" en = Some (Sample.dir_node 493 0 20).
Proof.
  intros s item. eexists. eexists.
  split; [reflexivity|]. split; [reflexivity|]. split; [reflexivity|].
  split; [reflexivity|]. split; [vm_compute; reflexivity|]. reflexivity.
Qed.

(** ** Sidecar entries *)

(** C8. A line that decodes to an entry whose basename begins with [._]
    changes nothing in the file system: the loop body prints one warning,
    which names the entry's path and the sibling path made of the same
    directory and the basename without its first two characters, and goes
    on to the next line with the count of changes as it was. *)
Theorem sidecar_entry_only_warns e opts payload_dir root item en c s :
  decode_line item = Entry en ->
  is_sidecar en = true ->
  sync_item e opts payload_dir root item c s
  = (Ok (Next, c), mk_state (fs s) (out s ++ [(Stderr, sidecar_warning en)]))
  /\ PyStr.basename (e_path en) = "._" +:+ PyStr.drop 2 (PyStr.basename (e_path en))
  /\ otherfile en = PyStr.path_join (PyStr.dirname (e_path en))
                                    (PyStr.drop 2 (PyStr.basename (e_path en))).
Proof.
  intros Hdec Hside. rewrite sync_item_decode, Hdec. split; [|split].
  - by apply apply_sidecar.
  - by apply (startswith_drop _ "._").
  - reflexivity.
Qed.

Lemma sidecar_entry_only_warns_witness :
  let s := Sample.project [] in
  sync_item Sample.user_env Sample.plain "/p/payload" false
    (Sample.bom_line "./a/._b" "100644" "0/0") 0 s
  = (Ok (Next, 0),
     mk_state (fs s)
       [(Stderr, "WARNING: file a/._b contains extended attributes or a resource fork for a/b. git and pkgbuild may not properly preserve extended attributes.")]).
Proof.
  intros s.
  exact (proj1 (sidecar_entry_only_warns Sample.user_env Sample.plain "/p/payload" false
                  (Sample.bom_line "./a/._b" "100644" "0/0")
                  (mk_entry "a/._b" "100644" 0 0 420) 0 s eq_refl eq_refl)).
Defined.

(** ** The value [sync_from_bom_info] returns *)

Lemma sync_loop_returncode e opts payload_dir root items c s rc c' s' :
  sync_loop e opts payload_dir root items c s = (Ok (rc, c'), s') ->
  rc = 0 \/ rc = -1.
Proof.
  revert c s. induction items as [|item rest IH]; intros c s H.
  - injection H as <- _ _. by left.
  - cbn [sync_loop] in H. unfold bind in H.
    destruct (sync_item e opts payload_dir root item c s) as [[[[|] c1]|ex] s1];
      [by eapply IH | injection H as <- _ _; by right | discriminate].
Qed.

Lemma reconcile_outcome e project_dir opts s :
  match reconcile e project_dir opts s with
  | (Ok (rc, trace), s') =>
      (rc = 0 \/ rc = -1)
      /\ (rc = 0 ->
          exists changes,
            trace = Some changes
            /\ (opt_quiet opts = false ->
                last (out s')
                = Some (Stdout, toolname e +:+ ": "
                          +:+ (if changes =? 0
                               then "Sync successful: no changes needed."
                               else "Sync successful."))))
  | (Raise ex, s') => is_OSError_or_ValueError ex = false
  end.
Proof.
  unfold reconcile. unfold bind at 1. unfold try_except.
  unfold bind at 1.
  destruct (Os.open_lines (PyStr.path_join project_dir BOM_TEXT_FILE) s)
    as [[items|ex] s1].
  - unfold bind at 1.
    destruct (sync_loop e opts (PyStr.path_join project_dir "payload") (euid e =? 0)
                items 0 s1) as [[[rc c]|ex] s2] eqn:Hloop.
    + unfold bind at 1. unfold ret at 1. cbv beta iota.
      destruct (sync_loop_returncode _ _ _ _ _ _ _ _ _ _ Hloop) as [-> | ->].
      * cbn [Z.eqb andb]. destruct (opt_quiet opts) eqn:Hq; cbn [negb].
        -- unfold bind, ret. split; [by left|]. intros _. exists c. split; [done|done].
        -- destruct (c =? 0) eqn:Hc; cbn [negb];
             rewrite bind_ok with (a := tt)
                                  (s1 := mk_state (fs s2) (out s2 ++ shown e false _))
               by apply display_shown;
             unfold ret; (split; [by left|]); intros _; exists c; rewrite Hc;
             (split; [done|]); intros _; cbn [out shown]; apply last_snoc.
      * cbn [Z.eqb andb]. unfold bind, ret. split; [by right|]. intros H. lia.
    + unfold bind at 1. unfold ret.
      destruct (is_OSError_or_ValueError ex) eqn:Hex; [|exact Hex].
      unfold bind, print, ret. split; [by right|]. intros H. lia.
  - unfold bind at 1.
    destruct (is_OSError_or_ValueError ex) eqn:Hex; [|exact Hex].
    unfold bind, print, ret. split; [by right|]. intros H. lia.
Qed.

(** C3 (as amended). [sync_from_bom_info] returns a status, not a count:
    0 when the loop ran to the end of Bom.txt, whatever the number of
    changes, and -1 when it did not (no Bom.txt, a missing file, an
    [OSError] or a [ValueError]). Of a run that returns 0 the count of
    changes only selects the message it ends with, unless [--quiet]. *)
Theorem sync_returns_status e project_dir opts s :
  match sync_from_bom_info_traced e project_dir opts s with
  | (Ok (rc, trace), s') =>
      sync_from_bom_info e project_dir opts s = (Ok rc, s')
      /\ (rc = 0 \/ rc = -1)
      /\ (rc = 0 ->
          exists changes,
            trace = Some changes
            /\ (opt_quiet opts = false ->
                last (out s')
                = Some (Stdout, toolname e +:+ ": "
                          +:+ (if changes =? 0
                               then "Sync successful: no changes needed."
                               else "Sync successful."))))
  | (Raise ex, s') => sync_from_bom_info e project_dir opts s = (Raise ex, s')
  end.
Proof.
  unfold sync_from_bom_info, bind.
  destruct (sync_from_bom_info_traced e project_dir opts s) as [[[rc trace]|ex] s'] eqn:H;
    [|reflexivity].
  split; [reflexivity|].
  unfold sync_from_bom_info_traced, bind at 1 in H.
  destruct (try_except (get_build_info e project_dir opts) _ s) as [[info|ex] s1];
    [|discriminate].
  unfold sync_with, bind at 1 in H.
  destruct (lexists_cases s1 (PyStr.path_join project_dir BOM_TEXT_FILE))
    as [[_ Hl]|[_ Hl]]; rewrite Hl in H; cbn [negb] in H.
  - unfold bind at 1 in H.
    destruct (ownership_warning info (euid e =? 0) s1) as [[[]|ex] s2]; [|discriminate].
    pose proof (reconcile_outcome e project_dir opts s2) as Hrec.
    rewrite H in Hrec. exact Hrec.
  - unfold bind, print, ret in H. injection H as <- <- _.
    split; [by right|]. intros H. lia.
Qed.

(** C3 (as stated) fails: a run that makes one change returns 0, not 1. *)
Lemma return_value_counterexample :
  let s := Sample.project [("payload/a", "hello");
                           ("Bom.txt", Sample.bom_line "./a" "100755" "501/20")] in
  exists s',
    sync_from_bom_info_traced Sample.user_env "/p" Sample.plain s = (Ok (0, Some 1), s')
    /\ sync_from_bom_info Sample.user_env "/p" Sample.plain s = (Ok 0, s').
Proof.
  intros s. eexists. split; vm_compute; reflexivity.
Qed.

(** ** Resolution reads the file system and does not change it *)

Lemma reads_only_ret {A} (a : A) : reads_only (ret a).
Proof. by intros s. Qed.

Lemma reads_only_raise {A} ex : reads_only (@raise A ex).
Proof. by intros s. Qed.

Lemma reads_only_print to text : reads_only (print to text).
Proof. by intros s. Qed.

Lemma reads_only_bind {A B} (c : M A) (k : A -> M B) :
  reads_only c -> (forall a, reads_only (k a)) -> reads_only (bind c k).
Proof.
  intros Hc Hk s. unfold bind. specialize (Hc s).
  destruct (c s) as [[a|ex] s1]; cbn in *; [|done].
  by rewrite (Hk a s1).
Qed.

Lemma reads_only_try {A} (c : M A) h :
  reads_only c -> (forall ex k, h ex = Some k -> reads_only k) ->
  reads_only (try_except c h).
Proof.
  intros Hc Hh s. unfold try_except. specialize (Hc s).
  destruct (c s) as [[a|ex] s1]; cbn in *; [done|].
  destruct (h ex) as [k|] eqn:E; [|done]. by rewrite (Hh ex k E s1).
Qed.

Lemma reads_only_lexists p : reads_only (Os.lexists p).
Proof. by intros s. Qed.

Lemma reads_only_open_text p : reads_only (Os.open_text p).
Proof. intros s. unfold Os.open_text. by repeat case_match. Qed.

Lemma reads_only_open_lines p : reads_only (Os.open_lines p).
Proof. intros s. unfold Os.open_lines. by repeat case_match. Qed.

Lemma reads_only_contains v key : reads_only (py_contains v key).
Proof. destruct v; first [apply reads_only_ret | apply reads_only_raise]. Qed.

Lemma reads_only_getitem v key : reads_only (py_getitem v key).
Proof.
  destruct v; try apply reads_only_raise. unfold py_getitem.
  destruct (PyVal.lookup key d); [apply reads_only_ret | apply reads_only_raise].
Qed.

Ltac reads_only :=
  repeat first
    [ apply reads_only_ret | apply reads_only_raise | apply reads_only_print
    | apply reads_only_lexists | apply reads_only_open_text
    | apply reads_only_open_lines | apply reads_only_contains
    | apply reads_only_getitem
    | apply reads_only_bind; [|intros ?]
    | match goal with
      | |- reads_only (if ?b then _ else _) => destruct b
      | |- reads_only (match ?x with _ => _ end) => destruct x
      end ].

Lemma reads_only_validate todo v path : reads_only (validate_keys todo v path).
Proof.
  induction todo as [|[key legal] rest IH]; cbn [validate_keys]; reads_only; apply IH.
Qed.

Lemma reads_only_load e path : reads_only (load_build_info e path).
Proof. unfold load_build_info. reads_only. Qed.

Lemma reads_only_read e path : reads_only (read_build_info e path).
Proof.
  unfold read_build_info.
  apply reads_only_bind; [apply reads_only_load|intros v].
  apply reads_only_bind; [apply reads_only_validate|intros b].
  reads_only.
Qed.

Lemma reads_only_probe build_file exts file_type :
  reads_only (probe build_file exts file_type).
Proof.
  revert file_type. induction exts as [|ext rest IH]; intros file_type;
    cbn [probe]; reads_only; apply IH.
Qed.

Lemma reads_only_override keys v info : reads_only (override keys v info).
Proof.
  revert info. induction keys as [|key rest IH]; intros info;
    cbn [override]; reads_only; apply IH.
Qed.

Lemma reads_only_get_build_info e project_dir opts :
  reads_only (get_build_info e project_dir opts).
Proof.
  unfold get_build_info.
  apply reads_only_bind.
  { destruct (negb (opt_yaml opts) && negb (opt_json opts));
      [apply reads_only_probe | apply reads_only_ret]. }
  intros file_type. apply reads_only_bind.
  { destruct file_type as [ext|]; [|apply reads_only_ret].
    destruct (negb (String.length ext =? 0)%nat); [|apply reads_only_ret].
    apply reads_only_bind; [apply reads_only_lexists|intros found].
    destruct found; [apply reads_only_read | apply reads_only_ret]. }
  intros file_info. destruct (PyVal.truthy file_info);
    [apply reads_only_override | apply reads_only_raise].
Qed.

(** Whatever the file gives, the resolved build-info keeps the keys of the
    defaults *)
Lemma override_keeps keys v info s info' s' key :
  override keys v info s = (Ok info', s') ->
  is_Some (info !! key) -> is_Some (info' !! key).
Proof.
  revert info s. induction keys as [|k rest IH]; intros info s H Hkey.
  - by injection H as <- _.
  - cbn [override] in H. unfold bind in H.
    destruct (py_contains v k s) as [[[|]|ex] s1]; [| by eapply IH | discriminate].
    destruct (py_getitem v k s1) as [[value|ex] s2]; [|discriminate].
    eapply IH; [exact H|].
    destruct (decide (k = key)) as [->|Hne];
      [rewrite lookup_insert_eq; by eexists | by rewrite lookup_insert_ne].
Qed.

Lemma get_build_info_has_ownership e project_dir opts s info s' :
  get_build_info e project_dir opts s = (Ok info, s') ->
  is_Some (info !! "ownership").
Proof.
  unfold get_build_info. unfold bind at 1.
  destruct (_ s) as [[file_type|ex] s1]; [|discriminate].
  unfold bind at 1.
  destruct (_ s1) as [[file_info|ex] s2]; [|discriminate].
  destruct (PyVal.truthy file_info); [|discriminate].
  intros H. eapply override_keeps; [exact H|].
  rewrite lookup_insert_ne by discriminate. rewrite default_ownership. by eexists.
Qed.

(** ** From [sync_from_bom_info] to its loop *)

Lemma ownership_warning_ok info root s :
  is_Some (info !! "ownership") ->
  exists s', ownership_warning info root s = (Ok tt, s') /\ fs s' = fs s.
Proof.
  intros [v Hv]. unfold ownership_warning, bind, info_get. rewrite Hv.
  unfold ret. destruct (negb (PyVal.eq_scalar v (PStr "recommended")) && negb root).
  - eexists. split; reflexivity.
  - eexists. split; reflexivity.
Qed.

(** Up to the loop the function only reads the tree *)
Lemma sync_prelude e project_dir opts s :
  resolves e project_dir opts s ->
  present s (PyStr.path_join project_dir BOM_TEXT_FILE) ->
  exists s_pre,
    fs s_pre = fs s
    /\ sync_from_bom_info_traced e project_dir opts s = reconcile e project_dir opts s_pre.
Proof.
  intros Hres Hbom.
  assert (exists info s1,
            try_except (get_build_info e project_dir opts)
              (fun err => if is_MunkiPkgError err
                          then Some (ret (default_build_info project_dir)) else None) s
            = (Ok info, s1)
            /\ fs s1 = fs s /\ is_Some (info !! "ownership"))
    as (info & s1 & Htry & Hfs & Hown).
  { unfold try_except.
    pose proof (reads_only_get_build_info e project_dir opts s) as Hro.
    destruct (get_build_info e project_dir opts s) as [[info|ex] s1] eqn:Hget.
    - exists info, s1. split; [done|]. split; [done|].
      by eapply get_build_info_has_ownership.
    - rewrite (Hres _ _ Hget). exists (default_build_info project_dir), s1.
      split; [done|]. split; [done|]. rewrite default_ownership. by eexists. }
  unfold sync_from_bom_info_traced. rewrite (bind_ok _ _ _ _ _ Htry).
  unfold sync_with.
  assert (present s1 (PyStr.path_join project_dir BOM_TEXT_FILE)) as Hbom1
    by (unfold present; by rewrite Hfs).
  rewrite (bind_ok _ _ _ _ _ (lexists_present _ _ Hbom1)). cbn [negb].
  destruct (ownership_warning_ok info (euid e =? 0) s1 Hown) as (s2 & Hwarn & Hfs2).
  rewrite (bind_ok _ _ _ _ _ Hwarn).
  exists s2. split; [congruence | reflexivity].
Qed.

Lemma bom_items_file project_dir tree item items :
  bom_items project_dir tree = item :: items ->
  exists node,
    tree !! Os.resolve (PyStr.path_join project_dir BOM_TEXT_FILE) = Some node
    /\ Os.S_ISDIR (st_mode node) = false
    /\ Os.lines (st_data node) = item :: items.
Proof.
  unfold bom_items.
  destruct (tree !! _) as [node|]; [|discriminate].
  destruct (Os.S_ISDIR (st_mode node)) eqn:E; [discriminate|].
  intros H. by exists node.
Qed.

(** With Bom.txt in place, what the rest of the function makes of the
    outcome of the loop *)
Lemma reconcile_loop e project_dir opts s node :
  fs s !! Os.resolve (PyStr.path_join project_dir BOM_TEXT_FILE) = Some node ->
  Os.S_ISDIR (st_mode node) = false ->
  reconcile e project_dir opts s =
  match sync_loop e opts (PyStr.path_join project_dir "payload") (euid e =? 0)
          (Os.lines (st_data node)) 0 s with
  | (Ok (rc, c), s1) =>
      (Ok (rc, Some c), mk_state (fs s1) (out s1 ++ report e opts rc c))
  | (Raise ex, s1) =>
      if is_OSError_or_ValueError ex
      then (Ok (-1, None),
            mk_state (fs s1) (out s1 ++ [(Stderr, "ERROR: " +:+ exn_str ex)]))
      else (Raise ex, s1)
  end.
Proof.
  intros Hnode Hfile. unfold reconcile. unfold bind at 1. unfold try_except.
  unfold bind at 1. unfold Os.open_lines. rewrite Hnode, Hfile.
  unfold bind at 1.
  destruct (sync_loop _ _ _ _ _ 0 s) as [[[rc c]|ex] s1].
  - unfold ret at 1. cbv beta iota. unfold report.
    destruct ((rc =? 0) && negb (opt_quiet opts)).
    + destruct (c =? 0); cbn [negb];
        rewrite (bind_ok _ _ _ _ _ (display_shown _ _ _ _)); reflexivity.
    + unfold bind, ret. rewrite app_nil_r. by destruct s1.
  - destruct (is_OSError_or_ValueError ex); reflexivity.
Qed.

(** ** What was printed before does not matter *)

Lemma framed_ret {A} (a : A) : framed (ret a).
Proof. intros t o. unfold ret. cbn. by rewrite app_nil_r. Qed.

Lemma framed_raise {A} ex : framed (@raise A ex).
Proof. intros t o. unfold raise. cbn. by rewrite app_nil_r. Qed.

Lemma framed_print to text : framed (print to text).
Proof. intros t o. reflexivity. Qed.

Lemma framed_bind {A B} (c : M A) (k : A -> M B) :
  framed c -> (forall a, framed (k a)) -> framed (bind c k).
Proof.
  intros Hc Hk t o. unfold bind. rewrite (Hc t o).
  destruct (c (mk_state t [])) as [[a|ex] [t1 o1]]; cbn [fst snd fs out]; [|done].
  rewrite (Hk a t1 (o ++ o1)%list), (Hk a t1 o1).
  destruct (k a (mk_state t1 [])) as [r [t2 o2]]; cbn [fst snd fs out].
  by rewrite app_assoc.
Qed.

Lemma framed_display e message quiet : framed (display e message quiet).
Proof.
  unfold display. destruct quiet; cbn [negb]; [apply framed_ret | apply framed_print].
Qed.

Ltac framed_syscall :=
  intros t o; cbn [fs out];
  repeat case_match; cbn [fst snd fs out]; rewrite ?app_nil_r; reflexivity.

Lemma framed_lexists p : framed (Os.lexists p).
Proof. intros t o. unfold Os.lexists. cbn. by rewrite app_nil_r. Qed.

Lemma framed_lstat p : framed (Os.lstat p).
Proof. unfold Os.lstat. framed_syscall. Qed.

Lemma framed_lchmod e p mode : framed (Os.lchmod e p mode).
Proof. unfold Os.lchmod. framed_syscall. Qed.

Lemma framed_lchown e p uid gid : framed (Os.lchown e p uid gid).
Proof. unfold Os.lchown. framed_syscall. Qed.

Lemma framed_mkdir e p mode : framed (Os.mkdir e p mode).
Proof. unfold Os.mkdir. framed_syscall. Qed.

Ltac framed :=
  repeat first
    [ apply framed_ret | apply framed_raise | apply framed_print
    | apply framed_display | apply framed_lexists | apply framed_lstat
    | apply framed_lchmod | apply framed_lchown | apply framed_mkdir
    | apply framed_bind; [|intros ?]
    | match goal with
      | |- framed (if ?b then _ else _) => destruct b
      | |- framed (match ?x with _ => _ end) => destruct x
      end ].

Lemma framed_apply_entry e opts payload_dir root en c :
  framed (apply_entry e opts payload_dir root en c).
Proof. unfold apply_entry. cbv zeta. framed. Qed.

Lemma framed_sync_item e opts payload_dir root item c :
  framed (sync_item e opts payload_dir root item c).
Proof.
  intros t o. rewrite !sync_item_decode.
  destruct (decode_line item) as [|en|ex].
  - cbn. by rewrite app_nil_r.
  - apply framed_apply_entry.
  - cbn. by rewrite app_nil_r.
Qed.

Lemma framed_sync_loop e opts payload_dir root items c :
  framed (sync_loop e opts payload_dir root items c).
Proof.
  revert c. induction items as [|item rest IH]; intros c; cbn [sync_loop].
  - apply framed_ret.
  - apply framed_bind; [apply framed_sync_item|].
    intros [[|] c1]; [apply IH | apply framed_ret].
Qed.

(** The loop started with an empty output tells what it does from any
    state with the same tree *)
Lemma sync_loop_frame e opts payload_dir root items c s r tree1 o1 :
  sync_loop e opts payload_dir root items c (mk_state (fs s) []) = (r, mk_state tree1 o1) ->
  sync_loop e opts payload_dir root items c s = (r, mk_state tree1 (out s ++ o1)).
Proof.
  intros H. destruct s as [t o].
  rewrite (framed_sync_loop e opts payload_dir root items c t o).
  cbn [fs out] in *. by rewrite H.
Qed.

(** ** The loop, line by line *)

Lemma sync_loop_app e opts payload_dir root pre rest c s c1 s1 :
  sync_loop e opts payload_dir root pre c s = (Ok (0, c1), s1) ->
  sync_loop e opts payload_dir root (pre ++ rest) c s
  = sync_loop e opts payload_dir root rest c1 s1.
Proof.
  revert c s. induction pre as [|item pre IH]; intros c s H.
  - by injection H as <- <-.
  - cbn [sync_loop app] in *. unfold bind in *.
    destruct (sync_item e opts payload_dir root item c s) as [[[[|] c2]|ex] s2];
      [by apply IH | discriminate | discriminate].
Qed.

(** * More of munkipkg *)

(** ** The resolver *)

(** X1. Whatever it finds and however it ends, [get_build_info] leaves the
    file system as it was: probing, reading, validating and overriding
    only read. *)
Theorem resolution_leaves_tree_unchanged e project_dir opts s :
  fs (snd (get_build_info e project_dir opts s)) = fs s.
Proof. apply reads_only_get_build_info. Qed.

Lemma probe_none_found build_file exts s :
  (forall ext, In ext exts -> fs s !! Os.resolve (build_file +:+ "." +:+ ext) = None) ->
  forall file_type, probe build_file exts file_type s = (Ok file_type, s).
Proof.
  induction exts as [|ext rest IH]; intros Habsent file_type; [reflexivity|].
  cbn [probe]. rewrite (bind_ok _ _ _ _ _ (lexists_absent _ _ (Habsent ext (or_introl eq_refl)))).
  apply IH. intros ext' Hin. apply Habsent. by right.
Qed.

(** X2. When none of the files that are looked at is there (all four
    extensions without a format option; only build-info.yaml with --yaml,
    only build-info.json with --json, whatever else the directory holds),
    [get_build_info] raises "No build-info file found!" and changes
    nothing. *)
Theorem no_build_info_file_found e project_dir opts s :
  (forall ext, In ext (looked_at opts) ->
               fs s !! Os.resolve (build_info_path project_dir ext) = None) ->
  get_build_info e project_dir opts s = (Raise NOT_FOUND, s).
Proof.
  intros Habsent. unfold get_build_info, looked_at in *.
  destruct (opt_yaml opts) eqn:Hy; cbn [negb andb].
  - unfold bind at 1. unfold ret at 1. cbv beta iota.
    unfold bind at 1. cbn [String.length Nat.eqb negb].
    rewrite (bind_ok _ _ _ _ _ (lexists_absent _ _ (Habsent "yaml" (or_introl eq_refl)))).
    reflexivity.
  - destruct (opt_json opts) eqn:Hj; cbn [negb andb].
    + unfold bind at 1. unfold ret at 1. cbv beta iota.
      unfold bind at 1. cbn [String.length Nat.eqb negb].
      rewrite (bind_ok _ _ _ _ _ (lexists_absent _ _ (Habsent "json" (or_introl eq_refl)))).
      reflexivity.
    + rewrite (bind_ok _ _ _ _ _ (probe_none_found _ candidates s Habsent None)).
      reflexivity.
Qed.

Lemma no_build_info_file_found_witness :
  let s := Sample.project [("build-info.plist", "<plist/>")] in
  get_build_info Sample.user_env "/p" Cases.json_only s = (Raise NOT_FOUND, s).
Proof.
  intros s.
  apply (no_build_info_file_found Sample.user_env "/p" Cases.json_only s).
  intros ext [<-|[]]. reflexivity.
Defined.

Lemma read_build_info_truthy e path s v s' :
  read_build_info e path s = (Ok v, s') -> PyVal.truthy v = true.
Proof.
  unfold read_build_info, bind.
  destruct (load_build_info e path s) as [[info|ex] s1]; [|discriminate].
  destruct (validate_build_info_keys info path s1) as [[b|ex] s2]; [|discriminate].
  destruct info as [| | | |l|d]; try discriminate.
  unfold py_getitem.
  destruct (PyVal.lookup "name" d) as [name|] eqn:Hname; [|discriminate].
  assert (PyVal.truthy (PDict d) = true) as Hd
    by (destruct d; [discriminate Hname | reflexivity]).
  unfold ret at 1.
  destruct (py_contains name PLACEHOLDER s2) as [[[|]|ex] s3]; [| |discriminate].
  - destruct name; try discriminate.
    destruct (PyVal.lookup "version" d); [|discriminate].
    intros H. injection H as <- _.
    destruct d as [|[k x] r]; [discriminate|]. cbn.
    by destruct (String.eqb k "name").
  - intros H. by injection H as <- _.
Qed.

(** X3. What the file gives overrides the defaults field by field: a
    supported key that the file has takes the file's value, every other
    supported key keeps its default, [project_dir] is the directory asked
    for, and a key of the file that is not supported is not taken over. *)
Theorem file_overrides_defaults_by_field e project_dir opts s ext d s' :
  selects project_dir opts s ext ->
  read_build_info e (build_info_path project_dir ext) s = (Ok (PDict d), s') ->
  exists info,
    get_build_info e project_dir opts s = (Ok info, s')
    /\ (forall key, In key supported_keys ->
          info !! key = match PyVal.lookup key d with
                        | Some value => Some value
                        | None => default_build_info project_dir !! key
                        end)
    /\ info !! "project_dir" = Some (PStr project_dir)
    /\ (forall key, ~ In key supported_keys -> key <> "project_dir" ->
          info !! key = default_build_info project_dir !! key).
Proof.
  intros Hsel Hread. exists (resolved project_dir d).
  split; [|split; [|split]].
  - apply (get_build_info_dict _ _ _ _ ext _ _ Hsel Hread).
    pose proof (read_build_info_truthy _ _ _ _ _ Hread) as Ht.
    intros ->. discriminate Ht.
  - intros key Hin. unfold resolved.
    destruct (PyVal.lookup key d) as [value|] eqn:Hkey.
    + by apply overridden_found.
    + rewrite overridden_absent by done.
      apply lookup_insert_ne. intros <-. simpl in Hin.
      repeat (destruct Hin as [Hin|Hin]; [discriminate Hin|]). destruct Hin.
  - unfold resolved. rewrite overridden_other; [apply lookup_insert_eq|].
    simpl. intros Hin.
    repeat (destruct Hin as [Hin|Hin]; [discriminate Hin|]). destruct Hin.
  - intros key Hnot Hne. unfold resolved. rewrite overridden_other by done.
    by apply lookup_insert_ne.
Qed.

Lemma file_overrides_defaults_by_field_witness :
  let s := Sample.project [("build-info.yaml", "{name: Foo.pkg, ownership: bogus}")] in
  exists info s',
    get_build_info Sample.user_env "/p" Sample.plain s = (Ok info, s')
    /\ info !! "name" = Some (PStr "Foo.pkg")
    /\ info !! "version" = Some (PStr "1.0")
    /\ info !! "project_dir" = Some (PStr "/p").
Proof.
  intros s.
  destruct (file_overrides_defaults_by_field Sample.user_env "/p" Sample.plain s "yaml"
              [("name", PStr "Foo.pkg"); ("ownership", PStr "bogus")]
              (validated "/p/build-info.yaml"
                 [("name", PStr "Foo.pkg"); ("ownership", PStr "bogus")] s))
    as (info & Hget & Hsup & Hdir & _).
  - split; [reflexivity | split; [discriminate | vm_compute; eexists; reflexivity]].
  - reflexivity.
  - exists info, (validated "/p/build-info.yaml"
                   [("name", PStr "Foo.pkg"); ("ownership", PStr "bogus")] s).
    split; [exact Hget|]. split; [|split; [|exact Hdir]].
    + rewrite (Hsup "name") by (simpl; auto). reflexivity.
    + rewrite (Hsup "version") by (simpl; auto). reflexivity.
Defined.

Lemma open_text_state p s r s' : Os.open_text p s = (r, s') -> s' = s.
Proof. unfold Os.open_text. repeat case_match; congruence. Qed.



(** X5. Without PyYAML a build-info.yaml (or .yml) that can be opened ends
    [read_build_info] with a [NameError]: the name [yaml] is not bound.
    The error is no [MunkiPkgError], so [get_build_info] and
    [sync_from_bom_info] end with it too. *)
Theorem yaml_file_without_pyyaml e project_dir opts s ext text :
  yaml_installed e = false ->
  selects project_dir opts s ext ->
  kind_of_path (build_info_path project_dir ext) = Yaml ->
  Os.open_text (build_info_path project_dir ext) s = (Ok text, s) ->
  read_build_info e (build_info_path project_dir ext) s = (Raise NameError, s)
  /\ get_build_info e project_dir opts s = (Raise NameError, s)
  /\ sync_from_bom_info e project_dir opts s = (Raise NameError, s).
Proof.
  intros Hno Hsel Hkind Hopen.
  assert (read_build_info e (build_info_path project_dir ext) s = (Raise NameError, s))
    as Hread.
  { unfold read_build_info, load_build_info. rewrite Hkind.
    rewrite bind_assoc, (bind_ok _ _ _ _ _ Hopen), Hno. reflexivity. }
  assert (get_build_info e project_dir opts s = (Raise NameError, s)) as Hget.
  { rewrite (get_build_info_selected _ _ _ _ _ Hsel). by rewrite Hread. }
  split; [exact Hread|]. split; [exact Hget|]. by apply sync_propagates.
Qed.

Lemma yaml_file_without_pyyaml_witness :
  let s := Sample.project [("build-info.yml", "{name: Foo.pkg, ownership: bogus}")] in
  sync_from_bom_info Cases.bare_env "/p" Sample.plain s = (Raise NameError, s).
Proof.
  intros s.
  refine (proj2 (proj2
    (yaml_file_without_pyyaml Cases.bare_env "/p" Sample.plain s "yml"
       "{name: Foo.pkg, ownership: bogus}" _ _ _ _))).
  - reflexivity.
  - split; [reflexivity | split; [discriminate | vm_compute; eexists; reflexivity]].
  - reflexivity.
  - reflexivity.
Defined.

(** ** The validator *)

Lemma first_illegal_none todo d :
  first_illegal todo d = None <->
  (forall key legal value,
     In (key, legal) todo -> PyVal.lookup key d = Some value ->
     PyVal.in_list value legal = true).
Proof.
  induction todo as [|[k l] rest IH]; cbn [first_illegal].
  - split; [intros _ key legal value [] | done].
  - destruct (PyVal.lookup k d) as [v|] eqn:Hk.
    + destruct (PyVal.in_list v l) eqn:Hv.
      * rewrite IH. split.
        -- intros H key legal value [Heq|Hin] Hlook; [|by eapply H].
           injection Heq as <- <-. congruence.
        -- intros H key legal value Hin. apply H. by right.
      * split; [discriminate|]. intros H.
        specialize (H k l v (or_introl eq_refl) Hk). congruence.
    + rewrite IH. split.
      * intros H key legal value [Heq|Hin] Hlook; [|by eapply H].
        injection Heq as <- <-. congruence.
      * intros H key legal value Hin. apply H. by right.
Qed.

Lemma first_illegal_some todo d key value legal :
  first_illegal todo d = Some (key, value, legal) ->
  In (key, legal) todo /\ PyVal.lookup key d = Some value
  /\ PyVal.in_list value legal = false.
Proof.
  induction todo as [|[k l] rest IH]; cbn [first_illegal]; [discriminate|].
  destruct (PyVal.lookup k d) as [v|] eqn:Hk.
  - destruct (PyVal.in_list v l) eqn:Hv.
    + intros H. destruct (IH H) as (Hin & Hl & Hf). split; [by right | done].
    + intros H. injection H as <- <- <-. split; [by left | done].
  - intros H. destruct (IH H) as (Hin & Hl & Hf). split; [by right | done].
Qed.

(** X6. On a mapping [validate_build_info_keys] never raises and never
    touches the file system. It answers [True], printing nothing, exactly
    when every key of its table that the mapping has carries a legal
    value; otherwise it answers [False] after two lines on stderr about
    one such key and its illegal value. *)
Theorem validation_verdict d file_path s :
  exists b s',
    validate_build_info_keys (PDict d) file_path s = (Ok b, s')
    /\ fs s' = fs s
    /\ (b = true <->
        forall key legal value,
          In (key, legal) valid_values -> PyVal.lookup key d = Some value ->
          PyVal.in_list value legal = true)
    /\ (b = true -> s' = s)
    /\ (b = false ->
        exists key value legal,
          In (key, legal) valid_values
          /\ PyVal.lookup key d = Some value
          /\ PyVal.in_list value legal = false
          /\ out s' = (out s ++ illegal_report file_path key value legal)%list).
Proof.
  exists (bool_decide (first_illegal valid_values d = None)), (validated file_path d s).
  split; [apply validate_dict|]. unfold validated.
  destruct (first_illegal valid_values d) as [[[key value] legal]|] eqn:E.
  - rewrite bool_decide_eq_false_2 by discriminate.
    destruct (first_illegal_some _ _ _ _ _ E) as (Hin & Hl & Hf).
    split; [reflexivity|]. split; [|split; [discriminate|]].
    + split; [discriminate|]. intros H. specialize (H key legal value Hin Hl). congruence.
    + intros _. by exists key, value, legal.
  - rewrite bool_decide_eq_true_2 by reflexivity.
    split; [reflexivity|]. split; [|split; [done|discriminate]].
    split; [intros _; by apply first_illegal_none | done].
Qed.

(** X7. For the three boolean keys, Python's [in] on [[True, False]] lets
    a boolean pass and, because [True == 1] and [False == 0], the integers
    1 and 0 as well; [None], other integers, strings, lists and mappings
    are illegal. *)
Theorem boolean_keys_accept_zero_and_one key value :
  In key boolean_keys ->
  (first_illegal valid_values [(key, value)] = None <->
   (exists b, value = PBool b) \/ value = PInt 0 \/ value = PInt 1).
Proof.
  intros Hin. simpl in Hin.
  assert (PyVal.in_list value [PBool true; PBool false] = true <->
          (exists b, value = PBool b) \/ value = PInt 0 \/ value = PInt 1) as Hlegal.
  { destruct value as [|b|z| | |]; cbn.
    - split; [discriminate | intros [[b H]|[H|H]]; discriminate].
    - split; [intros _; left; by exists b | intros _; by destruct b].
    - rewrite orb_false_r. rewrite orb_true_iff, !Z.eqb_eq.
      split; [intros [->| ->]; auto | intros [[b H]|[H|H]]; [discriminate| |];
                                       injection H as ->; auto].
    - split; [discriminate | intros [[b H]|[H|H]]; discriminate].
    - split; [discriminate | intros [[b H]|[H|H]]; discriminate].
    - split; [discriminate | intros [[b H]|[H|H]]; discriminate]. }
  destruct Hin as [<-|[<-|[<-|[]]]]; cbn [first_illegal valid_values PyVal.lookup String.eqb];
    cbn -[PyVal.in_list];
    destruct (PyVal.in_list value [PBool true; PBool false]) eqn:E;
    (split; [intros H; first [by apply Hlegal | discriminate H]
            | intros H; first [reflexivity | apply Hlegal in H; congruence]]).
Qed.

Lemma boolean_keys_accept_zero_and_one_witness :
  first_illegal valid_values [("preserve_xattr", PInt 1)] = None.
Proof.
  apply (boolean_keys_accept_zero_and_one "preserve_xattr" (PInt 1)).
  - simpl; auto.
  - right. right. reflexivity.
Defined.

(** X8. The defaults are acceptable to the validator: for every project
    directory, each key of the validator's table has a default, and the
    default is one of the key's legal values. *)
Theorem defaults_are_legal project_dir key legal :
  In (key, legal) valid_values ->
  exists value,
    default_build_info project_dir !! key = Some value
    /\ PyVal.in_list value legal = true.
Proof.
  intros Hin. simpl in Hin.
  destruct Hin as [H|[H|[H|[H|[H|[]]]]]]; injection H as <- <-;
    eexists; (split; [default_lookup; reflexivity | reflexivity]).
Qed.

Lemma defaults_are_legal_witness :
  exists value,
    default_build_info "/p" !! "ownership" = Some value
    /\ PyVal.in_list value [PStr "recommended"; PStr "preserve"; PStr "preserve-other"] = true.
Proof.
  apply (defaults_are_legal "/p" "ownership"). simpl; auto.
Defined.

(** ** What the reconciler leaves alone *)

Lemma reads_only_ownership_warning info root :
  reads_only (ownership_warning info root).
Proof.
  unfold ownership_warning. apply reads_only_bind.
  - intros s. unfold info_get. by destruct (info !! "ownership").
  - intros v. destruct (_ && _); [apply reads_only_print | apply reads_only_ret].
Qed.

Section Preserving.

Variable R : gmap string inode -> gmap string inode -> Prop.
Hypothesis R_refl : forall t, R t t.
Hypothesis R_trans : forall a b c, R a b -> R b c -> R a c.

Lemma preserving_reads_only {A} (c : M A) : reads_only c -> preserving R c.
Proof. intros H s. rewrite (H s). apply R_refl. Qed.

Lemma preserving_bind {A B} (c : M A) (k : A -> M B) :
  preserving R c -> (forall a, preserving R (k a)) -> preserving R (bind c k).
Proof.
  intros Hc Hk s. unfold bind. specialize (Hc s).
  destruct (c s) as [[a|ex] s1]; cbn [snd] in *; [|done].
  eapply R_trans; [exact Hc | apply Hk].
Qed.

Lemma preserving_try {A} (c : M A) h :
  preserving R c -> (forall ex k, h ex = Some k -> preserving R k) ->
  preserving R (try_except c h).
Proof.
  intros Hc Hh s. unfold try_except. specialize (Hc s).
  destruct (c s) as [[a|ex] s1]; cbn [snd] in *; [done|].
  destruct (h ex) as [k|] eqn:E; [|done].
  eapply R_trans; [exact Hc | by eapply Hh].
Qed.

Lemma preserving_display e message quiet : preserving R (display e message quiet).
Proof.
  apply preserving_reads_only. unfold display.
  destruct quiet; [apply reads_only_ret | apply reads_only_print].
Qed.

Variable e : env.
Variable allowed : string -> Prop.
Hypothesis R_lchmod : forall p mode, allowed p -> preserving R (Os.lchmod e p mode).
Hypothesis R_lchown : forall p uid gid, allowed p -> preserving R (Os.lchown e p uid gid).
Hypothesis R_mkdir : forall p mode, allowed p -> preserving R (Os.mkdir e p mode).

Lemma preserving_apply_entry opts payload_dir root en c :
  allowed (payload_path payload_dir en) ->
  preserving R (apply_entry e opts payload_dir root en c).
Proof.
  intros Hallowed. unfold apply_entry. cbv zeta.
  repeat first
    [ apply preserving_display
    | apply R_lchmod; exact Hallowed
    | apply R_lchown; exact Hallowed
    | apply R_mkdir; exact Hallowed
    | apply preserving_reads_only;
      first [ apply reads_only_ret | apply reads_only_print
            | apply reads_only_lexists
            | (intros s; unfold Os.lstat; by repeat case_match) ]
    | apply preserving_bind; [|intros ?]
    | match goal with
      | |- preserving R (if ?b then _ else _) => destruct b
      | |- preserving R (match ?x with _ => _ end) => destruct x
      end ].
Qed.

Lemma preserving_sync_item opts payload_dir root item c :
  (forall en, decode_line item = Entry en -> allowed (payload_path payload_dir en)) ->
  preserving R (sync_item e opts payload_dir root item c).
Proof.
  intros Hallowed s. rewrite sync_item_decode.
  destruct (decode_line item) as [|en|ex]; [apply R_refl| |apply R_refl].
  by apply preserving_apply_entry, Hallowed.
Qed.

Lemma preserving_sync_loop opts payload_dir root items c :
  (forall en, In en (entries items) -> allowed (payload_path payload_dir en)) ->
  preserving R (sync_loop e opts payload_dir root items c).
Proof.
  revert c. induction items as [|item rest IH]; intros c Hallowed; cbn [sync_loop].
  - apply preserving_reads_only, reads_only_ret.
  - apply preserving_bind.
    + apply preserving_sync_item. intros en Hdec. apply Hallowed.
      cbn [entries]. rewrite Hdec. by left.
    + intros [[|] c1]; [|apply preserving_reads_only, reads_only_ret].
      apply IH. intros en Hin. apply Hallowed. cbn [entries].
      destruct (decode_line item); [done | by right | done].
Qed.

Lemma preserving_reconcile project_dir opts s :
  (forall en, In en (entries (bom_items project_dir (fs s))) ->
              allowed (payload_path (PyStr.path_join project_dir "payload") en)) ->
  R (fs s) (fs (snd (reconcile e project_dir opts s))).
Proof.
  intros Hallowed. unfold reconcile.
  assert (forall A (k : option (Z * Z) -> M A),
            (forall a, preserving R (k a)) ->
            R (fs s)
              (fs (snd (bind
                 (try_except
                    (do items <- Os.open_lines (PyStr.path_join project_dir BOM_TEXT_FILE);
                     do r <- sync_loop e opts (PyStr.path_join project_dir "payload")
                               (euid e =? 0) items 0;
                     ret (Some r))
                    (fun err => if is_OSError_or_ValueError err
                                then Some (do _ <- print Stderr ("ERROR: " +:+ exn_str err);
                                           ret None)
                                else None)) k s)))) as Hgen.
  { intros A k Hk. unfold bind at 1. unfold try_except. unfold bind at 1.
    unfold Os.open_lines. unfold bom_items in Hallowed.
    destruct (fs s !! Os.resolve (PyStr.path_join project_dir BOM_TEXT_FILE)) as [node|].
    - destruct (Os.S_ISDIR (st_mode node)).
      + exact (Hk None (mk_state (fs s) _)).
      + pose proof (preserving_sync_loop opts (PyStr.path_join project_dir "payload")
                      (euid e =? 0) _ 0 Hallowed s) as Hloop.
        unfold bind at 1.
        destruct (sync_loop _ _ _ _ _ 0 s) as [[r|ex] s1]; cbn [snd] in Hloop.
        * unfold ret at 1. cbv beta iota. eapply R_trans; [exact Hloop | apply Hk].
        * destruct (is_OSError_or_ValueError ex); [|exact Hloop].
          unfold bind at 1, print. cbv beta iota. unfold ret at 1. cbv beta iota.
          eapply R_trans; [exact Hloop | exact (Hk None (mk_state (fs s1) _))].
    - exact (Hk None (mk_state (fs s) _)). }
  apply Hgen. intros [[rc c]|].
  - apply preserving_bind; [|intros ?; apply preserving_reads_only, reads_only_ret].
    destruct ((rc =? 0) && negb (opt_quiet opts));
      [destruct (negb (c =? 0)); apply preserving_display
      | apply preserving_reads_only, reads_only_ret].
  - apply preserving_reads_only, reads_only_ret.
Qed.

Lemma preserving_sync_traced project_dir opts s :
  (forall en, In en (entries (bom_items project_dir (fs s))) ->
              allowed (payload_path (PyStr.path_join project_dir "payload") en)) ->
  R (fs s) (fs (snd (sync_from_bom_info_traced e project_dir opts s))).
Proof.
  intros Hallowed. unfold sync_from_bom_info_traced. unfold bind at 1.
  pose proof (reads_only_try (get_build_info e project_dir opts)
                (fun err => if is_MunkiPkgError err
                            then Some (ret (default_build_info project_dir)) else None)
                (reads_only_get_build_info e project_dir opts)) as Hro.
  assert (forall ex (k : M (gmap string pyval)),
            (if is_MunkiPkgError ex
             then Some (ret (default_build_info project_dir)) else None) = Some k ->
            reads_only k) as Hhandler.
  { intros ex k H. destruct (is_MunkiPkgError ex); [|discriminate].
    injection H as <-. apply reads_only_ret. }
  specialize (Hro Hhandler s).
  destruct (try_except _ _ s) as [[info|ex] s1]; cbn [snd] in Hro;
    [|cbn [snd]; rewrite Hro; apply R_refl].
  rewrite <- Hro in *. unfold sync_with. unfold bind at 1, Os.lexists.
  destruct (bool_decide _); cbn [negb].
  - unfold bind at 1.
    pose proof (reads_only_ownership_warning info (euid e =? 0) s1) as Hw.
    destruct (ownership_warning info (euid e =? 0) s1) as [[[]|ex] s2]; cbn [snd] in Hw;
      [|cbn [snd]; rewrite Hw; apply R_refl].
    rewrite <- Hw in *. by apply preserving_reconcile.
  - apply R_refl.
Qed.

End Preserving.

Lemma sync_state e project_dir opts s :
  snd (sync_from_bom_info e project_dir opts s)
  = snd (sync_from_bom_info_traced e project_dir opts s).
Proof.
  unfold sync_from_bom_info, bind.
  by destruct (sync_from_bom_info_traced e project_dir opts s) as [[r|ex] s'].
Qed.

Lemma set_perm_type mode desired :
  Z.land (set_perm mode desired) Os.S_IFMT = Z.land mode Os.S_IFMT.
Proof.
  unfold set_perm. rewrite Z.land_lor_distr_l.
  rewrite Z.ldiff_land, <- !Z.land_assoc.
  change (Z.land (Z.lnot Os.ALLPERMS) Os.S_IFMT) with Os.S_IFMT.
  change (Z.land Os.ALLPERMS Os.S_IFMT) with 0.
  by rewrite Z.land_0_r, Z.lor_0_r.
Qed.

Lemma keeps_nodes_refl t : keeps_nodes t t.
Proof. intros key a H. by exists a. Qed.

Lemma keeps_nodes_trans a b c : keeps_nodes a b -> keeps_nodes b c -> keeps_nodes a c.
Proof.
  intros Hab Hbc key x Hx.
  destruct (Hab key x Hx) as (y & Hy & Hd & Hm).
  destruct (Hbc key y Hy) as (z & Hz & Hd' & Hm').
  exists z. split; [done|]. split; congruence.
Qed.

Lemma keeps_nodes_insert t key node node' :
  t !! key = Some node ->
  st_data node' = st_data node ->
  Z.land (st_mode node') Os.S_IFMT = Z.land (st_mode node) Os.S_IFMT ->
  keeps_nodes t (<[key := node']> t).
Proof.
  intros Hnode Hd Hm k a Ha. destruct (decide (key = k)) as [<-|Hne].
  - exists node'. rewrite lookup_insert_eq. split; [done|]. split; congruence.
  - exists a. by rewrite lookup_insert_ne.
Qed.

Lemma keeps_nodes_new t key node :
  t !! key = None -> keeps_nodes t (<[key := node]> t).
Proof.
  intros Hnone k a Ha. exists a. rewrite lookup_insert_ne; [done|]. congruence.
Qed.

Lemma keeps_nodes_lchmod e p mode : preserving keeps_nodes (Os.lchmod e p mode).
Proof.
  intros s. unfold Os.lchmod.
  destruct (fs s !! Os.resolve p) as [i|] eqn:E; [|apply keeps_nodes_refl].
  destruct (_ || _); [|apply keeps_nodes_refl].
  apply (keeps_nodes_insert _ _ i); [done | done | apply set_perm_type].
Qed.

Lemma keeps_nodes_lchown e p uid gid : preserving keeps_nodes (Os.lchown e p uid gid).
Proof.
  intros s. unfold Os.lchown.
  destruct (negb _); [apply keeps_nodes_refl|].
  destruct (fs s !! Os.resolve p) as [i|] eqn:E; [|apply keeps_nodes_refl].
  destruct (euid e =? 0); [|apply keeps_nodes_refl].
  by apply (keeps_nodes_insert _ _ i).
Qed.

Lemma keeps_nodes_mkdir e p mode : preserving keeps_nodes (Os.mkdir e p mode).
Proof.
  intros s. unfold Os.mkdir.
  destruct (fs s !! Os.resolve p) as [i|] eqn:E; [apply keeps_nodes_refl|].
  destruct (fs s !! Os.parent p) as [dir|]; [|apply keeps_nodes_refl].
  destruct (Os.S_ISDIR (st_mode dir)); [|apply keeps_nodes_refl].
  by apply keeps_nodes_new.
Qed.

(** X9. However a run of [sync_from_bom_info] ends, every node that was
    in the file system before is still there, of the same type and with
    the same content: the reconciler removes nothing, renames nothing and
    writes to no file. *)
Theorem sync_removes_nothing e project_dir opts s :
  keeps_nodes (fs s) (fs (snd (sync_from_bom_info e project_dir opts s))).
Proof.
  rewrite sync_state.
  apply (preserving_sync_traced keeps_nodes keeps_nodes_refl keeps_nodes_trans e
           (fun _ => True)).
  - intros p mode _. apply keeps_nodes_lchmod.
  - intros p uid gid _. apply keeps_nodes_lchown.
  - intros p mode _. apply keeps_nodes_mkdir.
  - done.
Qed.

Lemma keeps_owners_refl t : keeps_owners t t.
Proof. intros key a H. by exists a. Qed.

Lemma keeps_owners_trans a b c :
  keeps_owners a b -> keeps_owners b c -> keeps_owners a c.
Proof.
  intros Hab Hbc key x Hx.
  destruct (Hab key x Hx) as (y & Hy & Hu & Hg).
  destruct (Hbc key y Hy) as (z & Hz & Hu' & Hg').
  exists z. split; [done|]. split; congruence.
Qed.

Lemma keeps_owners_lchmod e p mode : preserving keeps_owners (Os.lchmod e p mode).
Proof.
  intros s. unfold Os.lchmod.
  destruct (fs s !! Os.resolve p) as [i|] eqn:E; [|apply keeps_owners_refl].
  destruct (_ || _); [|apply keeps_owners_refl].
  intros k a Ha. cbn [snd fs]. destruct (decide (Os.resolve p = k)) as [<-|Hne].
  - rewrite lookup_insert_eq. eexists. split; [done|]. cbn. by simplify_eq.
  - exists a. by rewrite lookup_insert_ne.
Qed.

Lemma keeps_owners_lchown e p uid gid :
  euid e <> 0 -> preserving keeps_owners (Os.lchown e p uid gid).
Proof.
  intros Huser s. unfold Os.lchown.
  destruct (negb _); [apply keeps_owners_refl|].
  destruct (fs s !! Os.resolve p) as [i|] eqn:E; [|apply keeps_owners_refl].
  destruct (euid e =? 0) eqn:Hroot; [|apply keeps_owners_refl].
  by apply Z.eqb_eq in Hroot.
Qed.

Lemma keeps_owners_mkdir e p mode : preserving keeps_owners (Os.mkdir e p mode).
Proof.
  intros s. unfold Os.mkdir.
  destruct (fs s !! Os.resolve p) as [i|] eqn:E; [apply keeps_owners_refl|].
  destruct (fs s !! Os.parent p) as [dir|]; [|apply keeps_owners_refl].
  destruct (Os.S_ISDIR (st_mode dir)); [|apply keeps_owners_refl].
  intros k a Ha. exists a. cbn [snd fs]. rewrite lookup_insert_ne; [done|]. congruence.
Qed.

(** X10. Run by anyone but the superuser, [sync_from_bom_info] changes the
    owner and the group of no node, whatever Bom.txt declares. *)
Theorem unprivileged_sync_keeps_owners e project_dir opts s :
  euid e <> 0 ->
  keeps_owners (fs s) (fs (snd (sync_from_bom_info e project_dir opts s))).
Proof.
  intros Huser. rewrite sync_state.
  apply (preserving_sync_traced keeps_owners keeps_owners_refl keeps_owners_trans e
           (fun _ => True)).
  - intros p mode _. apply keeps_owners_lchmod.
  - intros p uid gid _. by apply keeps_owners_lchown.
  - intros p mode _. apply keeps_owners_mkdir.
  - done.
Qed.

Lemma unprivileged_sync_keeps_owners_witness :
  let s := Sample.project [("payload/a", "hello");
                           ("Bom.txt", Sample.bom_line "./a" "100755" "0/0")] in
  keeps_owners (fs s) (fs (snd (sync_from_bom_info Sample.user_env "/p" Sample.plain s))).
Proof.
  intros s.
  apply (unprivileged_sync_keeps_owners Sample.user_env "/p" Sample.plain s).
  discriminate.
Defined.






(** ** Runs that end early, and runs with nothing to do *)

Lemma resolution_outcome e project_dir opts s :
  resolves e project_dir opts s ->
  exists info s1,
    try_except (get_build_info e project_dir opts)
      (fun err => if is_MunkiPkgError err
                  then Some (ret (default_build_info project_dir)) else None) s
    = (Ok info, s1)
    /\ fs s1 = fs s /\ is_Some (info !! "ownership").
Proof.
  intros Hres. unfold try_except.
  pose proof (reads_only_get_build_info e project_dir opts s) as Hro.
  destruct (get_build_info e project_dir opts s) as [[info|ex] s1] eqn:Hget.
  - exists info, s1. split; [done|]. split; [done|].
    by eapply get_build_info_has_ownership.
  - rewrite (Hres _ _ Hget). exists (default_build_info project_dir), s1.
    split; [done|]. split; [done|]. rewrite default_ownership. by eexists.
Qed.

(** X12. Without a Bom.txt in the project directory, and build-info
    resolved or failed as a [MunkiPkgError], [sync_from_bom_info] returns
    -1 after the line "ERROR: Can't sync with bom info: no Bom.txt found
    in project directory." on stderr, and the file system is as before. *)
Theorem missing_bom_file e project_dir opts s :
  resolves e project_dir opts s ->
  fs s !! Os.resolve (PyStr.path_join project_dir BOM_TEXT_FILE) = None ->
  exists o,
    sync_from_bom_info e project_dir opts s = (Ok (-1), mk_state (fs s) o)
    /\ last o = Some (Stderr, NO_BOM).
Proof.
  intros Hres Hnone.
  destruct (resolution_outcome _ _ _ _ Hres) as (info & s1 & Htry & Hfs & _).
  unfold sync_from_bom_info, sync_from_bom_info_traced.
  rewrite bind_assoc, (bind_ok _ _ _ _ _ Htry).
  unfold sync_with. rewrite bind_assoc.
  rewrite (bind_ok _ _ s1 false s1) by (apply lexists_absent; by rewrite Hfs).
  cbn [negb]. unfold bind, print, ret. cbn [fst].
  exists (out s1 ++ [(Stderr, NO_BOM)])%list. rewrite Hfs.
  split; [reflexivity | apply last_snoc].
Qed.

Lemma missing_bom_file_witness :
  let s := Sample.project [("payload/a", "hello")] in
  exists o,
    sync_from_bom_info Sample.user_env "/p" Sample.plain s = (Ok (-1), mk_state (fs s) o)
    /\ last o = Some (Stderr, NO_BOM).
Proof.
  intros s.
  apply (missing_bom_file Sample.user_env "/p" Sample.plain s).
  - intros ex s' H.
    assert (get_build_info Sample.user_env "/p" Sample.plain s = (Raise NOT_FOUND, s))
      as E by reflexivity.
    rewrite E in H. injection H as Hex _. rewrite <- Hex. reflexivity.
  - reflexivity.
Defined.

Lemma decode_index_error item :
  decode_line item = Malformed IndexError <->
  (item <> nl EmptyString
   /\ (length (PyStr.split PyStr.TAB (PyStr.rstrip_nl item)) < 3)%nat).
Proof.
  unfold decode_line.
  destruct (String.eqb item (nl EmptyString)) eqn:Eblank.
  - apply String.eqb_eq in Eblank. split; [discriminate | by intros [? _]].
  - apply String.eqb_neq in Eblank.
    destruct (PyStr.split PyStr.TAB (PyStr.rstrip_nl item)) as [|a [|b [|c r]]];
      cbn [lookup list_lookup length];
      try (split; [intros _; split; [done | lia] | reflexivity]).
    unfold int_or_error.
    split; [|cbn [length]; intros [_ H]; lia].
    destruct (PyNum.parse false (PyStr.partition "/" c).1.1);
      [|intros Hbad; discriminate Hbad].
    destruct (PyNum.parse false (PyStr.partition "/" c).2);
      [|intros Hbad; discriminate Hbad].
    destruct (PyNum.parse true (PyStr.last_n 4 b));
      intros Hbad; discriminate Hbad.
Qed.

(** X13. A line that does not decode ends the run there, with what the
    lines before it changed left in place. When it has fewer than three
    fields the error is an [IndexError], which nothing catches; when a
    number does not parse it is a [ValueError], which is printed behind
    "ERROR: " and turned into the return value -1. *)
Theorem malformed_line_stops_sync e project_dir opts s pre item post ex c1 tree1 o1 :
  resolves e project_dir opts s ->
  bom_items project_dir (fs s) = (pre ++ item :: post)%list ->
  sync_loop e opts (PyStr.path_join project_dir "payload") (euid e =? 0) pre 0
    (mk_state (fs s) []) = (Ok (0, c1), mk_state tree1 o1) ->
  decode_line item = Malformed ex ->
  (ex = IndexError <->
   (length (PyStr.split PyStr.TAB (PyStr.rstrip_nl item)) < 3)%nat)
  /\ exists o,
       sync_from_bom_info e project_dir opts s
       = (if is_OSError_or_ValueError ex then Ok (-1) else Raise ex, mk_state tree1 o)
       /\ (is_OSError_or_ValueError ex = true ->
           last o = Some (Stderr, caught_message ex)).
Proof.
  intros Hres Hitems Hpre Hdec. split.
  { split.
    - intros ->. by apply decode_index_error in Hdec as [_ H].
    - intros Hlen.
      assert (item <> nl EmptyString) as Hne.
      { intros ->. discriminate Hdec. }
      pose proof (proj2 (decode_index_error item) (conj Hne Hlen)) as H.
      congruence. }
  assert (exists first rest, (pre ++ item :: post)%list = first :: rest)
    as (first & rest & Hcons) by (destruct pre; eauto).
  rewrite Hcons in Hitems.
  destruct (bom_items_file _ _ _ _ Hitems) as (node & Hnode & Hfile & Hlines).
  assert (present s (PyStr.path_join project_dir BOM_TEXT_FILE)) as Hbom
    by (by exists node).
  destruct (sync_prelude _ _ _ _ Hres Hbom) as (s_pre & Hfs & Htraced).
  unfold sync_from_bom_info. unfold bind at 1. rewrite Htraced.
  rewrite <- Hfs in Hnode, Hpre.
  rewrite (reconcile_loop _ _ _ _ _ Hnode Hfile), Hlines, <- Hcons.
  rewrite (sync_loop_app _ _ _ _ _ _ _ _ _ _ (sync_loop_frame _ _ _ _ _ _ _ _ _ _ Hpre)).
  cbn [sync_loop]. unfold bind at 1. rewrite sync_item_decode, Hdec.
  destruct (is_OSError_or_ValueError ex).
  - eexists. split; [reflexivity|]. intros _. apply last_snoc.
  - eexists. split; [reflexivity|]. discriminate.
Qed.

Lemma malformed_line_stops_sync_witness :
  let s := Sample.project
             [("payload/a", "hello");
              ("Bom.txt", Sample.bom_line "./a" "100755" "0/0"
                          +:+ Sample.bom_line "./b" "100644" "root/wheel")] in
  exists o,
    sync_from_bom_info Sample.user_env "/p" Sample.plain s
    = (Ok (-1), mk_state (<["/p/payload/a" := Sample.file_node 493 501 20 "hello"]> (fs s)) o)
    /\ last o = Some (Stderr, "ERROR: invalid literal for int() with base 10: 'root'").
Proof.
  intros s.
  destruct (malformed_line_stops_sync Sample.user_env "/p" Sample.plain s
              [Sample.bom_line "./a" "100755" "0/0"]
              (Sample.bom_line "./b" "100644" "root/wheel") []
              (ValueError "invalid literal for int() with base 10: 'root'") 1
              (<["/p/payload/a" := Sample.file_node 493 501 20 "hello"]> (fs s))
              [(Stdout, "munkipkg: Changing mode of /p/payload/a to 0o755")])
    as (_ & o & Hrun & Hlast).
  - intros ex s' H.
    assert (get_build_info Sample.user_env "/p" Sample.plain s = (Raise NOT_FOUND, s))
      as E by reflexivity.
    rewrite E in H. injection H as Hex _. rewrite <- Hex. reflexivity.
  - reflexivity.
  - vm_compute. reflexivity.
  - reflexivity.
  - exists o. split; [exact Hrun | by apply Hlast].
Defined.





(** ** Ownership other than root/wheel in Bom.txt *)

Lemma other_owner_loop_passes pre rest s :
  forallb recommended_line pre = true ->
  other_owner_loop (pre ++ rest) s = other_owner_loop rest s.
Proof.
  induction pre as [|item pre IH]; intros H; [reflexivity|].
  cbn [forallb] in H. apply andb_true_iff in H as [Hitem Hpre].
  cbn [app other_owner_loop]. unfold recommended_line, owner_field in Hitem.
  destruct (String.eqb item (nl EmptyString)); [by apply IH|].
  cbn [orb] in Hitem. unfold index.
  destruct (PyStr.split PyStr.TAB (PyStr.rstrip_nl item) !! 2%nat) as [ug|];
    [|discriminate].
  rewrite (bind_ok _ _ s ug s) by reflexivity. rewrite Hitem. cbn [negb].
  by apply IH.
Qed.

(** X15. What [non_recommended_permissions_in_bom] answers for a Bom.txt
    that is a file: [False], printing nothing, when every line is blank or
    has the third field 0/0 as written; [True] at the first line whose
    third field is anything else, whatever follows; and an [IndexError],
    which its [except] clause does not catch, at the first line that has
    no third field. The file system is never changed. *)
Theorem bom_ownership_verdict project_dir s pre rest :
  bom_file project_dir (fs s) ->
  bom_items project_dir (fs s) = (pre ++ rest)%list ->
  forallb recommended_line pre = true ->
  match rest with
  | [] => non_recommended_permissions_in_bom project_dir s = (Ok false, s)
  | item :: _ =>
      item <> nl EmptyString ->
      match owner_field item with
      | Some user_group =>
          user_group <> "0/0" ->
          non_recommended_permissions_in_bom project_dir s = (Ok true, s)
      | None =>
          non_recommended_permissions_in_bom project_dir s = (Raise IndexError, s)
      end
  end.
Proof.
  intros (node & Hnode & Hfile) Hitems Hpre.
  unfold bom_items in Hitems. rewrite Hnode, Hfile in Hitems.
  assert (forall r,
            other_owner_loop rest s = (r, s) ->
            (forall ex, r = Raise ex -> is_OSError_or_ValueError ex = false) ->
            non_recommended_permissions_in_bom project_dir s = (r, s)) as Hrun.
  { intros r Hloop Hex. unfold non_recommended_permissions_in_bom.
    rewrite (bind_ok _ _ _ _ _ (lexists_present _ _ (ex_intro _ node Hnode))).
    cbn [negb]. unfold try_except, bind at 1, Os.open_lines.
    rewrite Hnode, Hfile, Hitems, (other_owner_loop_passes _ _ _ Hpre), Hloop.
    destruct r as [b|ex]; [reflexivity|]. by rewrite (Hex ex eq_refl). }
  destruct rest as [|item post].
  - apply Hrun; [reflexivity | discriminate].
  - intros Hblank. apply String.eqb_neq in Hblank.
    unfold owner_field. cbn [other_owner_loop] in Hrun. rewrite Hblank in Hrun.
    unfold index in Hrun.
    destruct (PyStr.split PyStr.TAB (PyStr.rstrip_nl item) !! 2%nat) as [ug|].
    + intros Hug. apply String.eqb_neq in Hug. apply Hrun; [|discriminate].
      rewrite (bind_ok _ _ s ug s) by reflexivity. by rewrite Hug.
    + apply Hrun; [reflexivity|]. intros ex H. by injection H as <-.
Qed.

Lemma bom_ownership_verdict_witness :
  let s := Sample.project
             [("Bom.txt", Sample.bom_line "." "40755" "0/0"
                          +:+ Sample.bom_line "./a" "100644" "501/20"
                          +:+ "garbage")] in
  non_recommended_permissions_in_bom "/p" s = (Ok true, s).
Proof.
  intros s.
  refine (bom_ownership_verdict "/p" s [Sample.bom_line "." "40755" "0/0"]
            [Sample.bom_line "./a" "100644" "501/20"; "garbage"] _ _ _ _ _).
  - eexists. split; reflexivity.
  - reflexivity.
  - reflexivity.
  - discriminate.
  - discriminate.
Defined.

Lemma other_owner_loop_false items s s' :
  other_owner_loop items s = (Ok false, s') ->
  forallb recommended_line items = true.
Proof.
  induction items as [|item rest IH]; [reflexivity|].
  cbn [other_owner_loop forallb]. unfold recommended_line at 1, owner_field.
  destruct (String.eqb item (nl EmptyString)); [exact IH|].
  cbn [orb]. unfold index, bind.
  destruct (PyStr.split PyStr.TAB (PyStr.rstrip_nl item) !! 2%nat) as [ug|];
    [|discriminate].
  cbn. destruct (String.eqb ug "0/0"); cbn [negb]; [exact IH | discriminate].
Qed.

Lemma other_owner_loop_raises items s ex s' :
  other_owner_loop items s = (Raise ex, s') -> ex = IndexError.
Proof.
  induction items as [|item rest IH]; [discriminate|].
  cbn [other_owner_loop].
  destruct (String.eqb item (nl EmptyString)); [exact IH|].
  unfold index, bind.
  destruct (PyStr.split PyStr.TAB (PyStr.rstrip_nl item) !! 2%nat) as [ug|].
  - cbn. destruct (negb (String.eqb ug "0/0")); [discriminate | exact IH].
  - cbn. intros H. by injection H as <-.
Qed.

Lemma recommended_line_entry item en :
  recommended_line item = true -> decode_line item = Entry en ->
  e_user en = 0 /\ e_group en = 0.
Proof.
  unfold recommended_line, owner_field, decode_line.
  destruct (String.eqb item (nl EmptyString)); [discriminate|]. cbn [orb].
  destruct (PyStr.split PyStr.TAB (PyStr.rstrip_nl item)) as [|a [|b [|c r]]];
    try discriminate.
  cbn [lookup list_lookup]. intros Hug. apply String.eqb_eq in Hug as ->.
  cbn. destruct (int_or_error true (PyStr.last_n 4 b)); [|discriminate].
  intros H. by injection H as <-.
Qed.

(** X16. The check and the reconciler agree on what they read: when
    [non_recommended_permissions_in_bom] answers [False] for a Bom.txt that
    is a file, every entry that [sync_from_bom_info] decodes from it
    declares owner 0 and group 0. *)
Theorem recommended_bom_declares_root project_dir s s' en :
  bom_file project_dir (fs s) ->
  non_recommended_permissions_in_bom project_dir s = (Ok false, s') ->
  In en (entries (bom_items project_dir (fs s))) ->
  e_user en = 0 /\ e_group en = 0.
Proof.
  intros (node & Hnode & Hfile) Hrun Hin.
  unfold bom_items in Hin. rewrite Hnode, Hfile in Hin.
  unfold non_recommended_permissions_in_bom in Hrun.
  rewrite (bind_ok _ _ _ _ _ (lexists_present _ _ (ex_intro _ node Hnode))) in Hrun.
  cbn [negb] in Hrun. unfold try_except, bind at 1, Os.open_lines in Hrun.
  rewrite Hnode, Hfile in Hrun.
  assert (forallb recommended_line (Os.lines (st_data node)) = true) as Hall.
  { destruct (other_owner_loop (Os.lines (st_data node)) s) as [[[|]|ex] s1] eqn:Hloop.
    - discriminate.
    - by eapply other_owner_loop_false.
    - exfalso. clear Hin.
      rewrite (other_owner_loop_raises _ _ _ _ Hloop) in Hrun.
      discriminate. }
  clear Hrun. induction (Os.lines (st_data node)) as [|item rest IH]; [destruct Hin|].
  cbn [forallb] in Hall. apply andb_true_iff in Hall as [Hitem Hrest].
  cbn [entries] in Hin.
  destruct (decode_line item) as [|en'|ex] eqn:Hdec; [by apply IH| |by apply IH].
  destruct Hin as [<-|Hin]; [|by apply IH].
  by eapply recommended_line_entry.
Qed.

Lemma recommended_bom_declares_root_witness :
  let s := Sample.project
             [("Bom.txt", Sample.bom_line "." "40755" "0/0"
                          +:+ Sample.bom_line "./a" "100644" "0/0")] in
  e_user (mk_entry "a" "100644" 0 0 420) = 0
  /\ e_group (mk_entry "a" "100644" 0 0 420) = 0.
Proof.
  intros s.
  apply (recommended_bom_declares_root "/p" s s (mk_entry "a" "100644" 0 0 420)).
  - eexists. split; reflexivity.
  - reflexivity.
  - right. left. reflexivity.
Defined.

(** X17. A Bom.txt that is not there makes
    [non_recommended_permissions_in_bom] answer [False] in silence; one
    that cannot be read as a file (a directory) makes it answer [False]
    too, after the line "ERROR: ..." with the error on stderr: to its
    callers an unreadable Bom.txt looks like recommended ownership. *)
Theorem unreadable_bom_counts_as_recommended project_dir s :
  let bom := PyStr.path_join project_dir BOM_TEXT_FILE in
  (fs s !! Os.resolve bom = None ->
   non_recommended_permissions_in_bom project_dir s = (Ok false, s))
  /\ (forall node,
        fs s !! Os.resolve bom = Some node -> Os.S_ISDIR (st_mode node) = true ->
        non_recommended_permissions_in_bom project_dir s
        = (Ok false,
           mk_state (fs s) (out s ++ [(Stderr, caught_message (Os.EISDIR bom))]))).
Proof.
  intros bom. split.
  - intros Hnone. unfold non_recommended_permissions_in_bom.
    by rewrite (bind_ok _ _ _ _ _ (lexists_absent _ _ Hnone)).
  - intros node Hnode Hdir. unfold non_recommended_permissions_in_bom.
    rewrite (bind_ok _ _ _ _ _ (lexists_present _ _ (ex_intro _ node Hnode))).
    cbn [negb]. unfold try_except, bind at 1, Os.open_lines.
    fold bom. by rewrite Hnode, Hdir.
Qed.

Lemma unreadable_bom_counts_as_recommended_witness :
  let s := Sample.project [] in
  non_recommended_permissions_in_bom "/p" s = (Ok false, s).
Proof.
  intros s.
  apply (proj1 (unreadable_bom_counts_as_recommended "/p" s)). reflexivity.
Defined.

(** ** Assembling command lines *)

Lemma appends_cret {A} (a : A) : appends (cret a).
Proof. intros cmd s. exists []. cbn. by rewrite app_nil_r. Qed.

Lemma appends_craise {A} ex : appends (@craise A ex).
Proof. intros cmd s. exists []. cbn. by rewrite app_nil_r. Qed.

Lemma appends_lift {A} (c : M A) : appends (lift c).
Proof.
  intros cmd s. exists []. unfold lift. destruct (c s). cbn. by rewrite app_nil_r.
Qed.

Lemma appends_extend items : appends (extend items).
Proof. intros cmd s. by exists items. Qed.

Lemma appends_cbind {A B} (c : CM A) (k : A -> CM B) :
  appends c -> (forall a, appends (k a)) -> appends (cbind c k).
Proof.
  intros Hc Hk cmd s. unfold cbind. destruct (Hc cmd s) as (added & Hadded).
  destruct (c cmd s) as [[[a|ex] cmd1] s1]; cbn [fst snd] in *; subst cmd1.
  - destruct (Hk a (cmd ++ added)%list s1) as (more & Hmore).
    exists (added ++ more)%list. by rewrite Hmore, app_assoc.
  - by exists added.
Qed.

Lemma appends_cert_names names : appends (add_cert_names names).
Proof.
  induction names as [|name rest IH]; cbn [add_cert_names].
  - apply appends_cret.
  - apply appends_cbind; [apply appends_extend | intros _; apply IH].
Qed.

Ltac appends :=
  repeat first
    [ apply appends_cret | apply appends_craise | apply appends_lift
    | apply appends_extend | apply appends_cert_names
    | apply appends_cbind; [|intros ?]
    | match goal with
      | |- appends (if ?b then _ else _) => destruct b
      | |- appends (match ?x with _ => _ end) => destruct x
      end ].

(** X18. [add_signing_options_to_cmd] only ever appends: whatever the
    build-info holds and however the call ends, also in an exception, the
    command is the one it was given followed by what was added. Without
    a [signing_info] key nothing is added and nothing is printed. *)
Theorem signing_options_only_append e build_info opts cmd s :
  (exists added,
     snd (fst (add_signing_options_to_cmd e build_info opts cmd s))
     = (cmd ++ added)%list)
  /\ (build_info !! "signing_info" = None ->
      add_signing_options_to_cmd e build_info opts cmd s = (Ok tt, cmd, s)).
Proof.
  split.
  - assert (appends (add_signing_options_to_cmd e build_info opts)) as H; [|apply H].
    unfold add_signing_options_to_cmd.
    destruct (build_info !! "signing_info") as [signing_info|]; appends.
  - intros Hnone. unfold add_signing_options_to_cmd. by rewrite Hnone.
Qed.

Lemma cbind_ext {A B} (c : CM A) (k k' : A -> CM B) cmd s :
  (forall a cmd' s', k a cmd' s' = k' a cmd' s') ->
  cbind c k cmd s = cbind c k' cmd s.
Proof.
  intros H. unfold cbind. destruct (c cmd s) as [[[a|ex] cmd1] s1]; [apply H|done].
Qed.

Lemma dict_branch {A B} d key (F : pyval -> CM A) (G : CM A) (K : A -> CM B) cmd s :
  cbind (lift (py_contains (PDict d) key))
    (fun has => cbind (if has then cbind (lift (py_getitem (PDict d) key)) F else G) K)
    cmd s
  = cbind (match PyVal.lookup key d with Some v => F v | None => G end) K cmd s.
Proof.
  unfold py_contains, py_getitem. unfold cbind at 1, lift at 1, ret at 1.
  destruct (PyVal.lookup key d) as [v|].
  - rewrite bool_decide_eq_true_2 by (by eexists). reflexivity.
  - rewrite bool_decide_eq_false_2 by (by intros [? ?]). reflexivity.
Qed.

Lemma dict_branch_last {A} d key (F : pyval -> CM A) (G : CM A) cmd s :
  cbind (lift (py_contains (PDict d) key))
    (fun has => if has then cbind (lift (py_getitem (PDict d) key)) F else G) cmd s
  = (match PyVal.lookup key d with Some v => F v | None => G end) cmd s.
Proof.
  unfold py_contains, py_getitem. unfold cbind at 1, lift at 1, ret at 1.
  destruct (PyVal.lookup key d) as [v|].
  - rewrite bool_decide_eq_true_2 by (by eexists). reflexivity.
  - rewrite bool_decide_eq_false_2 by (by intros [? ?]). reflexivity.
Qed.

(** The builder on a mapping, by what the mapping has for its four keys *)
Lemma add_signing_dict e build_info opts d cmd s :
  build_info !! "signing_info" = Some (PDict d) ->
  add_signing_options_to_cmd e build_info opts cmd s
  = signing_plan e opts (PyVal.lookup "identity" d) (PyVal.lookup "keychain" d)
      (PyVal.lookup "additional_cert_names" d) (PyVal.lookup "timestamp" d) cmd s.
Proof.
  intros H. unfold add_signing_options_to_cmd, signing_plan. rewrite H.
  apply cbind_ext. intros _ cmd1 s1.
  rewrite dict_branch. apply cbind_ext. intros _ cmd2 s2.
  rewrite dict_branch. apply cbind_ext. intros _ cmd3 s3.
  rewrite dict_branch. apply cbind_ext. intros _ cmd4 s4.
  rewrite dict_branch_last. reflexivity.
Qed.

(** X19. One certificate name given as a string is taken for the list of
    that one name: the two spellings of [additional_cert_names] give the
    same command, the same output and the same result. *)
Theorem single_cert_name_is_a_list e build_info opts d name cmd s :
  add_signing_options_to_cmd e
    (<["signing_info" := PDict (dict_set "additional_cert_names" (PStr name) d)]>
       build_info) opts cmd s
  = add_signing_options_to_cmd e
      (<["signing_info" := PDict (dict_set "additional_cert_names"
                                    (PList [PStr name]) d)]> build_info) opts cmd s.
Proof.
  rewrite !(add_signing_dict _ _ _ _ _ _ (lookup_insert_eq _ _ _)).
  rewrite !(lookup_dict_set_ne "additional_cert_names" "identity") by discriminate.
  rewrite !(lookup_dict_set_ne "additional_cert_names" "keychain") by discriminate.
  rewrite !(lookup_dict_set_ne "additional_cert_names" "timestamp") by discriminate.
  rewrite !lookup_dict_set_eq. reflexivity.
Qed.

Lemma lift_ok {A B} (c : M A) (k : A -> CM B) cmd s a s1 :
  c s = (Ok a, s1) -> cbind (lift c) k cmd s = k a cmd s1.
Proof. intros H. unfold cbind, lift. by rewrite H. Qed.

Lemma lift_raise {A B} (c : M A) (k : A -> CM B) cmd s ex s1 :
  c s = (Raise ex, s1) -> cbind (lift c) k cmd s = (Raise ex, cmd, s1).
Proof. intros H. unfold cbind, lift. by rewrite H. Qed.

(** X20. With a mapping for [notarization_info],
    [add_authentication_options] appends [--password] and the password
    when there is one, whatever else is given; without a password it
    appends [--apiKey] and [--apiIssuer] with their values when both keys
    are there; otherwise it raises the [MunkiPkgError] that asks for them
    and the command is as it was. The state is never changed. *)
Theorem authentication_options build_info d cmd s :
  build_info !! "notarization_info" = Some (PDict d) ->
  add_authentication_options build_info cmd s =
  match PyVal.lookup "password" d with
  | Some password => (Ok tt, (cmd ++ [PStr "--password"; password])%list, s)
  | None =>
      match PyVal.lookup "api_key" d, PyVal.lookup "api_issuer" d with
      | Some api_key, Some api_issuer =>
          (Ok tt,
           (cmd ++ [PStr "--apiKey"; api_key; PStr "--apiIssuer"; api_issuer])%list, s)
      | _, _ => (Raise NO_CREDENTIALS, cmd, s)
      end
  end.
Proof.
  intros Hinfo. unfold add_authentication_options.
  rewrite (lift_ok _ _ cmd s (PDict d) s) by (unfold info_get; by rewrite Hinfo).
  unfold py_contains, py_getitem.
  destruct (PyVal.lookup "password" d) as [password|].
  - rewrite (lift_ok _ _ cmd s true s)
      by (unfold ret; by rewrite bool_decide_eq_true_2 by (by eexists)).
    reflexivity.
  - rewrite (lift_ok _ _ cmd s false s)
      by (unfold ret; by rewrite bool_decide_eq_false_2 by (by intros [? ?])).
    destruct (PyVal.lookup "api_key" d) as [api_key|].
    + rewrite (lift_ok _ _ cmd s true s)
        by (unfold ret; by rewrite bool_decide_eq_true_2 by (by eexists)).
      destruct (PyVal.lookup "api_issuer" d) as [api_issuer|].
      * rewrite (lift_ok _ _ cmd s true s)
          by (unfold ret; by rewrite bool_decide_eq_true_2 by (by eexists)).
        reflexivity.
      * rewrite (lift_ok _ _ cmd s false s)
          by (unfold ret; by rewrite bool_decide_eq_false_2 by (by intros [? ?])).
        reflexivity.
    + rewrite (lift_ok _ _ cmd s false s)
        by (unfold ret; by rewrite bool_decide_eq_false_2 by (by intros [? ?])).
      reflexivity.
Qed.

Lemma authentication_options_witness :
  add_authentication_options
    (<["notarization_info" :=
         PDict [("api_key", PStr "K"); ("password", PStr "@keychain:AC")]]>
       (default_build_info "/p"))
    [PStr "/usr/bin/xcrun"; PStr "altool"] (Sample.project [])
  = (Ok tt,
     [PStr "/usr/bin/xcrun"; PStr "altool"; PStr "--password"; PStr "@keychain:AC"],
     Sample.project []).
Proof.
  apply (authentication_options _
           [("api_key", PStr "K"); ("password", PStr "@keychain:AC")]).
  apply lookup_insert_eq.
Defined.

(** X21. A [signing_info] mapping without [identity] makes
    [add_signing_options_to_cmd] raise the [BuildError] "Missing identity in
    signing info!" after its message on stdout (unless [--quiet]) and
    before anything is added: the command is as it was given. *)
Theorem missing_identity_adds_nothing e build_info opts d cmd s :
  build_info !! "signing_info" = Some (PDict d) ->
  PyVal.lookup "identity" d = None ->
  add_signing_options_to_cmd e build_info opts cmd s
  = (Raise (BuildError "Missing identity in signing info!"), cmd,
     mk_state (fs s)
       (out s ++ shown e (opt_quiet opts) "Adding package signing info to command")).
Proof.
  intros Hinfo Hid. rewrite (add_signing_dict _ _ _ _ _ _ Hinfo), Hid.
  unfold signing_plan.
  rewrite (lift_ok _ _ _ _ _ _ (display_shown _ _ _ _)). reflexivity.
Qed.

Lemma missing_identity_adds_nothing_witness :
  add_signing_options_to_cmd Sample.user_env
    (<["signing_info" := PDict [("keychain", PStr "login.keychain")]]>
       (default_build_info "/p"))
    Sample.plain [PStr "/usr/bin/pkgbuild"] (Sample.project [])
  = (Raise (BuildError "Missing identity in signing info!"), [PStr "/usr/bin/pkgbuild"],
     mk_state (fs (Sample.project []))
       [(Stdout, "munkipkg: Adding package signing info to command")]).
Proof.
  apply (missing_identity_adds_nothing Sample.user_env _ Sample.plain
           [("keychain", PStr "login.keychain")]).
  - apply lookup_insert_eq.
  - reflexivity.
Defined.

Lemma has_char_app c a b :
  PyVal.has_char c (a +:+ b) = PyVal.has_char c a || PyVal.has_char c b.
Proof.
  induction a as [|d a IH]; [reflexivity|].
  change (String d a +:+ b) with (String d (a +:+ b)).
  cbn [PyVal.has_char]. by rewrite IH, orb_assoc.
Qed.

Lemma replace_removes_char c new s :
  PyVal.has_char c new = false ->
  PyVal.has_char c (PyStr.replace s (String c EmptyString) new) = false.
Proof.
  intros Hnew. unfold PyStr.replace. induction s as [|a r IH]; [reflexivity|].
  destruct (String.prefix (String c EmptyString) (String a r)) eqn:Hp.
  - rewrite replace_go_hit by done. cbn [String.length Nat.sub].
    by rewrite has_char_app, Hnew, IH.
  - rewrite replace_go_miss by done. cbn [PyVal.has_char]. rewrite IH.
    simpl in Hp. destruct (ascii_dec c a) as [->|Hne].
    + by destruct r.
    + rewrite orb_false_r. by apply Ascii.eqb_neq.
Qed.

(** X22. The bundle id that [get_primary_bundle_id] returns holds no
    underscore: it is the [primary_bundle_id] of [notarization_info], or
    the package identifier when that key is absent, with every underscore
    replaced by a hyphen. The state is not changed. *)
Theorem primary_bundle_id_has_no_underscore build_info s :
  match get_primary_bundle_id build_info s with
  | (Ok id, s') =>
      s' = s
      /\ PyVal.has_char "_"%char id = false
      /\ exists d identifier chosen,
           build_info !! "notarization_info" = Some (PDict d)
           /\ build_info !! "identifier" = Some identifier
           /\ PStr chosen = match PyVal.lookup "primary_bundle_id" d with
                            | Some v => v
                            | None => identifier
                            end
           /\ id = PyStr.replace chosen "_" "-"
  | (Raise ex, s') => s' = s
  end.
Proof.
  unfold get_primary_bundle_id, bind, info_get, py_get, ret, raise.
  destruct (build_info !! "notarization_info") as [[| | | | |d]|]; try reflexivity.
  destruct (build_info !! "identifier") as [identifier|]; [|reflexivity].
  destruct (PyVal.lookup "primary_bundle_id" d) as [v|] eqn:Hv.
  - destruct v as [| | |chosen| |]; try reflexivity.
    split; [reflexivity|]. split; [by apply replace_removes_char|].
    exists d, identifier, chosen. by rewrite Hv.
  - destruct identifier as [| | |chosen| |]; try reflexivity.
    split; [reflexivity|]. split; [by apply replace_removes_char|].
    exists d, (PStr chosen), chosen. by rewrite Hv.
Qed.

(** ** Waiting for the notary service *)

Lemma notarization_done_true e st sleep_time opts s s' :
  notarization_done e st sleep_time opts s = (Ok true, s') ->
  exists status,
    PyVal.lookup "status" st = Some status
    /\ PyVal.eq_scalar status (PStr "success") = true.
Proof.
  unfold notarization_done, bind, py_getitem.
  destruct (PyVal.lookup "status" st) as [status|]; [|discriminate].
  unfold ret at 1. cbv beta iota.
  destruct (PyVal.eq_scalar status (PStr "success")) eqn:E; [by exists status|].
  destruct (PyVal.in_list status _).
  - destruct (display _ _ _ s) as [[[]|ex] s1]; discriminate.
  - destruct (PyVal.lookup "code" st); [|discriminate].
    destruct (PyVal.lookup "message" st); [|discriminate].
    destruct (PyVal.lookup "log_url" st); [|discriminate].
    unfold ret. cbv beta iota.
    destruct (display _ _ _ s) as [[[]|ex] s1]; discriminate.
Qed.

Lemma wait_loop_invariant e opts poll timeout fuel :
  forall (k : nat) counter sleep_time s r c p s',
    2 * counter = 5 * Z.of_nat k * (Z.of_nat k + 1) ->
    sleep_time = 5 * (Z.of_nat k + 1) ->
    ((1 <= k)%nat -> 5 * (Z.of_nat k - 1) * Z.of_nat k < 2 * timeout) ->
    timeout - counter <= Z.of_nat fuel ->
    wait_loop fuel e opts poll timeout counter sleep_time k s = (Ok (r, c, p), s') ->
    exists b,
      r = Some b
      /\ 2 * c = 5 * Z.of_nat p * (Z.of_nat p + 1)
      /\ ((1 <= p)%nat -> 5 * (Z.of_nat p - 1) * Z.of_nat p < 2 * timeout)
      /\ (b = false -> timeout <= c /\ last (out s') = Some (Stderr, TIMEOUT_EXCEEDED))
      /\ (b = true ->
          (1 <= p)%nat
          /\ exists st s1 s2 status,
               poll (p - 1)%nat s1 = (Ok st, s2)
               /\ PyVal.lookup "status" st = Some status
               /\ PyVal.eq_scalar status (PStr "success") = true).
Proof.
  induction fuel as [|fuel IH]; intros k counter sleep_time s r c p s' Hc Hs Hk Hfuel;
    cbn [wait_loop]; destruct (counter <? timeout) eqn:Hlt.
  - apply Z.ltb_lt in Hlt. lia.
  - apply Z.ltb_ge in Hlt. unfold bind, print, ret. intros H.
    injection H as <- <- <- <-. exists false.
    split; [done|]. split; [done|]. split; [done|].
    split; [intros _; split; [done | apply last_snoc] | discriminate].
  - apply Z.ltb_lt in Hlt. unfold bind at 1.
    destruct (poll k s) as [[st|ex] s1] eqn:Hpoll; [|discriminate].
    unfold bind at 1.
    destruct (notarization_done e st (sleep_time + STAPLE_SLEEP) opts s1)
      as [[[|]|ex] s2] eqn:Hdone; [| |discriminate].
    + unfold ret. intros H. injection H as <- <- <- <-. exists true.
      split; [done|]. split; [unfold STAPLE_SLEEP in *; nia|].
      split; [intros _; unfold STAPLE_SLEEP in *; nia|].
      split; [discriminate|]. intros _. split; [lia|].
      destruct (notarization_done_true _ _ _ _ _ _ Hdone) as (status & Hst & Heq).
      exists st, s, s1, status. replace (S k - 1)%nat with k by lia. done.
    + apply IH; unfold STAPLE_SLEEP in *; try nia; try lia.
  - apply Z.ltb_ge in Hlt. unfold bind, print, ret. intros H.
    injection H as <- <- <- <-. exists false.
    split; [done|]. split; [done|]. split; [done|].
    split; [intros _; split; [done | apply last_snoc] | discriminate].
Qed.

(** X23. Whatever the notary service answers, when
    [wait_for_notarization] returns, the iterations allowed sufficed, and
    with [p] the number of state requests made it has slept 5 + 10 + ... +
    5p seconds; a request is only made while the seconds slept before it
    are below the timeout. It returns [False] only with the timeout
    reached, after the line "Timeout EXCEEDED ..." on stderr, and [True]
    only when the last answer had the status [success]. *)
Theorem notarization_wait_is_bounded e poll build_info opts s r c p s' :
  wait_for_notarization_traced e poll build_info opts s = (Ok (r, c, p), s') ->
  exists b timeout,
    r = Some b
    /\ wait_for_notarization e poll build_info opts s = (Ok (Some b), s')
    /\ staple_limit build_info = Some timeout
    /\ 2 * c = 5 * Z.of_nat p * (Z.of_nat p + 1)
    /\ ((1 <= p)%nat -> 5 * (Z.of_nat p - 1) * Z.of_nat p < 2 * timeout)
    /\ (b = false -> timeout <= c /\ last (out s') = Some (Stderr, TIMEOUT_EXCEEDED))
    /\ (b = true ->
        (1 <= p)%nat
        /\ exists st s1 s2 status,
             poll (p - 1)%nat s1 = (Ok st, s2)
             /\ PyVal.lookup "status" st = Some status
             /\ PyVal.eq_scalar status (PStr "success") = true).
Proof.
  intros Hrun.
  assert (exists timeout s0,
            staple_limit build_info = Some timeout
            /\ wait_loop (Z.to_nat timeout) e opts poll timeout 0 STAPLE_SLEEP 0 s0
               = (Ok (r, c, p), s')) as (timeout & s0 & Hlimit & Hloop).
  { unfold wait_for_notarization_traced in Hrun. unfold bind at 1 in Hrun.
    destruct (display _ _ _ s) as [[[]|ex] s0]; [|discriminate].
    unfold bind at 1, info_get in Hrun. unfold staple_limit.
    destruct (build_info !! "notarization_info") as [[| | | | |d]|]; try discriminate.
    unfold ret at 1 in Hrun. cbv beta iota in Hrun.
    unfold bind at 1, py_get in Hrun.
    destruct (PyVal.lookup "staple_timeout" d) as [[|b|z| | |]|];
      try discriminate; eexists; exists s0; (split; [reflexivity | exact Hrun]). }
  destruct (wait_loop_invariant e opts poll timeout (Z.to_nat timeout) 0%nat 0
              STAPLE_SLEEP s0 r c p s') as (b & -> & Hrest);
    [reflexivity | reflexivity | lia | lia | exact Hloop |].
  exists b, timeout. split; [done|]. split; [|split; [done | exact Hrest]].
  unfold wait_for_notarization. by rewrite (bind_ok _ _ _ _ _ Hrun).
Qed.

Lemma notarization_wait_is_bounded_witness :
  exists s',
    wait_for_notarization Sample.user_env Notary.poll Notary.build_info Sample.plain
      (Sample.project [])
    = (Ok (Some true), s').
Proof.
  destruct (notarization_wait_is_bounded Sample.user_env Notary.poll Notary.build_info
              Sample.plain (Sample.project []) (Some true) 30 3%nat
              (mk_state (fs (Sample.project []))
                 [(Stdout, "munkipkg: Getting notarization state");
                  (Stdout, "munkipkg: Notarization state: in progress. Trying again in 10 seconds");
                  (Stdout, "munkipkg: Notarization state: in progress. Trying again in 15 seconds");
                  (Stdout, "munkipkg: Notarization successful. Package Approved")]))
    as (b & timeout & Hb & Hrun & _).
  - vm_compute. reflexivity.
  - injection Hb as <-. eexists. exact Hrun.
Defined.

(** X24. With the default timeout of 300 seconds (no [staple_timeout] in
    [notarization_info]) [wait_for_notarization] asks for the state at
    most 11 times and sleeps at most 330 seconds: the last sleep may carry
    it past the timeout. *)
Theorem default_notarization_wait e poll build_info opts d s r c p s' :
  build_info !! "notarization_info" = Some (PDict d) ->
  PyVal.lookup "staple_timeout" d = None ->
  wait_for_notarization_traced e poll build_info opts s = (Ok (r, c, p), s') ->
  (p <= 11)%nat /\ c <= 330.
Proof.
  intros Hinfo Hnone Hrun.
  assert (exists s0,
            wait_loop (Z.to_nat STAPLE_TIMEOUT) e opts poll STAPLE_TIMEOUT 0
              STAPLE_SLEEP 0 s0 = (Ok (r, c, p), s')) as (s0 & Hloop).
  { unfold wait_for_notarization_traced in Hrun. unfold bind at 1 in Hrun.
    destruct (display _ _ _ s) as [[[]|ex] s0]; [|discriminate].
    unfold bind at 1, info_get in Hrun. rewrite Hinfo in Hrun.
    unfold ret at 1 in Hrun. cbv beta iota in Hrun.
    unfold bind at 1, py_get in Hrun. rewrite Hnone in Hrun.
    by exists s0. }
  destruct (wait_loop_invariant e opts poll STAPLE_TIMEOUT (Z.to_nat STAPLE_TIMEOUT)
              0%nat 0 STAPLE_SLEEP s0 r c p s') as (b & _ & Hc & Hp & _);
    [reflexivity | reflexivity | lia | reflexivity | exact Hloop |].
  unfold STAPLE_TIMEOUT in Hp.
  assert (p <= 11)%nat as Hle.
  { destruct (le_lt_dec p 11) as [|Hgt]; [done|]. specialize (Hp ltac:(lia)). nia. }
  split; [exact Hle | nia].
Qed.

Lemma default_notarization_wait_witness : (3 <= 11)%nat /\ 30 <= 330.
Proof.
  apply (default_notarization_wait Sample.user_env Notary.poll Notary.build_info
           Sample.plain [("username", PStr "dev@example.com")] (Sample.project [])
           (Some true) 30 3%nat
           (mk_state (fs (Sample.project []))
              [(Stdout, "munkipkg: Getting notarization state");
               (Stdout, "munkipkg: Notarization state: in progress. Trying again in 10 seconds");
               (Stdout, "munkipkg: Notarization state: in progress. Trying again in 15 seconds");
               (Stdout, "munkipkg: Notarization successful. Package Approved")])).
  - reflexivity.
  - reflexivity.
  - vm_compute. reflexivity.
Defined.

(** ** Paths *)


Lemma string_app_nil_r (a : string) : a +:+ EmptyString = a.
Proof.
  induction a as [|x a IH]; [reflexivity|].
  change (String x (a +:+ EmptyString) = String x a). by rewrite IH.
Qed.















(** ** Creating a project *)































Section ProjectTree.

Variables (e : env) (dump : dumpers) (project_dir : string) (opts : options)
  (gid : Z) (tree : gmap string inode).
Hypothesis Hcs : Os.components project_dir <> [].






End ProjectTree.






(** X25. Without [--force], [create_template_project] refuses a project
    directory that is already there, whatever it is: it returns -1 after
    the line "ERROR: <dir> already exists! Use --force to convert it to a
    project directory." on stderr, and the file system is as before. *)
Theorem existing_directory_needs_force e dump project_dir opts s :
  present s project_dir ->
  create_template_project e dump project_dir opts false s
  = (Ok (-1), mk_state (fs s) (out s ++ [(Stderr, ALREADY_EXISTS project_dir)])).
Proof.
  intros Hpresent. unfold create_template_project.
  by rewrite (bind_ok _ _ _ _ _ (lexists_present _ _ Hpresent)).
Qed.

Lemma existing_directory_needs_force_witness :
  create_template_project NewProject.user_env NewProject.dump "/w/My Pkg" Sample.plain
    false NewProject.occupied
  = (Ok (-1),
     mk_state (fs NewProject.occupied)
       [(Stderr, "ERROR: /w/My Pkg already exists! "
                 +:+ "Use --force to convert it to a project directory.")]).
Proof.
  apply (existing_directory_needs_force NewProject.user_env NewProject.dump "/w/My Pkg"
           Sample.plain NewProject.occupied).
  unfold present. by eexists.
Defined.









(** X29. [create_template_project] makes no parent directories: when
    nothing is at the project directory and its parent is missing or is
    not a directory, it returns -1 after "ERROR: [Errno 2] No such file or
    directory: ..." (or "[Errno 20] Not a directory: ...") on stderr, and
    the file system is as before. *)
Theorem project_needs_parent_directory e dump project_dir opts force s :
  fs s !! Os.resolve project_dir = None ->
  (forall dir, fs s !! Os.parent project_dir = Some dir ->
               Os.S_ISDIR (st_mode dir) = false) ->
  exists ex,
    create_template_project e dump project_dir opts force s
    = (Ok (-1), mk_state (fs s) (out s ++ [(Stderr, "ERROR: " +:+ exn_str ex)]))
    /\ ex = match fs s !! Os.parent project_dir with
            | None => Os.ENOENT project_dir
            | Some _ => Os.ENOTDIR project_dir
            end.
Proof.
  intros Hnone Hparent.
  eexists. split; [|reflexivity].
  unfold create_template_project.
  rewrite (bind_ok _ _ _ _ _ (lexists_absent _ _ Hnone)). cbn [andb]. cbv zeta.
  unfold try_except.
  rewrite (bind_ok _ _ _ _ _ (lexists_absent _ _ Hnone)). cbn [negb].
  assert (Os.mkdir e project_dir 511 s
          = (Raise match fs s !! Os.parent project_dir with
                   | None => Os.ENOENT project_dir
                   | Some _ => Os.ENOTDIR project_dir
                   end, s)) as Hmkdir.
  { unfold Os.mkdir. rewrite Hnone.
    destruct (fs s !! Os.parent project_dir) as [dir|] eqn:E; [|done].
    by rewrite (Hparent dir). }
  rewrite (bind_raise _ _ _ _ _ Hmkdir).
  by destruct (fs s !! Os.parent project_dir).
Qed.

Lemma project_needs_parent_directory_witness :
  exists ex,
    create_template_project NewProject.user_env NewProject.dump "/w/a/My Pkg" Sample.plain
      false NewProject.site
    = (Ok (-1), mk_state (fs NewProject.site) [(Stderr, "ERROR: " +:+ exn_str ex)])
    /\ ex = Os.ENOENT "/w/a/My Pkg".
Proof.
  apply (project_needs_parent_directory NewProject.user_env NewProject.dump "/w/a/My Pkg"
           Sample.plain false NewProject.site).
  - reflexivity.
  - intros dir Hdir. discriminate Hdir.
Defined.
